(** * Order and payment ledger of the furniture shop

    A shallow embedding of the order, cart and stock handlers of the
    Express backend and of the checkout and order pages, with the
    properties of the ledger proved over it.

    Modelling choices.
    - A JavaScript [Number] holding money or a quantity is an exact
      rational ([Q]); [==] is [Qeq].  Where a theorem relates amounts
      of money it does so by the operations the code performs on them
      and by inequalities, which hold of the doubles the program
      computes with as well, not by identities of exact arithmetic; sums
      of quantities are exact in doubles for the whole quantities a cart
      holds.  The payment plan calculator is also given over the doubles
      themselves ([Checkout64]).
    - A MongoDB collection queried by [findOne] on a non-key field is a
      list in natural (insertion) order; collections only reached through
      [findById] are finite maps keyed by [_id].
    - An [ObjectId] is a number; the driver's generator is the counter
      [next_oid] of the store.
    - The payment gateway and the process environment are inputs of the
      handlers ([Env]).
    - Address, phone and delivery-date fields are written once at creation
      and read by no ledger rule; they are left out of the order record,
      and kept in the creation request, where they can make the handler
      throw.  The logger (utils/logger.js) is not part of the sources:
      its calls are taken to return and to write to the log collection
      only. *)

From Stdlib Require Import QArith Qabs Qround ZArith String List Lia Lqa Bool.
From Stdlib Require Import PrimFloat.
From stdpp Require Import gmap strings list fin_maps.
Import ListNotations.

Local Open Scope string_scope.

(** ** Numbers *)

(** [Math.round]: the nearest integer, halves towards plus infinity.  It
    is applied here to the exact product, where the code applies it to
    the product in doubles: the two agree unless the amount lies within
    a rounding error of half a centavo. *)
Definition Math_round (x : Q) : Z := Qfloor (x + (1 # 2))%Q.

(** [a ?? b] and, on values that are truthy whenever present, [a || b]. *)
Definition coalesce {A : Type} (a b : option A) : option A :=
  match a with
  | Some _ => a
  | None => b
  end.

(** Truthiness of an optional string: [undefined] and [""] are falsy. *)
Definition truthy_string (s : option string) : bool :=
  match s with
  | Some s => negb (String.eqb s "")
  | None => false
  end.

(** ** Data model *)

Definition ObjectId := N.

Record User := mkUser {
  user_name : string;
  user_email : string
}.

(** The fields of a catalog item the handlers read or write. *)
Record Item := mkItem {
  item_name : string;
  item_price : Q;
  is_customizable : bool;
  sales : Q
}.

(** A sub-document of [OrderSchema.items]. *)
Record OrderLine := mkOrderLine {
  line_id : ObjectId;
  line_item : ObjectId;
  quantity : Q;
  price : Q;
  customH : option Q;
  customW : option Q;
  customL : option Q;
  legsFrameMaterial : option string;
  tabletopMaterial : option string
}.

(** [OrderSchema] of order.model.js. *)
Record Order := mkOrder {
  order_id : ObjectId;
  user : ObjectId;
  items : list OrderLine;
  amount : Q;
  totalWithShipping : Q;
  downPayment : Q;
  balance : Q;
  paymentStatus : string;
  status : string;
  deliveryOption : string;
  shippingFee : Q;
  transactionId : option string;
  transactionHash : option string
}.

Record CartLine := mkCartLine {
  cart_line_id : ObjectId;
  cart_line_item : ObjectId;
  cart_line_quantity : Q
}.

Record Cart := mkCart {
  cart_user : ObjectId;
  cart_items : list CartLine
}.

(** The document store. *)
Record Db := mkDb {
  users : gmap ObjectId User;
  catalog : gmap ObjectId Item;
  orders : list Order;
  carts : list Cart;
  next_oid : ObjectId
}.

(** The enums of [OrderSchema]. *)
Definition paymentStatus_enum : list string :=
  ["Downpayment Received"; "Pending Full Payment"; "Fully Paid";
   "Refund Requested"; "Refunded"].

Definition status_enum : list string :=
  ["Pending"; "On Process"; "Ready for Pickup"; "Delivered"; "Picked Up";
   "Cancelled"; "Requesting for Refund"; "Refunded"].

Definition deliveryOption_enum : list string := ["shipping"; "pickup"].

Definition in_enum (s : string) (e : list string) : bool :=
  existsb (String.eqb s) e.

(** ** Field updates *)

Definition set_status (s : string) (o : Order) : Order :=
  mkOrder (order_id o) (user o) (items o) (amount o) (totalWithShipping o)
          (downPayment o) (balance o) (paymentStatus o) s
          (deliveryOption o) (shippingFee o) (transactionId o)
          (transactionHash o).

Definition set_paymentStatus (s : string) (o : Order) : Order :=
  mkOrder (order_id o) (user o) (items o) (amount o) (totalWithShipping o)
          (downPayment o) (balance o) s (status o)
          (deliveryOption o) (shippingFee o) (transactionId o)
          (transactionHash o).

Definition set_balance (b : Q) (o : Order) : Order :=
  mkOrder (order_id o) (user o) (items o) (amount o) (totalWithShipping o)
          (downPayment o) b (paymentStatus o) (status o)
          (deliveryOption o) (shippingFee o) (transactionId o)
          (transactionHash o).

Definition set_downPayment (d : Q) (o : Order) : Order :=
  mkOrder (order_id o) (user o) (items o) (amount o) (totalWithShipping o)
          d (balance o) (paymentStatus o) (status o)
          (deliveryOption o) (shippingFee o) (transactionId o)
          (transactionHash o).

Definition set_transactionHash (h : option string) (o : Order) : Order :=
  mkOrder (order_id o) (user o) (items o) (amount o) (totalWithShipping o)
          (downPayment o) (balance o) (paymentStatus o) (status o)
          (deliveryOption o) (shippingFee o) (transactionId o) h.

Definition set_orders (os : list Order) (db : Db) : Db :=
  mkDb (users db) (catalog db) os (carts db) (next_oid db).

Definition set_carts (cs : list Cart) (db : Db) : Db :=
  mkDb (users db) (catalog db) (orders db) cs (next_oid db).

Definition set_catalog (c : gmap ObjectId Item) (db : Db) : Db :=
  mkDb (users db) c (orders db) (carts db) (next_oid db).

(** ** Store operations *)

(** [Order.findById]. *)
Definition findById (os : list Order) (id : ObjectId) : option Order :=
  List.find (fun o => N.eqb (order_id o) id) os.

Definition hash_is (h : string) (o : Order) : bool :=
  match transactionHash o with
  | Some h' => String.eqb h' h
  | None => false
  end.

(** The filter [{ transactionId: s }]; an [undefined] value is sent to
    the database as [null], which matches the documents that have no
    [transactionId]. *)
Definition txid_is (s : option string) (o : Order) : bool :=
  match s, transactionId o with
  | Some s, Some s' => String.eqb s' s
  | None, None => true
  | _, _ => false
  end.

(** [Order.findOne({ transactionHash })]. *)
Definition findOne_by_hash (os : list Order) (h : string) : option Order :=
  List.find (hash_is h) os.

(** [Order.findOne({ transactionId })]. *)
Definition findOne_by_transactionId (os : list Order) (s : option string)
  : option Order :=
  List.find (txid_is s) os.

(** An update of the stored document with a given [_id]. *)
Definition update_by_id (id : ObjectId) (modify : Order -> Order)
  (os : list Order) : list Order :=
  List.map (fun o' => if N.eqb (order_id o') id then modify o' else o') os.

(** The validators of [OrderSchema] that a document of this model can
    fail: the three enums.  (The required paths are fields of the record,
    and its numbers are numbers.) *)
Definition validate (o : Order) : bool :=
  in_enum (deliveryOption o) deliveryOption_enum
  && in_enum (paymentStatus o) paymentStatus_enum
  && in_enum (status o) status_enum.

(** [order.save()] on a document read from the store and then assigned
    to: the document is validated, and the modified paths are written to
    the stored document with that [_id].  [None] when validation rejects
    the document and [save] throws. *)
Definition save (order : Order) (modify : Order -> Order)
  (os : list Order) : option (list Order) :=
  if validate (modify order)
  then Some (update_by_id (order_id order) modify os)
  else None.

(** [Order.findByIdAndUpdate(id, { status }, { new: true })]: the
    document with that [_id] is updated (update validators are off) and
    returned. *)
Definition findByIdAndUpdate_status (os : list Order) (id : ObjectId)
  (s : string) : option Order * list Order :=
  match findById os id with
  | Some o => (Some (set_status s o), update_by_id id (set_status s) os)
  | None => (None, os)
  end.

(** ** The payment plan calculator (CheckoutPage.jsx) *)

(** The calculator and the amounts of the checkout page over exact
    rationals. *)
Module Checkout.

(** An entry of [selectedItems]: the populated catalog item and the
    quantity in the cart. *)
Record Entry := mkEntry {
  entry_item : ObjectId;
  entry_price : Q;
  entry_customizable : bool;
  entry_quantity : Q
}.

Record PaymentAmounts := mkPaymentAmounts {
  customizedTotal : Q;
  normalTotal : Q;
  downPaymentAmount : Q;
  remainingBalance : Q;
  fullAmount : Q
}.

Definition itemTotal (e : Entry) : Q := (entry_price e * entry_quantity e)%Q.

(** [hasCustomizedItems]. *)
Definition hasCustomizedItems (selectedItems : list Entry) : bool :=
  existsb entry_customizable selectedItems.

(** One round of the [forEach] of [calculatePaymentAmounts], on the pair
    (customizedTotal, normalTotal). *)
Definition add_entry (acc : Q * Q) (e : Entry) : Q * Q :=
  if entry_customizable e
  then ((fst acc + itemTotal e)%Q, snd acc)
  else (fst acc, (snd acc + itemTotal e)%Q).

Definition totals (selectedItems : list Entry) : Q * Q :=
  fold_left add_entry selectedItems (0%Q, 0%Q).

(** [calculatePaymentAmounts]. *)
Definition calculatePaymentAmounts (selectedItems : list Entry)
  : PaymentAmounts :=
  let customizedTotal := fst (totals selectedItems) in
  let normalTotal := snd (totals selectedItems) in
  let downPaymentAmount := (customizedTotal * (3 # 10) + normalTotal)%Q in
  let remainingBalance := (customizedTotal * (7 # 10))%Q in
  let fullAmount := (customizedTotal + normalTotal)%Q in
  mkPaymentAmounts customizedTotal normalTotal downPaymentAmount
                   remainingBalance fullAmount.

(** [total]: the [reduce] over the selected items. *)
Definition total (selectedItems : list Entry) : Q :=
  fold_left (fun sum e => (sum + itemTotal e)%Q) selectedItems 0%Q.

(** [getActualPaymentAmount]. *)
Definition getActualPaymentAmount (selectedItems : list Entry)
  (paymentType : string) : Q :=
  if hasCustomizedItems selectedItems && String.eqb paymentType "down_payment"
  then fold_left
         (fun actualAmount e =>
            if entry_customizable e
            then (actualAmount + itemTotal e * (3 # 10))%Q
            else (actualAmount + itemTotal e)%Q)
         selectedItems 0%Q
  else total selectedItems.

(** [grandTotal]. *)
Definition grandTotal (selectedItems : list Entry) (paymentType : string)
  (shippingFee : Q) : Q :=
  (getActualPaymentAmount selectedItems paymentType + shippingFee)%Q.

End Checkout.

(** ** The payment plan calculator in double arithmetic *)

(** The same calculator over the numbers JavaScript computes with: the
    IEEE 754 binary64 values, with [+] and [*] rounded to nearest, ties
    to even.  [0.3] and [0.7] are the doubles these literals denote. *)
Module Checkout64.

Definition js_0_3 : float := 0x1.3333333333333p-2%float.
Definition js_0_7 : float := 0x1.6666666666666p-1%float.

Record Entry := mkEntry {
  entry_item : ObjectId;
  entry_price : float;
  entry_customizable : bool;
  entry_quantity : float
}.

Record PaymentAmounts := mkPaymentAmounts {
  customizedTotal : float;
  normalTotal : float;
  downPaymentAmount : float;
  remainingBalance : float;
  fullAmount : float
}.

Definition itemTotal (e : Entry) : float :=
  (entry_price e * entry_quantity e)%float.

Definition hasCustomizedItems (selectedItems : list Entry) : bool :=
  existsb entry_customizable selectedItems.

Definition add_entry (acc : float * float) (e : Entry) : float * float :=
  if entry_customizable e
  then ((fst acc + itemTotal e)%float, snd acc)
  else (fst acc, (snd acc + itemTotal e)%float).

Definition totals (selectedItems : list Entry) : float * float :=
  fold_left add_entry selectedItems (0%float, 0%float).

Definition calculatePaymentAmounts (selectedItems : list Entry)
  : PaymentAmounts :=
  let customizedTotal := fst (totals selectedItems) in
  let normalTotal := snd (totals selectedItems) in
  let downPaymentAmount :=
    (customizedTotal * js_0_3 + normalTotal)%float in
  let remainingBalance := (customizedTotal * js_0_7)%float in
  let fullAmount := (customizedTotal + normalTotal)%float in
  mkPaymentAmounts customizedTotal normalTotal downPaymentAmount
                   remainingBalance fullAmount.

(** The sum, in cart order, of price times quantity over the lines that
    are (or are not) customizable. *)
Definition subtotal (customized : bool) (sel : list Entry) : float :=
  fold_left (fun sum e => (sum + itemTotal e)%float)
    (List.filter
       (fun e => Bool.eqb (entry_customizable e) customized) sel)
    0%float.

End Checkout64.

(** ** Requests, callers and responses *)

(** [req.user], as the authentication middleware resolves it. *)
Record Caller := mkCaller {
  caller_id : ObjectId;
  caller_role : string
}.

Record Dimensions := mkDimensions {
  dim_height : option Q;
  dim_width : option Q;
  dim_length : option Q
}.

Record CustomDetails := mkCustomDetails {
  dimensions : option Dimensions;
  material3x3 : option string;
  material2x12 : option string
}.

(** An element of [req.body.items]. *)
Record ReqItem := mkReqItem {
  req_id : option ObjectId;
  req_item : option ObjectId;
  req_quantity : Q;
  req_price : Q;
  req_customH : option Q;
  req_customW : option Q;
  req_customL : option Q;
  req_legsFrameMaterial : option string;
  req_tabletopMaterial : option string;
  req_custom_details : option CustomDetails
}.

(** A value of a JSON body at a place where the handler expects text. *)
Inductive JsValue : Type :=
| js_undefined                  (* absent, or null *)
| js_string (s : string)
| js_number (q : Q)
| js_boolean (b : bool)
| js_object.                    (* an object or an array *)

Definition js_truthy (v : JsValue) : bool :=
  match v with
  | js_undefined => false
  | js_string s => negb (String.eqb s "")
  | js_number q => negb (Qeq_bool q 0)
  | js_boolean b => b
  | js_object => true
  end.

Definition js_is_string (v : JsValue) : bool :=
  match v with
  | js_string _ => true
  | _ => false
  end.

(** The cast of a value to a [String] path of the schema: text, numbers
    and booleans are taken, an object or an array is a cast error. *)
Definition casts_to_String (v : JsValue) : bool :=
  match v with
  | js_object => false
  | _ => true
  end.

(** The paths of [req.body.shippingInfo] the handler reads. *)
Record ShippingInfoBody := mkShippingInfoBody {
  si_fullName : JsValue;
  si_addressLine1 : JsValue;
  si_brgyName : JsValue;
  si_cityName : JsValue;
  si_provinceName : JsValue;
  si_postalCode : JsValue;
  si_phone : JsValue
}.

(** [req.body.scheduledDate], by what [new Date(scheduledDate)] makes of
    it: nothing when the value is falsy, a time in milliseconds, or the
    date that is no date. *)
Inductive ScheduledDate : Type :=
| no_date
| date_at (ms : Z)
| invalid_date.

(** The fields of the body of POST /api/orders the handler reads;
    [body_shippingInfo] is [None] when [shippingInfo] is falsy. *)
Record OrderRequest := mkOrderRequest {
  body_items : list ReqItem;
  body_amount : Q;
  body_totalWithShipping : option Q;
  body_transactionHash : option string;
  body_deliveryOption : string;
  body_shippingFee : option Q;
  body_paymentType : option string;
  body_paidAmount : option Q;
  body_shippingInfo : option ShippingInfoBody;
  body_scheduledDate : ScheduledDate
}.

Inductive Response : Type :=
| Created (o : Order)                  (* 201, the saved order *)
| Duplicate (orderId : ObjectId)       (* 200, isDuplicate: true *)
| OkOrder (o : Order)                  (* 200, the order *)
| RefundRequested (o : Order)          (* 200, success: true *)
| CheckoutUrl (url : string)           (* 200, checkoutUrl *)
| OkEmpty                              (* 200, no body *)
| Failure (code : Z) (message : string).

(** The domain error a failure status stands for. *)
Inductive ErrorKind : Type :=
| NotFound | Unauthorized | InvalidState | ServerError.

Definition error_kind (r : Response) : option ErrorKind :=
  match r with
  | Failure 404 _ => Some NotFound
  | Failure 403 _ => Some Unauthorized
  | Failure 400 _ => Some InvalidState
  | Failure _ _ => Some ServerError
  | _ => None
  end.

Definition is_failure (r : Response) : bool :=
  match r with
  | Failure _ _ => true
  | _ => false
  end.

(** What the gateway answers to a checkout-session request. *)
Record Session := mkSession {
  session_id : string;
  checkout_url : string
}.

(** The environment of the server: [process.env.FRONTEND_URL] and the
    gateway, which answers a request for an amount in centavos with a
    session, or fails ([None]: the HTTP call throws). *)
Record Env := mkEnv {
  FRONTEND_URL : option string;
  gateway : Z -> option Session
}.

(** ** Order creation: POST /api/orders *)

(** An element of [processedItems]; [item] is [item.id || item.item]. *)
Record ProcessedItem := mkProcessedItem {
  p_item : option ObjectId;
  p_quantity : Q;
  p_price : Q;
  p_customH : option Q;
  p_customW : option Q;
  p_customL : option Q;
  p_legsFrameMaterial : option string;
  p_tabletopMaterial : option string
}.

Definition details_dimension (f : Dimensions -> option Q) (i : ReqItem)
  : option Q :=
  match req_custom_details i with
  | Some d => match dimensions d with
              | Some dims => f dims
              | None => None
              end
  | None => None
  end.

Definition details_material (f : CustomDetails -> option string)
  (i : ReqItem) : option string :=
  match req_custom_details i with
  | Some d => f d
  | None => None
  end.

Definition processItem (i : ReqItem) : ProcessedItem :=
  mkProcessedItem
    (coalesce (req_id i) (req_item i))
    (req_quantity i)
    (req_price i)
    (coalesce (req_customH i) (details_dimension dim_height i))
    (coalesce (req_customW i) (details_dimension dim_width i))
    (coalesce (req_customL i) (details_dimension dim_length i))
    (coalesce (req_legsFrameMaterial i) (details_material material3x3 i))
    (coalesce (req_tabletopMaterial i) (details_material material2x12 i)).

(** [Item.find({ _id: { $in: itemIds } })]. *)
Definition Item_find_in (cat : gmap ObjectId Item)
  (itemIds : list (option ObjectId)) : list Item :=
  List.flat_map
    (fun oid => match oid with
                | Some id => match cat !! id with
                             | Some it => [it]
                             | None => []
                             end
                | None => []
                end)
    itemIds.

(** The values the payment branch leaves in [downPayment], [balance],
    [paymentStatus] and [initialStatus].  [downPayment] is [None] when it
    is [undefined] (no [paidAmount] in the body); [balance] is then
    [amount - undefined], not a number, also [None]. *)
Record InitialLedger := mkInitialLedger {
  init_downPayment : option Q;
  init_balance : option Q;
  init_paymentStatus : string;
  init_status : string
}.

Definition full_payment_ledger (amount : Q) (deliveryOption : string)
  : InitialLedger :=
  mkInitialLedger (Some amount) (Some 0%Q) "Fully Paid"
    (if String.eqb deliveryOption "pickup"
     then "Ready for Pickup" else "On Process").

Definition payment_branch (hasCustomizableItems : bool)
  (paymentType : string) (paidAmount : option Q) (amount : Q)
  (deliveryOption : string) : InitialLedger :=
  if hasCustomizableItems then
    if String.eqb paymentType "full_payment"
    then full_payment_ledger amount deliveryOption
    else
      let downPayment := paidAmount in
      let balance := match downPayment with
                     | Some d => Some (amount - d)%Q
                     | None => None
                     end in
      mkInitialLedger downPayment balance "Downpayment Received" "On Process"
  else full_payment_ledger amount deliveryOption.

(** The sub-documents of a new order: each line needs its [item]
    (required by the schema) and is given the next [_id]. *)
Fixpoint build_lines (next : ObjectId) (ps : list ProcessedItem)
  : option (list OrderLine) :=
  match ps with
  | [] => Some []
  | p :: ps' =>
      match p_item p, build_lines (N.succ next) ps' with
      | Some it, Some ls =>
          Some (mkOrderLine next it (p_quantity p) (p_price p)
                  (p_customH p) (p_customW p) (p_customL p)
                  (p_legsFrameMaterial p) (p_tabletopMaterial p) :: ls)
      | _, _ => None
      end
  end.

(** [new Order(orderData)] followed by validation, as [save()] runs it:
    required paths present, numbers castable, enums respected;
    [undefined] takes the schema default.  [None] when validation
    rejects the document. *)
Definition new_Order (next : ObjectId) (userId : ObjectId) (amount : Q)
  (totalWithShipping : option Q) (l : InitialLedger)
  (transactionHash : option string) (ps : list ProcessedItem)
  (deliveryOption : string) (shippingFee : Q) : option Order :=
  match build_lines (N.succ next) ps, init_balance l with
  | Some ls, Some balance =>
      let order :=
        mkOrder next userId ls amount
          (default 0%Q totalWithShipping)
          (default 0%Q (init_downPayment l))
          balance (init_paymentStatus l) (init_status l)
          deliveryOption shippingFee None transactionHash in
      if validate order then Some order else None
  | _, _ => None
  end.

(** [orderPhone.trim()] throws: the order is shipped to an address whose
    [phone] is truthy and no text.  (Without [shippingInfo] the phone is
    the user's, a [String] path of the user schema.) *)
Definition orderPhone_throws (r : OrderRequest) : bool :=
  match body_shippingInfo r with
  | Some shippingInfo =>
      String.eqb (body_deliveryOption r) "shipping"
      && js_truthy (si_phone shippingInfo)
      && negb (js_is_string (si_phone shippingInfo))
  | None => false
  end.

(** The casts [save] makes of [shippingAddress] and [deliveryDate];
    [false] when one of them is a cast error. *)
Definition body_casts (r : OrderRequest) : bool :=
  match body_shippingInfo r with
  | Some shippingInfo =>
      if String.eqb (body_deliveryOption r) "shipping"
      then casts_to_String (si_fullName shippingInfo)
           && casts_to_String (si_addressLine1 shippingInfo)
           && casts_to_String (si_cityName shippingInfo)
           && casts_to_String (si_provinceName shippingInfo)
           && casts_to_String (si_postalCode shippingInfo)
           && casts_to_String (si_phone shippingInfo)
      else true
  | None => true
  end
  && match body_scheduledDate r with
     | invalid_date => false
     | _ => true
     end.

(** The handler.  Whatever throws inside its [try] is answered 500.  The
    call of [LoggerService.logOrder] that follows [save]
    (utils/logger.js, not part of the sources) is taken to return. *)
Definition create_order (db : Db) (caller : Caller) (r : OrderRequest)
  : Response * Db :=
  let transactionHash := body_transactionHash r in
  let userId := caller_id caller in
  let existingOrderByHash :=
    match transactionHash with
    | Some h => if truthy_string transactionHash
                then findOne_by_hash (orders db) h else None
    | None => None
    end in
  match existingOrderByHash with
  | Some existing => (Duplicate (order_id existing), db)
  | None =>
      match users db !! userId with
      | None => (Failure 404 "User not found", db)
      | Some _ =>
          if orderPhone_throws r
          then (Failure 500 "Failed to create order.", db)
          else
          let processedItems := List.map processItem (body_items r) in
          let itemIds := List.map p_item processedItems in
          let itemDetails := Item_find_in (catalog db) itemIds in
          let hasCustomizableItems := existsb is_customizable itemDetails in
          let paymentType := default "full_payment" (body_paymentType r) in
          let ledger :=
            payment_branch hasCustomizableItems paymentType
              (body_paidAmount r) (body_amount r) (body_deliveryOption r) in
          match (if body_casts r
                 then new_Order (next_oid db) userId (body_amount r)
                        (body_totalWithShipping r) ledger transactionHash
                        processedItems (body_deliveryOption r)
                        (default 0%Q (body_shippingFee r))
                 else None) with
          | Some order =>
              (Created order,
               mkDb (users db) (catalog db) (orders db ++ [order]) (carts db)
                    (N.succ (next_oid db)
                     + N.of_nat (length processedItems))%N)
          | None => (Failure 500 "Failed to create order.", db)
          end
      end
  end.

(** The order data the checkout page prepares for POST /api/orders
    ([orderData] of [handleCheckout]); [shippingInfo] and [scheduledDate]
    are those of the page's state, as they travel in the body. *)
Definition handleCheckout_orderData (selectedItems : list Checkout.Entry)
  (paymentType : string) (deliveryOption : string) (shippingFee : Q)
  (transactionHash : string) (shippingInfo : ShippingInfoBody)
  (scheduledDate : ScheduledDate) : OrderRequest :=
  let has := Checkout.hasCustomizedItems selectedItems in
  mkOrderRequest
    (List.map
       (fun e => mkReqItem None (Some (Checkout.entry_item e))
                   (Checkout.entry_quantity e) (Checkout.entry_price e)
                   None None None None None None)
       selectedItems)
    (Checkout.total selectedItems)
    (Some (shippingFee + Checkout.total selectedItems)%Q)
    (Some transactionHash)
    deliveryOption
    (Some shippingFee)
    (Some (if has then paymentType else "full_payment"))
    (Some (Checkout.grandTotal selectedItems paymentType shippingFee))
    (if String.eqb deliveryOption "shipping" then Some shippingInfo
     else None)
    (if String.eqb deliveryOption "shipping" then scheduledDate
     else no_date).

(** ** Settlement: POST /api/orders/:id/complete-payment *)

(** The [forEach] over the populated lines that accumulates
    [customizedTotal].  A line whose item is gone from the catalog is
    populated with [null], and reading [is_customizable] of it throws:
    the result is then [None]. *)
Definition customizedTotal_of (cat : gmap ObjectId Item)
  (ls : list OrderLine) : option Q :=
  fold_left
    (fun acc l =>
       match acc, cat !! line_item l with
       | Some customizedTotal, Some it =>
           let itemTotal := (price l * quantity l)%Q in
           if is_customizable it
           then Some (customizedTotal + itemTotal)%Q
           else Some customizedTotal
       | _, _ => None
       end)
    ls (Some 0%Q).

Definition settle (s : Session) (order : Order) : Order :=
  set_downPayment (totalWithShipping order)
    (set_balance 0%Q
       (set_paymentStatus "Fully Paid"
          (set_transactionHash (Some (session_id s)) order))).

Definition complete_payment (env : Env) (db : Db) (caller : Caller)
  (orderId : ObjectId) : Response * Db :=
  let server_error :=
    Failure 500 "Server error creating complete payment session" in
  match findById (orders db) orderId with
  | None => (Failure 404 "Order not found.", db)
  | Some order =>
      if negb (N.eqb (user order) (caller_id caller))
      then (Failure 403 "You are not authorized to pay for this order.", db)
      else
        match customizedTotal_of (catalog db) (items order) with
        | None => (server_error, db)
        | Some _ =>
            let amountToPay := Math_round (balance order * 100)%Q in
            if (amountToPay <=? 0)%Z
            then (Failure 400 "No remaining balance to be paid.", db)
            else
              match FRONTEND_URL env with
              | None => (server_error, db)
              | Some _ =>
                  match gateway env amountToPay with
                  | None => (server_error, db)
                  | Some paymongoResponse =>
                      match save order (settle paymongoResponse)
                              (orders db) with
                      | Some orders' =>
                          (CheckoutUrl (checkout_url paymongoResponse),
                           set_orders orders' db)
                      | None => (server_error, db)
                      end
                  end
              end
        end
  end.

(** ** Gateway webhook: POST /api/paymongo-webhook *)

(** [event.data.attributes.data.id], as the handler reads it. *)
Inductive SessionRef : Type :=
| no_session_path       (* a part of the path is missing: the read throws *)
| undefined_session     (* the path is there and holds no id *)
| session_ref (id : string).

(** What [JSON.parse] makes of the payload, as far as the handler reads
    it. *)
Record WebhookEvent := mkWebhookEvent {
  event_type : string;
  event_session : SessionRef
}.

(** [sessionId], or [None] when reading it throws. *)
Definition event_sessionId (event : WebhookEvent)
  : option (option string) :=
  match event_session event with
  | no_session_path => None
  | undefined_session => Some None
  | session_ref id => Some (Some id)
  end.

Definition pulled (itemIds : list ObjectId) (l : CartLine) : bool :=
  existsb (N.eqb (cart_line_id l)) itemIds.

(** [Cart.findOneAndUpdate({ user }, { $pull: { items: { _id: { $in:
    itemIds } } } })]: the first cart of that user loses the lines whose
    [_id] is listed. *)
Fixpoint Cart_pull (u : ObjectId) (itemIds : list ObjectId)
  (cs : list Cart) : list Cart :=
  match cs with
  | [] => []
  | c :: cs' =>
      if N.eqb (cart_user c) u
      then mkCart (cart_user c)
             (List.filter (fun l => negb (pulled itemIds l)) (cart_items c))
           :: cs'
      else c :: Cart_pull u itemIds cs'
  end.

Definition add_sales (q : Q) (it : Item) : Item :=
  mkItem (item_name it) (item_price it) (is_customizable it)
         (sales it + q)%Q.

(** [Item.findByIdAndUpdate(orderItem.item, { $inc: { sales } })]. *)
Definition inc_sales (cat : gmap ObjectId Item) (orderItem : OrderLine)
  : gmap ObjectId Item :=
  alter (add_sales (quantity orderItem)) (line_item orderItem) cat.

(** The payload is [None] when [JSON.parse] throws.  The order is read
    with its user populated: a user that no longer exists is [null], and
    the cart query then matches no cart.  Whatever throws is answered
    400.  The call of the logger that ends the handler writes to the log
    collection only and is left out. *)
Definition webhook (db : Db) (payload : option WebhookEvent)
  : Response * Db :=
  match payload with
  | None => (Failure 400 "Webhook Error", db)
  | Some event =>
      if String.eqb (event_type event) "checkout_session.completed" then
        match event_sessionId event with
        | None => (Failure 400 "Webhook Error", db)
        | Some sessionId =>
            match findOne_by_transactionId (orders db) sessionId with
            | Some order =>
                match save order (set_status "On Process") (orders db) with
                | Some orders' =>
                    let itemIds := List.map line_id (items order) in
                    let carts' :=
                      match users db !! user order with
                      | Some _ => Cart_pull (user order) itemIds (carts db)
                      | None => carts db
                      end in
                    let catalog' :=
                      fold_left inc_sales (items order) (catalog db) in
                    (OkEmpty,
                     mkDb (users db) catalog' orders' carts' (next_oid db))
                | None => (Failure 400 "Webhook Error", db)
                end
            | None => (OkEmpty, db)
            end
        end
      else (OkEmpty, db)
  end.

(** The route as it is mounted.  [app.use(express.json())] runs on every
    request before the route's own [bodyParser.raw]: a body sent as JSON
    is already parsed when the raw parser is reached, which then leaves
    it alone, and a body of another type is left as the empty object.
    The handler therefore never receives a buffer: [payload.toString()]
    of an object is the text "[object Object]", which [JSON.parse]
    rejects, and of an array it is the elements joined by commas.  A body
    [express.json()] cannot parse is answered 400 before the handler. *)
Inductive WebhookBody : Type :=
| body_object                                (* a JSON object, or no JSON *)
| body_array (parsed : option WebhookEvent)  (* what [JSON.parse] makes of
                                                the joined elements *)
| body_malformed.

Definition paymongo_webhook (db : Db) (body : WebhookBody)
  : Response * Db :=
  match body with
  | body_object => webhook db None
  | body_array parsed => webhook db parsed
  | body_malformed => (Failure 400 "Bad Request", db)
  end.

(** ** Cancel: PUT /api/orders/:id/cancel *)

Definition cancel (db : Db) (caller : Caller) (orderId : ObjectId)
  : Response * Db :=
  match findByIdAndUpdate_status (orders db) orderId "cancelled" with
  | (None, _) => (Failure 404 "Order not found", db)
  | (Some order, orders') =>
      if negb (N.eqb (user order) (caller_id caller))
      then (Failure 403 "Unauthorized", set_orders orders' db)
      else (OkOrder order, set_orders orders' db)
  end.

(** ** Refund request: PUT /api/orders/:id/request-refund *)

(** [item.item?.is_customizable || false] on a populated line. *)
Definition line_is_customized (cat : gmap ObjectId Item) (l : OrderLine)
  : bool :=
  match cat !! line_item l with
  | Some it => is_customizable it
  | None => false
  end.

Definition request_refund (db : Db) (caller : Caller) (orderId : ObjectId)
  : Response * Db :=
  match findById (orders db) orderId with
  | None => (Failure 404 "Order not found", db)
  | Some order =>
      if negb (N.eqb (user order) (caller_id caller))
      then (Failure 403 "Unauthorized to refund this order", db)
      else if negb (String.eqb (status order) "On Process")
      then (Failure 400
              "Refund requests can only be made for orders that are currently being processed",
            db)
      else
        let hasCustomizedItems :=
          existsb (line_is_customized (catalog db)) (items order) in
        if hasCustomizedItems
        then (Failure 400
                "Refund requests cannot be made for orders containing customized items",
              db)
        else
          let modify o :=
            set_paymentStatus "Refund Requested"
              (set_status "Requesting for Refund" o) in
          match save order modify (orders db) with
          | Some orders' =>
              (RefundRequested (modify order), set_orders orders' db)
          | None => (Failure 500 "Failed to process refund request", db)
          end
  end.

(** ** Admin status update: PUT /api/orders/:id/status *)

(** Modelled from the spec: the capability check of the middleware
    [authorizeRoles] (middleware/auth.js), "caller has role X"; any other
    role is turned away with 403 before the handler runs. *)
Definition authorizeRoles (role : string) (caller : Caller) : bool :=
  String.eqb (caller_role caller) role.

Definition admin_set_status (db : Db) (caller : Caller)
  (orderId : ObjectId) (status : option string) : Response * Db :=
  if negb (authorizeRoles "admin" caller)
  then (Failure 403 "Forbidden", db)
  else
    match status with
    | Some s =>
        if truthy_string status then
          match findByIdAndUpdate_status (orders db) orderId s with
          | (None, _) => (Failure 404 "Order not found", db)
          | (Some updatedOrder, orders') =>
              (OkOrder updatedOrder, set_orders orders' db)
          end
        else (Failure 400 "Status is required", db)
    | None => (Failure 400 "Status is required", db)
    end.

(** ** The routes as one transition *)

(** [PostWebhook payload] is the webhook handler given what [JSON.parse]
    makes of the payload; every body the mounted route receives
    ([paymongo_webhook]) is handled as one of these or turned away before
    the handler. *)

Inductive Request : Type :=
| PostOrder (caller : Caller) (body : OrderRequest)
| PostCompletePayment (caller : Caller) (orderId : ObjectId)
| PostWebhook (payload : option WebhookEvent)
| PutCancel (caller : Caller) (orderId : ObjectId)
| PutRequestRefund (caller : Caller) (orderId : ObjectId)
| PutStatus (caller : Caller) (orderId : ObjectId) (status : option string).

Definition handle (env : Env) (db : Db) (q : Request) : Response * Db :=
  match q with
  | PostOrder caller body => create_order db caller body
  | PostCompletePayment caller orderId =>
      complete_payment env db caller orderId
  | PostWebhook payload => webhook db payload
  | PutCancel caller orderId => cancel db caller orderId
  | PutRequestRefund caller orderId => request_refund db caller orderId
  | PutStatus caller orderId status =>
      admin_set_status db caller orderId status
  end.

(** The store after a sequence of requests. *)
Definition run (env : Env) (db : Db) (qs : list Request) : Db :=
  fold_left (fun db q => snd (handle env db q)) qs db.

(** The two enums of a stored order that [save] relies on and no route
    writes outside of. *)
Definition enums_kept (o : Order) : Prop :=
  in_enum (paymentStatus o) paymentStatus_enum = true /\
  in_enum (deliveryOption o) deliveryOption_enum = true.

(** ** Sums and scenarios used in the statements *)

Definition Qsum (l : list Q) : Q := fold_right Qplus 0%Q l.

(** The subtotal of the lines of a cart that are (or are not)
    customizable. *)
Definition subtotal (customized : bool) (sel : list Checkout.Entry) : Q :=
  Qsum (List.map Checkout.itemTotal
          (List.filter
             (fun e => Bool.eqb (Checkout.entry_customizable e) customized)
             sel)).

(** The three ledger fields of an order. *)
Definition ledger (o : Order) : Q * Q * string :=
  (downPayment o, balance o, paymentStatus o).

(** The quantity of item [i] an order purchases. *)
Definition purchased (i : ObjectId) (o : Order) : Q :=
  Qsum (List.map quantity
          (List.filter (fun l => N.eqb (line_item l) i) (items o))).


(** What an order line and an order hold, their [_id]s apart. *)
Definition line_contents (l : OrderLine) :=
  (line_item l, quantity l, price l, customH l, customW l, customL l,
   legsFrameMaterial l, tabletopMaterial l).

Definition contents (o : Order) :=
  (user o, List.map line_contents (items o), amount o, totalWithShipping o,
   downPayment o, balance o, paymentStatus o, status o, deliveryOption o,
   shippingFee o, transactionId o, transactionHash o).

(** [Cart.findOne({ user })]. *)
Definition Cart_findOne (cs : list Cart) (u : ObjectId) : option Cart :=
  List.find (fun c => N.eqb (cart_user c) u) cs.

(** An order holds a line whose catalog item is customizable. *)
Definition order_has_customized (db : Db) (o : Order) : Prop :=
  exists (l : OrderLine) (it : Item),
    In l (items o) /\
    catalog db !! line_item l = Some it /\
    is_customizable it = true.

(** The entries of a cart show the catalog items as the catalog has
    them. *)
Definition cart_of_catalog (db : Db) (sel : list Checkout.Entry) : Prop :=
  Forall
    (fun e => exists it,
       catalog db !! Checkout.entry_item e = Some it /\
       is_customizable it = Checkout.entry_customizable e)
    sel.

(** No price and no quantity of a cart is negative. *)
Definition cart_nonnegative (sel : list Checkout.Entry) : Prop :=
  Forall
    (fun e => (0 <= Checkout.entry_price e)%Q /\
              (0 <= Checkout.entry_quantity e)%Q)
    sel.

(** ** Confirmation: PUT /api/orders/:id/confirm *)

(** The route has no authentication middleware and no [try]: when
    [save] throws nothing is answered ([None]). *)
Definition confirm (db : Db) (orderId : ObjectId)
  : option Response * Db :=
  match findById (orders db) orderId with
  | None => (Some (Failure 404 "Order not found"), db)
  | Some order =>
      match save order (set_status "On Process") (orders db) with
      | Some orders' =>
          (Some (OkOrder (set_status "On Process" order)),
           set_orders orders' db)
      | None => (None, db)
      end
  end.

(** ** Delivery proof: POST /api/orders/:id/delivery-proof *)

(** The paths [deliveryProof] and [deliveryDate] of the orders, by the
    [_id] of the order; a date is a number of milliseconds. *)
Record Store := mkStore {
  store_db : Db;
  deliveryProofs : gmap ObjectId (string * N)
}.

(** What [upload.single("deliveryProof")] makes of the request: no
    file, a file of some size kept in memory, or a file it refuses (no
    image, or one over the size limit). *)
Inductive UploadedFile : Type :=
| no_file
| accepted_file (size : N)
| rejected_file.

(** What the upload middleware leaves in the request;
    [fileValidationError] is read by the handler and set by nothing in
    these sources. *)
Record Upload := mkUpload {
  fileValidationError : option string;
  file : UploadedFile
}.

(** [cloudinary] is the [secure_url] the image host answers with, or
    [None] when the upload fails; [now] is [new Date()].  A file the
    middleware refuses is an error it passes on: [handleMulterError] is
    mounted on no route, so that Express answers 500 and the handler does
    not run. *)
Definition delivery_proof (cloudinary : option string) (now : N)
  (st : Store) (caller : Caller) (orderId : ObjectId) (up : Upload)
  : Response * Store :=
  let db := store_db st in
  if negb (authorizeRoles "admin" caller)
  then (Failure 403 "Forbidden", st)
  else
    match file up, fileValidationError up with
    | rejected_file, _ => (Failure 500 "Internal Server Error", st)
    | _, Some message => (Failure 400 message, st)
    | no_file, None =>
        (Failure 400 "Delivery proof image is required", st)
    | accepted_file _, None =>
            match cloudinary with
            | None => (Failure 500 "Failed to upload image", st)
            | Some secure_url =>
                let existingOrder := findById (orders db) orderId in
                let finalStatus :=
                  match existingOrder with
                  | Some o => if String.eqb (deliveryOption o) "pickup"
                              then "Picked Up" else "Delivered"
                  | None => "Delivered"
                  end in
                match findByIdAndUpdate_status (orders db) orderId
                        finalStatus with
                | (None, _) => (Failure 404 "Order not found", st)
                | (Some updatedOrder, orders') =>
                    (OkOrder updatedOrder,
                     mkStore (set_orders orders' db)
                       (<[orderId := (secure_url, now)]>
                          (deliveryProofs st)))
                end
            end
    end.

(** ** Every route that writes an order *)

Inductive Call : Type :=
| Route (q : Request)
| PutConfirm (orderId : ObjectId)
| PostDeliveryProof (cloudinary : option string) (now : N)
    (caller : Caller) (orderId : ObjectId) (up : Upload).

Definition serve (env : Env) (st : Store) (c : Call) : Store :=
  match c with
  | Route q =>
      mkStore (snd (handle env (store_db st) q)) (deliveryProofs st)
  | PutConfirm orderId =>
      mkStore (snd (confirm (store_db st) orderId)) (deliveryProofs st)
  | PostDeliveryProof cloudinary now caller orderId up =>
      snd (delivery_proof cloudinary now st caller orderId up)
  end.

Definition serve_all (env : Env) (st : Store) (cs : list Call) : Store :=
  fold_left (serve env) cs st.

(** The order with [_id] [id] is the one stored order that carries the
    hash [h]. *)
Definition sole_hash (h : string) (id : ObjectId) (os : list Order)
  : Prop :=
  exists o, List.filter (hash_is h) os = [o] /\ order_id o = id.

(** ** The cart routes *)

Inductive CartResponse : Type :=
| CartData (message : string) (c : Cart)
| CartFailure (code : Z) (message : string).

(** [cart.save()] of the cart [Cart.findOne({ user })] has read. *)
Fixpoint Cart_save (u : ObjectId) (c' : Cart) (cs : list Cart)
  : list Cart :=
  match cs with
  | [] => []
  | c :: cs' =>
      if N.eqb (cart_user c) u then c' :: cs'
      else c :: Cart_save u c' cs'
  end.

Definition is_item (itemId : ObjectId) (i : CartLine) : bool :=
  N.eqb (cart_line_item i) itemId.

(** DELETE /api/cart/:userId/item/:itemId.  A route parameter is [None]
    when it is not the text of an [ObjectId]; [accepts] stands for the
    validators of the cart schema, which [save] runs. *)
Definition cart_delete_item (accepts : Cart -> bool) (db : Db)
  (caller : Caller) (userId itemId : option ObjectId)
  : CartResponse * Db :=
  match userId with
  | None => (CartFailure 400 "Invalid user ID format", db)
  | Some userId =>
      match itemId with
      | None => (CartFailure 400 "Invalid item ID format", db)
      | Some itemId =>
          if negb (String.eqb (caller_role caller) "admin")
             && negb (N.eqb (caller_id caller) userId)
          then (CartFailure 403 "Access denied", db)
          else
            match Cart_findOne (carts db) userId with
            | None => (CartFailure 404 "Cart not found for user", db)
            | Some cart =>
                let initialLength := length (cart_items cart) in
                let items' :=
                  List.filter (fun i => negb (is_item itemId i))
                    (cart_items cart) in
                if Nat.eqb (length items') initialLength
                then (CartFailure 404 "Item not found in cart", db)
                else
                  let cart' := mkCart (cart_user cart) items' in
                  if accepts cart'
                  then (CartData "Item removed from cart" cart',
                        set_carts (Cart_save userId cart' (carts db)) db)
                  else (CartFailure 500
                          "Server error deleting item from cart", db)
            end
      end
  end.

(** The first line of an item with its quantity changed by [f]
    ([cart.items.find] and the assignment to [cartItem.quantity]). *)
Fixpoint change_first (itemId : ObjectId) (f : Q -> Q)
  (ls : list CartLine) : list CartLine :=
  match ls with
  | [] => []
  | l :: ls' =>
      if is_item itemId l
      then mkCartLine (cart_line_id l) (cart_line_item l)
             (f (cart_line_quantity l)) :: ls'
      else l :: change_first itemId f ls'
  end.


(** PUT /api/cart/:userId/item/:itemId/decrease. *)
Definition cart_decrease (accepts : Cart -> bool) (db : Db)
  (userId itemId : option ObjectId) : CartResponse * Db :=
  match userId with
  | None => (CartFailure 500 "Server error", db)
  | Some userId =>
      match Cart_findOne (carts db) userId with
      | None => (CartFailure 404 "Cart not found", db)
      | Some cart =>
          let cartItem :=
            match itemId with
            | Some itemId => List.find (is_item itemId) (cart_items cart)
            | None => None
            end in
          match cartItem, itemId with
          | Some cartItem, Some itemId =>
              let quantity := (cart_line_quantity cartItem - 1)%Q in
              let items1 :=
                change_first itemId (fun q => q - 1)%Q (cart_items cart) in
              let items' :=
                if Qle_bool quantity 0
                then List.filter (fun i => negb (is_item itemId i)) items1
                else items1 in
              let cart' := mkCart (cart_user cart) items' in
              if accepts cart'
              then (CartData "Item quantity decreased" cart',
                    set_carts (Cart_save userId cart' (carts db)) db)
              else (CartFailure 500 "Server error", db)
          | _, _ => (CartFailure 404 "Item not in cart", db)
          end
      end
  end.

(** ** Stock: POST /api/items/decrease-stock *)





(** ** The checkout page: shipping fee, validation, gateway payload *)

(** [parseFloat(x.toFixed(2))]: the nearest hundredth, halves away from
    zero, of the exact number; it is used on whole numbers of centavos
    only. *)
Definition toFixed2 (x : Q) : Q :=
  if Qle_bool 0 x
  then (inject_Z (Math_round (x * 100)) / 100)%Q
  else (- (inject_Z (Math_round (- x * 100)) / 100))%Q.

Module CheckoutFlow.

(** The fields of [shippingInfo] the fee and the validation read. *)
Record ShippingInfo := mkShippingInfo {
  fullName : string;
  addressLine1 : string;
  city : string;
  province : string;
  provinceName : string;
  brgy : string;
  postalCode : string;
  phone : string
}.

(** The effect on [shippingInfo.provinceName] and [deliveryOption]: the
    fee it sets, and the error it sets if any. *)
Definition shippingFee_effect (deliveryOption : string)
  (shippingInfo : ShippingInfo) : Q * option string :=
  if String.eqb deliveryOption "shipping"
     && negb (String.eqb (provinceName shippingInfo) "")
  then
    if String.eqb (provinceName shippingInfo) "Rizal"
    then (1000%Q, None)
    else if String.eqb (provinceName shippingInfo) "Metro Manila"
    then (1500%Q, None)
    else (0%Q,
          Some "Sorry, we only deliver to Metro Manila and Rizal at the moment.")
  else (0%Q, None).

(** The validation that opens [handleCheckout]: the error it sets, or
    [None] when the checkout goes on. *)
Definition handleCheckout_validation (selectedItems : list Checkout.Entry)
  (deliveryOption : string) (shippingInfo : ShippingInfo) (shippingFee : Q)
  (scheduledDate : string) (isDateConfirmed : bool) : option string :=
  if Nat.eqb (length selectedItems) 0
  then Some "Please select at least one item to check out."
  else if String.eqb deliveryOption "shipping" then
    let requiredFields :=
      [fullName shippingInfo; addressLine1 shippingInfo; city shippingInfo;
       province shippingInfo; brgy shippingInfo; postalCode shippingInfo;
       phone shippingInfo] in
    if existsb (fun f => String.eqb f "") requiredFields
    then Some "Please complete your shipping information before checking out."
    else if Qeq_bool shippingFee 0
            && negb (String.eqb (province shippingInfo) "")
    then Some "Shipping is not available for the selected province. Please choose another address or select store pickup."
    else if String.eqb scheduledDate "" || negb isDateConfirmed
    then Some "Please select and confirm a delivery date before checking out."
    else None
  else None.

(** An element of [itemsPayload]. *)
Record PayloadItem := mkPayloadItem {
  payload_id : ObjectId;
  payload_name : string;
  payload_price : Q;
  payload_quantity : Q
}.

(** [itemsPayload]; [name] gives the name of the catalog item of an
    entry. *)
Definition itemsPayload (name : ObjectId -> string)
  (selectedItems : list Checkout.Entry) (paymentType : string)
  : list PayloadItem :=
  List.map
    (fun entry =>
       let isCustomized := Checkout.entry_customizable entry in
       let priceToUse :=
         if Checkout.hasCustomizedItems selectedItems
            && String.eqb paymentType "down_payment" && isCustomized
         then toFixed2 (Checkout.entry_price entry * (3 # 10))
         else Checkout.entry_price entry in
       mkPayloadItem (Checkout.entry_item entry)
         (name (Checkout.entry_item entry)) priceToUse
         (Checkout.entry_quantity entry))
    selectedItems.

End CheckoutFlow.

(** ** Checkout session: POST /api/create-checkout-session *)

Record CheckoutBody := mkCheckoutBody {
  cb_amount : option Q;
  cb_items : option (list CheckoutFlow.PayloadItem);
  cb_shippingFee : option Q;
  cb_deliveryOption : option string
}.

Record LineItem := mkLineItem {
  li_amount : Z;
  li_currency : string;
  li_name : string;
  li_quantity : Q
}.

(** The environment of the payment routes; the gateway is asked with the
    line items and the amount in centavos and answers a checkout URL, or
    fails. *)
Record PaymentEnv := mkPaymentEnv {
  PAYMONGO_SECRET_KEY : option string;
  payment_FRONTEND_URL : option string;
  checkout_sessions : list LineItem -> Z -> option string
}.

(** [line_items]: one per product, and one for the shipping fee when the
    order is shipped for a fee. *)
Definition line_items_of (items : list CheckoutFlow.PayloadItem)
  (deliveryOption : option string) (shippingFee : option Q)
  : list LineItem :=
  let line_items :=
    List.map
      (fun item =>
         mkLineItem (Math_round (CheckoutFlow.payload_price item * 100))
           "PHP" (CheckoutFlow.payload_name item)
           (CheckoutFlow.payload_quantity item))
      items in
  match deliveryOption, shippingFee with
  | Some d, Some fee =>
      if String.eqb d "shipping" && negb (Qle_bool fee 0)
      then (line_items
            ++ [mkLineItem (Math_round (fee * 100)) "PHP" "Shipping Fee"
                  1%Q])%list
      else line_items
  | _, _ => line_items
  end.

Definition create_checkout_session (env : PaymentEnv) (body : CheckoutBody)
  : Response :=
  if negb (truthy_string (PAYMONGO_SECRET_KEY env))
     || negb (truthy_string (payment_FRONTEND_URL env))
  then Failure 500 "Payment configuration error."
  else
    match cb_items body with
    | None | Some [] => Failure 400 "Items are required."
    | Some items =>
        match cb_amount body with
        | None => Failure 400 "Valid amount is required."
        | Some amount =>
            if Qle_bool amount 0
            then Failure 400 "Valid amount is required."
            else
              let line_items :=
                line_items_of items (cb_deliveryOption body)
                  (cb_shippingFee body) in
              let totalAmountInCentavos := Math_round (amount * 100) in
              match checkout_sessions env line_items
                      totalAmountInCentavos with
              | Some checkout_url => CheckoutUrl checkout_url
              | None => Failure 500 "Payment failed"
              end
        end
    end.

(** The body [handleCheckout] posts to the route. *)
Definition checkout_session_body (name : ObjectId -> string)
  (selectedItems : list Checkout.Entry) (paymentType deliveryOption : string)
  (shippingFee : Q) : CheckoutBody :=
  mkCheckoutBody
    (Some (Checkout.grandTotal selectedItems paymentType shippingFee))
    (Some (CheckoutFlow.itemsPayload name selectedItems paymentType))
    (Some shippingFee)
    (Some deliveryOption).

(** What the line items of a session add up to, in centavos. *)
Definition line_items_total (ls : list LineItem) : Q :=
  Qsum (List.map (fun l => (inject_Z (li_amount l) * li_quantity l)%Q) ls).

(** Every price and every quantity of a cart is a whole number. *)
Definition whole_numbers (sel : list Checkout.Entry) : Prop :=
  Forall
    (fun e => exists p q : Z,
       (Checkout.entry_price e == inject_Z p)%Q /\
       (Checkout.entry_quantity e == inject_Z q)%Q)
    sel.

(** ** The order page *)

Module OrderDetail.

Definition Math_max (a b : Q) : Q := if Qle_bool a b then b else a.

(** The page holds the order as GET /api/orders/:id/status answers it,
    its lines populated from the catalog. *)
Definition hasCustomizedItems (cat : gmap ObjectId Item) (order : Order)
  : bool :=
  existsb (line_is_customized cat) (items order).

(** [calculatePaymentAmounts(order)]: customizedTotal, normalTotal,
    downPaymentAmount, remainingBalance. *)
Definition calculatePaymentAmounts (cat : gmap ObjectId Item)
  (order : Order) : Q * Q * Q * Q :=
  let totals :=
    fold_left
      (fun acc item =>
         let itemTotal := (price item * quantity item)%Q in
         if line_is_customized cat item
         then ((fst acc + itemTotal)%Q, snd acc)
         else (fst acc, (snd acc + itemTotal)%Q))
      (items order) (0%Q, 0%Q) in
  let customizedTotal := fst totals in
  let normalTotal := snd totals in
  let downPaymentAmount := (customizedTotal * (3 # 10) + normalTotal)%Q in
  let remainingBalance := (customizedTotal * (7 # 10))%Q in
  (customizedTotal, normalTotal, downPaymentAmount, remainingBalance).

(** [getRemainingBalance(order)]. *)
Definition getRemainingBalance (cat : gmap ObjectId Item) (order : Order)
  : Q :=
  if Qeq_bool (amount order) 0 then 0%Q
  else
    let paidAmount := totalWithShipping order in
    if hasCustomizedItems cat order then
      let remainingBalance := snd (calculatePaymentAmounts cat order) in
      Math_max 0
        (remainingBalance
         - Math_max 0 (paidAmount - (amount order - remainingBalance)))%Q
    else Math_max 0 (amount order - paidAmount)%Q.

(** [canRequestRefund()]; [userRole] is the role kept in local storage
    and [order] the order of the page, [None] while it is not loaded. *)
Definition canRequestRefund (userRole : option string)
  (cat : gmap ObjectId Item) (order : option Order) : bool :=
  let isAdmin :=
    match userRole with
    | Some role => String.eqb role "admin"
    | None => false
    end in
  if isAdmin then false
  else
    let hasCustomizedItems :=
      match order with
      | Some o => existsb (line_is_customized cat) (items o)
      | None => false
      end in
    if hasCustomizedItems then false else true.

End OrderDetail.

(** ** The orders the analytics routes read *)

(** [Order.find({ status: { $nin: ['Cancelled', 'Refunded'] } })]. *)
Definition Order_find_active (os : list Order) : list Order :=
  List.filter
    (fun o => negb (in_enum (status o) ["Cancelled"; "Refunded"])) os.

Module Scenario.

Definition alice : Caller := mkCaller 1%N "user".
Definition bob : Caller := mkCaller 2%N "user".
Definition admin : Caller := mkCaller 3%N "admin".

Definition chair : Item := mkItem "Chair" 1000%Q false 0%Q.
Definition table : Item := mkItem "Custom table" 10000%Q true 0%Q.
Definition stool : Item := mkItem "Stool" 500%Q false 0%Q.

Definition the_users : gmap ObjectId User :=
  <[1%N := mkUser "Alice" "alice@example.org"]>
    (<[2%N := mkUser "Bob" "bob@example.org"]>
       (<[3%N := mkUser "Admin" "admin@example.org"]> ∅)).

Definition the_catalog : gmap ObjectId Item :=
  <[10%N := chair]> (<[11%N := table]> (<[12%N := stool]> ∅)).

(** A store with no order yet; Alice's cart holds two lines. *)
Definition db0 : Db :=
  mkDb the_users the_catalog []
       [mkCart 1%N [mkCartLine 50%N 10%N 2%Q; mkCartLine 51%N 12%N 1%Q]]
       100%N.

(** The address and the day Alice has entered on the checkout page. *)
Definition address : ShippingInfoBody :=
  mkShippingInfoBody (js_string "Alice") (js_string "1 Main St")
    (js_string "Kapitolyo") (js_string "Pasig") (js_string "Metro Manila")
    (js_string "1603") (js_string "09170000000").

Definition delivery_day : ScheduledDate := date_at 1768435200000%Z.

(** Scenario A: two chairs, shipped to Metro Manila. *)
Definition cartA : list Checkout.Entry :=
  [Checkout.mkEntry 10%N 1000%Q false 2%Q].

Definition requestA : OrderRequest :=
  handleCheckout_orderData cartA "full_payment" "shipping" 1500%Q "1-1"
    address delivery_day.

(** Scenario B: a custom table and a stool, picked up, paid by
    down payment. *)
Definition cartB : list Checkout.Entry :=
  [Checkout.mkEntry 11%N 10000%Q true 1%Q;
   Checkout.mkEntry 12%N 500%Q false 1%Q].

Definition requestB : OrderRequest :=
  handleCheckout_orderData cartB "down_payment" "pickup" 0%Q "1-2"
    address delivery_day.

Definition dbB : Db := snd (create_order db0 alice requestB).

(** An order of Alice's awaiting the gateway, under session "cs_9": two
    chairs, the first line carrying the [_id] of a line of her cart. *)
Definition pending_order : Order :=
  mkOrder 7%N 1%N
    [mkOrderLine 50%N 10%N 2%Q 1000%Q None None None None None;
     mkOrderLine 60%N 10%N 1%Q 1000%Q None None None None None]
    3000%Q 3000%Q 3000%Q 0%Q "Fully Paid" "Pending" "pickup" 0%Q
    (Some "cs_9") (Some "1-3").

Definition dbP : Db := set_orders [pending_order] db0.

(** A gateway that always opens a session, and one that is down. *)
Definition gateway_up : Env :=
  mkEnv (Some "https://shop.example.org/")
        (fun _ => Some (mkSession "cs_123" "https://pay.example.org/cs_123")).

Definition gateway_down : Env :=
  mkEnv (Some "https://shop.example.org/") (fun _ => None).

End Scenario.

(** * Properties *)

(** ** The store *)

Lemma findById_id (os : list Order) (id : ObjectId) (o : Order) :
  findById os id = Some o -> order_id o = id.
Proof.
  unfold findById. intros H. apply find_some in H as [_ H].
  now apply N.eqb_eq.
Qed.

Lemma findById_In (os : list Order) (id : ObjectId) (o : Order) :
  findById os id = Some o -> In o os.
Proof. unfold findById. intros H. now apply find_some in H. Qed.

(** Reading back by [_id] after an update that keeps the [_id]s. *)
Lemma findById_update (os : list Order) (id id' : ObjectId)
  (modify : Order -> Order) :
  (forall o, order_id (modify o) = order_id o) ->
  findById (update_by_id id modify os) id'
  = option_map (fun o => if N.eqb (order_id o) id then modify o else o)
      (findById os id').
Proof.
  unfold findById, update_by_id. intros Hid.
  induction os as [|a os IH]; simpl; [reflexivity|].
  assert (Ha : order_id (if N.eqb (order_id a) id then modify a else a)
               = order_id a)
    by (destruct (N.eqb (order_id a) id); [apply Hid | reflexivity]).
  rewrite Ha. destruct (N.eqb (order_id a) id'); [reflexivity | exact IH].
Qed.

Lemma update_by_id_length id modify (os : list Order) :
  length (update_by_id id modify os) = length os.
Proof. unfold update_by_id. apply List.length_map. Qed.

(** What validation still asks of the document each handler saves. *)
Lemma validate_set_status_On_Process (o : Order) :
  validate (set_status "On Process" o)
  = in_enum (deliveryOption o) deliveryOption_enum
    && in_enum (paymentStatus o) paymentStatus_enum.
Proof.
  unfold validate.
  change (in_enum (status (set_status "On Process" o)) status_enum)
    with true.
  now rewrite andb_true_r.
Qed.

Lemma find_app_none {A : Type} (f : A -> bool) (l : list A) (x : A) :
  List.find f l = None -> f x = true -> List.find f (l ++ [x]) = Some x.
Proof.
  induction l as [|a l IH]; simpl; intros Hn Hx.
  - now rewrite Hx.
  - destruct (f a); [discriminate | now apply IH].
Qed.

(** ** The payment plan (C5) *)

Section Plan.
Import Checkout.
Local Open Scope Q_scope.

Lemma totals_from (sel : list Entry) (c n : Q) :
  fst (fold_left add_entry sel (c, n)) == c + subtotal true sel /\
  snd (fold_left add_entry sel (c, n)) == n + subtotal false sel.
Proof.
  revert c n. induction sel as [|e sel IH]; intros c n.
  - unfold subtotal; simpl. split; ring.
  - simpl fold_left. unfold add_entry at 2 4. unfold subtotal in *.
    simpl List.filter.
    destruct (entry_customizable e) eqn:E; simpl Bool.eqb; simpl fst;
      simpl snd; destruct (IH (c + itemTotal e) n) as [IH1 IH2];
      destruct (IH c (n + itemTotal e)) as [IH3 IH4]; simpl List.map;
      simpl Qsum; split;
      first [ rewrite IH1 | rewrite IH2 | rewrite IH3 | rewrite IH4 ];
      ring.
Qed.

Lemma totals_partition (sel : list Entry) :
  fst (totals sel) == subtotal true sel /\
  snd (totals sel) == subtotal false sel.
Proof.
  unfold totals. destruct (totals_from sel 0 0) as [H1 H2].
  rewrite H1, H2. split; ring.
Qed.

End Plan.

(** ** The payment plan in double arithmetic (C5) *)

Section Plan64.
Import Checkout64.
Local Open Scope float_scope.
#[local] Set Warnings "-inexact-float".






End Plan64.

(** ** Order creation *)


(** What a creation that answers 201 has gone through. *)
Lemma create_order_Created (db : Db) (caller : Caller) (r : OrderRequest)
  (o : Order) (db' : Db) :
  create_order db caller r = (Created o, db') ->
  (forall h, body_transactionHash r = Some h -> h <> "" ->
             findOne_by_hash (orders db) h = None) /\
  is_Some (users db !! caller_id caller) /\
  new_Order (next_oid db) (caller_id caller) (body_amount r)
    (body_totalWithShipping r)
    (payment_branch
       (existsb is_customizable
          (Item_find_in (catalog db)
             (List.map p_item (List.map processItem (body_items r)))))
       (default "full_payment" (body_paymentType r))
       (body_paidAmount r) (body_amount r) (body_deliveryOption r))
    (body_transactionHash r) (List.map processItem (body_items r))
    (body_deliveryOption r) (default 0%Q (body_shippingFee r)) = Some o /\
  orders db' = (orders db ++ [o])%list /\
  users db' = users db /\ catalog db' = catalog db /\ carts db' = carts db /\
  orderPhone_throws r = false /\ body_casts r = true.
Proof.
  unfold create_order. intros H.
  destruct (match body_transactionHash r with
            | Some h => if truthy_string (body_transactionHash r)
                        then findOne_by_hash (orders db) h else None
            | None => None
            end) as [existing|] eqn:Edup; [discriminate|].
  destruct (users db !! caller_id caller) as [u|] eqn:Eu; [|discriminate].
  destruct (orderPhone_throws r) eqn:Ephone; [discriminate|].
  destruct (body_casts r) eqn:Ecasts; [|discriminate].
  match type of H with
  | match ?n with _ => _ end = _ => destruct n as [order|] eqn:En
  end; [|discriminate].
  inversion H; subst; clear H. simpl.
  repeat split; try reflexivity; eauto.
  intros h Hh Hne. rewrite Hh in Edup. simpl in Edup.
  apply String.eqb_neq in Hne. rewrite Hne in Edup. exact Edup.
Qed.

(** The fields [new Order] copies. *)
Lemma new_Order_fields next userId amt tws l hash ps delivery fee o :
  new_Order next userId amt tws l hash ps delivery fee = Some o ->
  order_id o = next /\ user o = userId /\ amount o = amt /\
  totalWithShipping o = default 0%Q tws /\
  downPayment o = default 0%Q (init_downPayment l) /\
  init_balance l = Some (balance o) /\
  paymentStatus o = init_paymentStatus l /\
  status o = init_status l /\
  deliveryOption o = delivery /\ shippingFee o = fee /\
  transactionId o = None /\ transactionHash o = hash /\
  build_lines (N.succ next) ps = Some (items o) /\
  validate o = true.
Proof.
  unfold new_Order. intros H.
  destruct (build_lines (N.succ next) ps) as [ls|]; [|discriminate].
  destruct (init_balance l) as [b|]; [|discriminate].
  cbv zeta in H.
  match type of H with
  | (if validate ?c then _ else _) = _ => destruct (validate c) eqn:Ev
  end; [|discriminate].
  inversion H; subst; simpl. repeat split; try reflexivity. exact Ev.
Qed.






(** ** Settlement *)

Lemma Math_round_nonpositive (x : Q) :
  (x <= 0)%Q -> (Math_round (x * 100) <= 0)%Z.
Proof.
  intros Hx. unfold Math_round.
  change 0%Z with (Qfloor (1 # 2)). apply Qfloor_resp_le.
  destruct x as [n d]. unfold Qle in *. simpl in *. lia.
Qed.

(** A settlement that fails writes nothing. *)
Lemma complete_payment_failure (env : Env) (db : Db) (caller : Caller)
  (id : ObjectId) (r : Response) (db' : Db) :
  complete_payment env db caller id = (r, db') ->
  is_failure r = true -> db' = db.
Proof.
  unfold complete_payment. intros H Hf.
  repeat match type of H with
         | (match ?x with _ => _ end) = _ => destruct x
         | (if ?x then _ else _) = _ => destruct x
         end;
    inversion H; subst; try reflexivity; discriminate.
Qed.

(** What a settlement that does not fail has gone through. *)
Lemma complete_payment_success (env : Env) (db : Db) (caller : Caller)
  (id : ObjectId) (r : Response) (db' : Db) :
  complete_payment env db caller id = (r, db') ->
  is_failure r = false ->
  exists o s orders',
    findById (orders db) id = Some o /\
    user o = caller_id caller /\
    (0 < Math_round (balance o * 100))%Z /\
    gateway env (Math_round (balance o * 100)) = Some s /\
    save o (settle s) (orders db) = Some orders' /\
    r = CheckoutUrl (checkout_url s) /\
    db' = set_orders orders' db.
Proof.
  unfold complete_payment. intros H Hf.
  destruct (findById (orders db) id) as [o|] eqn:Eo;
    [|inversion H; subst; discriminate].
  destruct (N.eqb (user o) (caller_id caller)) eqn:Eu; simpl in H;
    [|inversion H; subst; discriminate].
  destruct (customizedTotal_of (catalog db) (items o));
    [|inversion H; subst; discriminate].
  destruct (Math_round (balance o * 100) <=? 0)%Z eqn:Ea;
    [inversion H; subst; discriminate|].
  destruct (FRONTEND_URL env) as [frontendUrl|];
    [|inversion H; subst; discriminate].
  destruct (gateway env (Math_round (balance o * 100))) as [s|] eqn:Eg;
    [|inversion H; subst; discriminate].
  destruct (save o (settle s) (orders db)) as [orders'|] eqn:Es;
    [|inversion H; subst; discriminate].
  inversion H; subst. exists o, s, orders'.
  apply N.eqb_eq in Eu. apply Z.leb_gt in Ea. repeat split; assumption.
Qed.

Lemma settle_order_id (s : Session) (o : Order) :
  order_id (settle s o) = order_id o.
Proof. reflexivity. Qed.

Lemma validate_settle (s : Session) (o : Order) :
  validate (settle s o)
  = in_enum (deliveryOption o) deliveryOption_enum
    && in_enum (status o) status_enum.
Proof.
  unfold validate.
  change (in_enum (paymentStatus (settle s o)) paymentStatus_enum)
    with true.
  now rewrite andb_true_r.
Qed.

Lemma customizedTotal_of_total (cat : gmap ObjectId Item)
  (ls : list OrderLine) :
  Forall (fun l => is_Some (cat !! line_item l)) ls ->
  is_Some (customizedTotal_of cat ls).
Proof.
  unfold customizedTotal_of. generalize 0%Q.
  intros q H. revert q. induction H as [|l ls [it Hl] _ IH]; intros q.
  - now exists q.
  - simpl. rewrite Hl. destruct (is_customizable it); apply IH.
Qed.

(** A settlement does go through: the owner asks, every line still has
    its catalog item, the balance rounds to at least one centavo, the
    front-end URL is configured and the gateway opens a session. *)
Lemma complete_payment_goes_through (env : Env) (db : Db) (caller : Caller)
  (id : ObjectId) (o : Order) (s : Session) :
  findById (orders db) id = Some o ->
  user o = caller_id caller ->
  Forall (fun l => is_Some (catalog db !! line_item l)) (items o) ->
  (0 < Math_round (balance o * 100))%Z ->
  is_Some (FRONTEND_URL env) ->
  gateway env (Math_round (balance o * 100)) = Some s ->
  in_enum (deliveryOption o) deliveryOption_enum = true ->
  in_enum (status o) status_enum = true ->
  complete_payment env db caller id
  = (CheckoutUrl (checkout_url s),
     set_orders (update_by_id id (settle s) (orders db)) db).
Proof.
  intros Ho Hu Hls Hpos [url Hurl] Hg Hdel Hst. unfold complete_payment.
  rewrite Ho, Hu, N.eqb_refl. simpl.
  destruct (customizedTotal_of_total _ _ Hls) as [c ->].
  apply Z.leb_gt in Hpos. rewrite Hpos, Hurl, Hg.
  unfold save. rewrite validate_settle, Hdel, Hst. simpl.
  now rewrite (findById_id _ _ _ Ho).
Qed.

(** The order a settlement that does not fail leaves in the store. *)
Lemma complete_payment_stored (env : Env) (db : Db) (caller : Caller)
  (id : ObjectId) (r : Response) (db' : Db) :
  complete_payment env db caller id = (r, db') ->
  is_failure r = false ->
  exists o s,
    findById (orders db) id = Some o /\
    gateway env (Math_round (balance o * 100)) = Some s /\
    r = CheckoutUrl (checkout_url s) /\
    findById (orders db') id = Some (settle s o).
Proof.
  intros H Hf.
  destruct (complete_payment_success _ _ _ _ _ _ H Hf)
    as (o & s & orders' & Ho & _ & _ & Hg & Hs & Hr & Hdb).
  exists o, s. subst db'.
  split; [exact Ho|]. split; [exact Hg|]. split; [exact Hr|].
  simpl. unfold save in Hs.
  destruct (validate (settle s o)); [|discriminate].
  inversion Hs; subst orders'.
  rewrite findById_update by (intros; apply settle_order_id).
  rewrite Ho. simpl. now rewrite N.eqb_refl.
Qed.

(** C3.  Completing the remaining payment: when the caller is not the
    owner of the order, or its balance is not strictly positive, the
    request fails and the store is left as it was; when the request does
    not fail, the stored order has [balance = 0],
    [downPayment = totalWithShipping], [paymentStatus = "Fully Paid"] and
    the id of the new gateway session as [transactionHash]. *)
Theorem complete_payment_spec (env : Env) (db : Db) (caller : Caller)
  (id : ObjectId) (r : Response) (db' : Db) :
  complete_payment env db caller id = (r, db') ->
  (forall o, findById (orders db) id = Some o ->
             user o <> caller_id caller \/ (balance o <= 0)%Q ->
             is_failure r = true /\ db' = db /\
             (user o <> caller_id caller ->
              error_kind r = Some Unauthorized)) /\
  (is_failure r = false ->
   exists o s o',
     findById (orders db) id = Some o /\
     gateway env (Math_round (balance o * 100)) = Some s /\
     r = CheckoutUrl (checkout_url s) /\
     findById (orders db') id = Some o' /\
     balance o' = 0%Q /\
     downPayment o' = totalWithShipping o' /\
     totalWithShipping o' = totalWithShipping o /\
     paymentStatus o' = "Fully Paid" /\
     transactionHash o' = Some (session_id s)).
Proof.
  intros H. split.
  - intros o Ho Hguard.
    assert (Hf : is_failure r = true).
    { destruct (is_failure r) eqn:Hf; [reflexivity|].
      destruct (complete_payment_success _ _ _ _ _ _ H Hf)
        as (o1 & s & os1 & Ho1 & Hu & Hpos & _).
      rewrite Ho in Ho1. inversion Ho1; subst o1.
      destruct Hguard as [Hne | Hle]; [contradiction|].
      apply Math_round_nonpositive in Hle. lia. }
    split; [exact Hf|]. split; [exact (complete_payment_failure _ _ _ _ _ _ H Hf)|].
    intros Hne. unfold complete_payment in H. rewrite Ho in H.
    apply N.eqb_neq in Hne. rewrite Hne in H. simpl in H.
    inversion H; subst. reflexivity.
  - intros Hf.
    destruct (complete_payment_stored _ _ _ _ _ _ H Hf)
      as (o & s & Ho & Hg & Hr & Ho').
    exists o, s, (settle s o). repeat split; assumption.
Qed.

(** On the store of scenario B: Bob may not settle Alice's order, and
    Alice's settlement leaves nothing owed. *)
Lemma complete_payment_spec_witness :
  (is_failure (fst (complete_payment Scenario.gateway_up Scenario.dbB
                      Scenario.bob 100%N)) = true /\
   snd (complete_payment Scenario.gateway_up Scenario.dbB
          Scenario.bob 100%N) = Scenario.dbB) /\
  exists o',
    findById (orders (snd (complete_payment Scenario.gateway_up
                             Scenario.dbB Scenario.alice 100%N))) 100%N
    = Some o' /\
    balance o' = 0%Q /\ paymentStatus o' = "Fully Paid" /\
    transactionHash o' = Some "cs_123".
Proof.
  split.
  - destruct (complete_payment Scenario.gateway_up Scenario.dbB
                Scenario.bob 100%N) as [r db'] eqn:E.
    destruct (complete_payment_spec _ _ _ _ _ _ E) as [Hfail _].
    edestruct Hfail as (Hf & Hdb & _).
    + vm_compute. reflexivity.
    + left. vm_compute. discriminate.
    + split; assumption.
  - destruct (complete_payment Scenario.gateway_up Scenario.dbB
                Scenario.alice 100%N) as [r db'] eqn:E.
    destruct (complete_payment_spec _ _ _ _ _ _ E) as [_ Hok].
    destruct Hok as (o & s & o' & Ho & Hg & _ & Ho' & Hb & _ & _ & Hps & Hh).
    + vm_compute in E. inversion E. reflexivity.
    + exists o'. simpl. vm_compute in Hg. inversion Hg; subst s.
      repeat split; assumption.
Defined.

(** ** The gateway webhook *)

Lemma set_status_order_id (s : string) (o : Order) :
  order_id (set_status s o) = order_id o.
Proof. reflexivity. Qed.

(** The webhook writes to orders through one [save] of [status] at
    most. *)
Lemma webhook_orders (db : Db) (payload : option WebhookEvent)
  (r : Response) (db' : Db) :
  webhook db payload = (r, db') ->
  orders db' = orders db \/
  exists id,
    orders db' = update_by_id id (set_status "On Process") (orders db).
Proof.
  unfold webhook. intros H.
  destruct payload as [event|]; [|inversion H; now left].
  destruct (String.eqb (event_type event) "checkout_session.completed");
    [|inversion H; now left].
  destruct (event_sessionId event) as [sessionId|];
    [|inversion H; now left].
  destruct (findOne_by_transactionId (orders db) sessionId)
    as [order|]; [|inversion H; now left].
  unfold save in H.
  destruct (validate (set_status "On Process" order));
    inversion H; [right; now exists (order_id order) | now left].
Qed.

(** The webhook never touches the amounts or the payment status of an
    order. *)
Lemma webhook_keeps_ledger (db : Db) (payload : option WebhookEvent)
  (r : Response) (db' : Db) (id : ObjectId) (o : Order) :
  webhook db payload = (r, db') ->
  findById (orders db) id = Some o ->
  exists o',
    findById (orders db') id = Some o' /\
    ledger o' = ledger o /\
    totalWithShipping o' = totalWithShipping o /\
    amount o' = amount o.
Proof.
  intros H Ho. destruct (webhook_orders _ _ _ _ H) as [-> | [id1 ->]].
  - now exists o.
  - rewrite findById_update by (intros; apply set_status_order_id).
    rewrite Ho. simpl.
    destruct (N.eqb (order_id o) id1); eexists;
      (split; [reflexivity|]); repeat split.
Qed.

Lemma find_update_txid (os : list Order) (id : ObjectId)
  (s : option string) (st : string) :
  findOne_by_transactionId (update_by_id id (set_status st) os) s
  = option_map
      (fun o => if N.eqb (order_id o) id then set_status st o else o)
      (findOne_by_transactionId os s).
Proof.
  unfold findOne_by_transactionId, update_by_id.
  induction os as [|a os IH]; simpl; [reflexivity|].
  assert (Ha : txid_is s (if N.eqb (order_id a) id
                          then set_status st a else a) = txid_is s a)
    by (destruct (N.eqb (order_id a) id); reflexivity).
  rewrite Ha. destruct (txid_is s a); [reflexivity | exact IH].
Qed.

Lemma Cart_pull_findOne (u : ObjectId) (ids : list ObjectId)
  (cs : list Cart) :
  Cart_findOne (Cart_pull u ids cs) u
  = option_map
      (fun c => mkCart (cart_user c)
                  (List.filter (fun l => negb (pulled ids l)) (cart_items c)))
      (Cart_findOne cs u).
Proof.
  unfold Cart_findOne. induction cs as [|c cs IH]; simpl; [reflexivity|].
  destruct (N.eqb (cart_user c) u) eqn:E; simpl; rewrite E;
    [reflexivity | exact IH].
Qed.

Lemma Cart_pull_other (u v : ObjectId) (ids : list ObjectId)
  (cs : list Cart) :
  v <> u -> Cart_findOne (Cart_pull u ids cs) v = Cart_findOne cs v.
Proof.
  unfold Cart_findOne. intros Hne.
  induction cs as [|c cs IH]; simpl; [reflexivity|].
  destruct (N.eqb (cart_user c) u) eqn:E; simpl.
  - apply N.eqb_eq in E.
    destruct (N.eqb (cart_user c) v) eqn:E'; [|reflexivity].
    apply N.eqb_eq in E'. congruence.
  - destruct (N.eqb (cart_user c) v); [reflexivity | exact IH].
Qed.

Lemma pulled_spec (ids : list ObjectId) (l : CartLine) :
  pulled ids l = true <-> In (cart_line_id l) ids.
Proof.
  unfold pulled. rewrite existsb_exists. split.
  - intros (x & Hx & He). apply N.eqb_eq in He. now subst.
  - intros H. exists (cart_line_id l). split; [exact H | apply N.eqb_refl].
Qed.

(** The sales counters after the loop over the lines of an order. *)
Lemma inc_sales_all (ls : list OrderLine) (cat : gmap ObjectId Item)
  (i : ObjectId) (it : Item) :
  cat !! i = Some it ->
  exists it',
    fold_left inc_sales ls cat !! i = Some it' /\
    (sales it' ==
     sales it
     + Qsum (List.map quantity
               (List.filter (fun l => N.eqb (line_item l) i) ls)))%Q /\
    item_name it' = item_name it /\ item_price it' = item_price it /\
    is_customizable it' = is_customizable it.
Proof.
  revert cat it. induction ls as [|l ls IH]; intros cat it Hit; simpl.
  - exists it. repeat split; try assumption. ring.
  - destruct (N.eqb (line_item l) i) eqn:E.
    + apply N.eqb_eq in E.
      destruct (IH (inc_sales cat l) (add_sales (quantity l) it))
        as (it' & Hl & Hs & Hn & Hp & Hc).
      { unfold inc_sales. rewrite E, lookup_alter_eq, Hit. reflexivity. }
      exists it'. repeat split; try assumption.
      rewrite Hs. simpl. ring.
    + apply N.eqb_neq in E.
      destruct (IH (inc_sales cat l) it) as (it' & Hl & Hs & Hn & Hp & Hc).
      { unfold inc_sales. now rewrite lookup_alter_ne. }
      exists it'. repeat split; assumption.
Qed.

Lemma inc_sales_missing (ls : list OrderLine) (cat : gmap ObjectId Item)
  (i : ObjectId) :
  cat !! i = None -> fold_left inc_sales ls cat !! i = None.
Proof.
  revert cat. induction ls as [|l ls IH]; intros cat Hn; simpl;
    [exact Hn|].
  apply IH. unfold inc_sales.
  destruct (decide (line_item l = i)) as [->|Hne].
  - now rewrite lookup_alter_eq, Hn.
  - now rewrite lookup_alter_ne.
Qed.

(** The handler itself, were it given the event parsed: for a
    [checkout_session.completed] event whose session id is the
    [transactionId] of an order (a document the schema accepts: its
    [paymentStatus] and [deliveryOption] are of the enums) it answers
    200; that order is stored with [status = "On Process"]; the cart of
    its owner loses the lines whose [_id] is the [_id] of a line of the
    order and keeps the others; the [sales] counter of every catalog item
    grows by the quantity of it the order purchases. *)
Lemma webhook_handler_completed (db : Db) (event : WebhookEvent)
  (sessionId : option string) (order : Order) (r : Response) (db' : Db) :
  event_type event = "checkout_session.completed" ->
  event_sessionId event = Some sessionId ->
  findOne_by_transactionId (orders db) sessionId = Some order ->
  in_enum (paymentStatus order) paymentStatus_enum = true ->
  in_enum (deliveryOption order) deliveryOption_enum = true ->
  webhook db (Some event) = (r, db') ->
  r = OkEmpty /\
  findOne_by_transactionId (orders db') sessionId
  = Some (set_status "On Process" order) /\
  (is_Some (users db !! user order) ->
   forall c, Cart_findOne (carts db) (user order) = Some c ->
     exists c',
       Cart_findOne (carts db') (user order) = Some c' /\
       cart_items c'
       = List.filter
           (fun l => negb (pulled (List.map line_id (items order)) l))
           (cart_items c) /\
       forall l, In l (cart_items c') <->
                 In l (cart_items c) /\
                 ~ In (cart_line_id l) (List.map line_id (items order))) /\
  (forall i it, catalog db !! i = Some it ->
     exists it',
       catalog db' !! i = Some it' /\
       (sales it' == sales it + purchased i order)%Q /\
       item_name it' = item_name it /\ item_price it' = item_price it /\
       is_customizable it' = is_customizable it).
Proof.
  intros Htype Hid Hfind Hps Hdel H. unfold webhook in H.
  rewrite Htype, Hid, Hfind in H. simpl in H. unfold save in H.
  rewrite validate_set_status_On_Process, Hps, Hdel in H. simpl in H.
  inversion H; subst; clear H.
  simpl. split; [reflexivity|]. split; [|split].
  - rewrite find_update_txid, Hfind. simpl.
    now rewrite N.eqb_refl.
  - intros [u Hu] c Hc. rewrite Hu, Cart_pull_findOne, Hc. simpl.
    eexists. split; [reflexivity|]. simpl. split; [reflexivity|].
    intros l. rewrite filter_In, negb_true_iff, <- pulled_spec.
    destruct (pulled (List.map line_id (items order)) l); intuition congruence.
  - intros i it Hit. apply inc_sales_all. exact Hit.
Qed.

(** C9.  The route as it is mounted answers 400 to every event the
    gateway sends as a JSON object and writes nothing.  On the store
    with Alice's pending order of session "cs_9": the handler, given
    the event parsed, would put the order on process, take line 50 out
    of her cart and count three chairs sold; the route leaves the order
    pending, the cart and the counters as they were. *)
Theorem webhook_event_rejected :
  (forall db,
     paymongo_webhook db body_object = (Failure 400 "Webhook Error", db)) /\
  let db := Scenario.dbP in
  let event :=
    mkWebhookEvent "checkout_session.completed" (session_ref "cs_9") in
  let handled := snd (webhook db (Some event)) in
  let served := snd (paymongo_webhook db body_object) in
  option_map status (findOne_by_transactionId (orders db) (Some "cs_9"))
  = Some "Pending" /\
  (option_map status
     (findOne_by_transactionId (orders handled) (Some "cs_9"))
   = Some "On Process" /\
   option_map cart_items (Cart_findOne (carts handled) 1%N)
   = Some [mkCartLine 51%N 12%N 1%Q] /\
   option_map sales (catalog handled !! 10%N) = Some (0 + 2 + 1)%Q) /\
  (option_map status
     (findOne_by_transactionId (orders served) (Some "cs_9"))
   = Some "Pending" /\
   option_map cart_items (Cart_findOne (carts served) 1%N)
   = Some [mkCartLine 50%N 10%N 2%Q; mkCartLine 51%N 12%N 1%Q] /\
   option_map sales (catalog served !! 10%N) = Some 0%Q).
Proof.
  split; [reflexivity|]. cbv zeta.
  split; [reflexivity|]. split.
  - split; [vm_compute; reflexivity|].
    split; vm_compute; reflexivity.
  - split; [reflexivity|]. split; vm_compute; reflexivity.
Qed.

(** ** Ledger and gateway (C4) *)

(** C4, as stated, fails: on the store of scenario B the gateway only
    opens a checkout session for Alice's remaining 7000, no webhook has
    been received, and the order is already stored as fully paid with
    no balance. *)
Lemma ledger_written_before_confirmation :
  let before := Scenario.dbB in
  let after := snd (complete_payment Scenario.gateway_up before
                      Scenario.alice 100%N) in
  fst (complete_payment Scenario.gateway_up before Scenario.alice 100%N)
  = CheckoutUrl "https://pay.example.org/cs_123" /\
  option_map paymentStatus (findById (orders before) 100%N)
  = Some "Downpayment Received" /\
  option_map paymentStatus (findById (orders after) 100%N)
  = Some "Fully Paid" /\
  option_map ledger (findById (orders after) 100%N)
  <> option_map ledger (findById (orders before) 100%N).
Proof.
  cbv zeta. split; [vm_compute; reflexivity|].
  split; [vm_compute; reflexivity|]. split; [vm_compute; reflexivity|].
  vm_compute. discriminate.
Qed.

(** A settlement whose checkout session the gateway opens: the order is
    written when [save] accepts it, and else the request is answered 500
    with nothing written. *)
Lemma complete_payment_session (env : Env) (db : Db) (caller : Caller)
  (id : ObjectId) (o : Order) (s : Session) :
  findById (orders db) id = Some o ->
  user o = caller_id caller ->
  Forall (fun l => is_Some (catalog db !! line_item l)) (items o) ->
  (0 < Math_round (balance o * 100))%Z ->
  is_Some (FRONTEND_URL env) ->
  gateway env (Math_round (balance o * 100)) = Some s ->
  complete_payment env db caller id
  = if validate (settle s o)
    then (CheckoutUrl (checkout_url s),
          set_orders (update_by_id id (settle s) (orders db)) db)
    else (Failure 500 "Server error creating complete payment session", db).
Proof.
  intros Ho Hu Hls Hpos [url Hurl] Hg. unfold complete_payment.
  rewrite Ho, Hu, N.eqb_refl. simpl.
  destruct (customizedTotal_of_total _ _ Hls) as [c ->].
  apply Z.leb_gt in Hpos. rewrite Hpos, Hurl, Hg.
  unfold save. rewrite (findById_id _ _ _ Ho).
  now destruct (validate (settle s o)).
Qed.

(** C4, amended.  A settlement request whose gateway call fails (as any
    settlement request that fails) leaves the store as it was.  One whose
    gateway call opens a session writes the ledger at once, before any
    webhook, when the settled order passes the validation of [save]: the
    order is stored with [paymentStatus = "Fully Paid"], [balance = 0]
    and [downPayment = totalWithShipping]; when validation rejects it
    (its [status] or [deliveryOption] is outside the enums of the
    schema) the request is answered 500 although the session is open,
    and the store is as it was.  The webhook changes none of
    [downPayment], [balance], [paymentStatus] of any order. *)
Theorem ledger_and_gateway (env : Env) (db : Db) (caller : Caller)
  (id : ObjectId) (r : Response) (db' : Db) :
  complete_payment env db caller id = (r, db') ->
  ((forall amountToPay, gateway env amountToPay = None) ->
   is_failure r = true /\ db' = db) /\
  (is_failure r = true -> db' = db) /\
  (is_failure r = false ->
   exists o o' s,
     findById (orders db) id = Some o /\
     gateway env (Math_round (balance o * 100)) = Some s /\
     findById (orders db') id = Some o' /\
     ledger o' = (totalWithShipping o, 0%Q, "Fully Paid")) /\
  (forall o s,
     findById (orders db) id = Some o ->
     user o = caller_id caller ->
     Forall (fun l => is_Some (catalog db !! line_item l)) (items o) ->
     (0 < Math_round (balance o * 100))%Z ->
     is_Some (FRONTEND_URL env) ->
     gateway env (Math_round (balance o * 100)) = Some s ->
     (in_enum (status o) status_enum
      && in_enum (deliveryOption o) deliveryOption_enum = true ->
      r = CheckoutUrl (checkout_url s) /\
      findById (orders db') id = Some (settle s o) /\
      ledger (settle s o) = (totalWithShipping o, 0%Q, "Fully Paid")) /\
     (in_enum (status o) status_enum
      && in_enum (deliveryOption o) deliveryOption_enum = false ->
      error_kind r = Some ServerError /\ db' = db)) /\
  (forall payload r2 db2 id2 o2,
     webhook db payload = (r2, db2) ->
     findById (orders db) id2 = Some o2 ->
     exists o2', findById (orders db2) id2 = Some o2' /\
                 ledger o2' = ledger o2).
Proof.
  intros H. split; [|split; [|split; [|split]]].
  - intros Hdown.
    assert (Hf : is_failure r = true).
    { destruct (is_failure r) eqn:Hf; [reflexivity|].
      destruct (complete_payment_success _ _ _ _ _ _ H Hf)
        as (o & s & os1 & _ & _ & _ & Hg & _).
      rewrite Hdown in Hg. discriminate. }
    split; [exact Hf | exact (complete_payment_failure _ _ _ _ _ _ H Hf)].
  - exact (complete_payment_failure _ _ _ _ _ _ H).
  - intros Hf.
    destruct (complete_payment_stored _ _ _ _ _ _ H Hf)
      as (o & s & Ho & Hg & _ & Ho').
    exists o, (settle s o), s. repeat split; assumption.
  - intros o s Ho Hu Hls Hpos Hurl Hg.
    rewrite (complete_payment_session _ _ _ _ _ _ Ho Hu Hls Hpos Hurl Hg)
      in H.
    rewrite validate_settle in H.
    assert (Heq : in_enum (deliveryOption o) deliveryOption_enum
                  && in_enum (status o) status_enum
                  = in_enum (status o) status_enum
                    && in_enum (deliveryOption o) deliveryOption_enum)
      by apply andb_comm.
    rewrite Heq in H. split; intros Hv; rewrite Hv in H; inversion H; subst.
    + split; [reflexivity|]. split; [|reflexivity]. simpl.
      rewrite findById_update by reflexivity. rewrite Ho. simpl.
      now rewrite (findById_id _ _ _ Ho), N.eqb_refl.
    + now split.
  - intros payload r2 db2 id2 o2 Hw Ho2.
    destruct (webhook_keeps_ledger _ _ _ _ _ _ Hw Ho2) as (o2' & H1 & H2 & _).
    now exists o2'.
Qed.

(** With the gateway down Alice's settlement changes nothing; with the
    gateway up her order is stored as paid in full at once; and after
    Bob's cancel has left the order with status "cancelled" the session
    is opened, the request is answered 500 and nothing is written. *)
Lemma ledger_and_gateway_witness :
  snd (complete_payment Scenario.gateway_down Scenario.dbB
         Scenario.alice 100%N) = Scenario.dbB /\
  (exists o',
     findById (orders (snd (complete_payment Scenario.gateway_up
                              Scenario.dbB Scenario.alice 100%N))) 100%N
     = Some o' /\
     ledger o' = (10500%Q, 0%Q, "Fully Paid")) /\
  let cancelled := snd (cancel Scenario.dbB Scenario.bob 100%N) in
  snd (complete_payment Scenario.gateway_up cancelled Scenario.alice 100%N)
  = cancelled.
Proof.
  split; [|split].
  - destruct (complete_payment Scenario.gateway_down Scenario.dbB
                Scenario.alice 100%N) as [r db'] eqn:E.
    destruct (ledger_and_gateway _ _ _ _ _ _ E) as (Hdown & _).
    destruct Hdown as [_ Hdb]; [reflexivity | exact Hdb].
  - destruct (complete_payment Scenario.gateway_up Scenario.dbB
                Scenario.alice 100%N) as [r db'] eqn:E.
    destruct (ledger_and_gateway _ _ _ _ _ _ E) as (_ & _ & Hup & _).
    destruct Hup as (o & o' & s & Ho & _ & Ho' & Hl).
    + vm_compute in E. inversion E. reflexivity.
    + exists o'. split; [exact Ho'|]. rewrite Hl.
      vm_compute in Ho. inversion Ho. reflexivity.
  - cbv zeta.
    destruct (complete_payment Scenario.gateway_up
                (snd (cancel Scenario.dbB Scenario.bob 100%N))
                Scenario.alice 100%N) as [r db'] eqn:E.
    destruct (ledger_and_gateway _ _ _ _ _ _ E) as (_ & _ & _ & Hopen & _).
    edestruct Hopen as [_ Hrejected].
    + vm_compute. reflexivity.
    + reflexivity.
    + repeat constructor; eexists; vm_compute; reflexivity.
    + vm_compute. reflexivity.
    + eexists. reflexivity.
    + reflexivity.
    + apply Hrejected. reflexivity.
Defined.

(** ** The ledger sum (C1) *)

(** C1, as stated, fails: scenario A, two chairs at 1000 shipped for
    1500, creates an order with [downPayment = 2000], [balance = 0] and
    [totalWithShipping = 3500]. *)
Lemma ledger_sum_ignores_shipping :
  exists o db',
    create_order Scenario.db0 Scenario.alice Scenario.requestA
    = (Created o, db') /\
    (downPayment o == 2000)%Q /\ (balance o == 0)%Q /\
    (totalWithShipping o == 3500)%Q /\
    ~ (downPayment o + balance o == totalWithShipping o)%Q.
Proof.
  eexists. eexists. split; [vm_compute; reflexivity|].
  repeat split; try reflexivity. vm_compute. discriminate.
Qed.

Lemma payment_branch_balance (has : bool) (paymentType : string)
  (paidAmount : option Q) (amount : Q) (delivery : string) (b : Q) :
  init_balance (payment_branch has paymentType paidAmount amount delivery)
  = Some b ->
  (b == amount
        - default 0 (init_downPayment
                       (payment_branch has paymentType paidAmount amount
                          delivery)))%Q.
Proof.
  unfold payment_branch, full_payment_ledger.
  destruct has; [destruct (String.eqb paymentType "full_payment")|]; simpl;
    try (intros H; inversion H; subst; simpl; ring).
  destruct paidAmount as [d|]; [|discriminate].
  intros H; inversion H; subst; simpl. reflexivity.
Qed.

(** C1, amended.  An order just created has
    [balance == amount - downPayment], whatever the payment type: the
    shipping fee is no part of it, so that the balance is
    [totalWithShipping - downPayment] when the request's
    [totalWithShipping] is its [amount]; after a settlement that does
    not fail the stored order has
    [downPayment + balance == totalWithShipping]; the webhook leaves
    [downPayment], [balance], [totalWithShipping] and [amount] of every
    order as they were. *)
Theorem ledger_sum :
  (forall db caller r o db',
     create_order db caller r = (Created o, db') ->
     (balance o == amount o - downPayment o)%Q /\
     ((totalWithShipping o == amount o)%Q ->
      (balance o == totalWithShipping o - downPayment o)%Q)) /\
  (forall env db caller id r db',
     complete_payment env db caller id = (r, db') ->
     is_failure r = false ->
     exists o',
       findById (orders db') id = Some o' /\
       (downPayment o' + balance o' == totalWithShipping o')%Q) /\
  (forall db payload r db' id o,
     webhook db payload = (r, db') ->
     findById (orders db) id = Some o ->
     exists o',
       findById (orders db') id = Some o' /\
       downPayment o' = downPayment o /\ balance o' = balance o /\
       totalWithShipping o' = totalWithShipping o /\
       amount o' = amount o).
Proof.
  split; [|split].
  - intros db caller r o db' H.
    apply create_order_Created in H as (_ & _ & Hnew & _).
    apply new_Order_fields in Hnew
      as (_ & _ & Ham & _ & Hdp & Hbal & _).
    apply payment_branch_balance in Hbal. rewrite <- Hdp, <- Ham in Hbal.
    split; [exact Hbal|]. intros E. now rewrite E.
  - intros env db caller id r db' H Hf.
    destruct (complete_payment_stored _ _ _ _ _ _ H Hf)
      as (o & s & _ & _ & _ & Ho').
    exists (settle s o). split; [exact Ho'|]. simpl. ring.
  - intros db payload r db' id o H Ho.
    destruct (webhook_keeps_ledger _ _ _ _ _ _ H Ho)
      as (o' & Ho' & Hl & Ht & Ha).
    exists o'. unfold ledger in Hl. inversion Hl. repeat split; assumption.
Qed.

(** Scenario B: the order is created with balance 10500 - 3500, and once
    settled it holds 10500 + 0 == 10500. *)
Lemma ledger_sum_witness :
  (exists o db',
     create_order Scenario.db0 Scenario.alice Scenario.requestB
     = (Created o, db') /\
     (balance o == 10500 - 3500)%Q) /\
  (exists o',
     findById (orders (snd (complete_payment Scenario.gateway_up
                              Scenario.dbB Scenario.alice 100%N))) 100%N
     = Some o' /\
     (downPayment o' + balance o' == 10500)%Q).
Proof.
  destruct ledger_sum as (Hcreate & Hsettle & _). split.
  - eexists. eexists. split; [vm_compute; reflexivity|].
    match goal with
    | |- (balance ?o == _)%Q =>
        destruct (Hcreate Scenario.db0 Scenario.alice Scenario.requestB o
                    Scenario.dbB) as [Hbal _]
    end.
    + vm_compute. reflexivity.
    + rewrite Hbal. reflexivity.
  - destruct (complete_payment Scenario.gateway_up Scenario.dbB
                Scenario.alice 100%N) as [r db'] eqn:E.
    destruct (Hsettle _ _ _ _ _ _ E) as (o' & Ho' & Hsum).
    + vm_compute in E. inversion E. reflexivity.
    + exists o'. split; [exact Ho'|]. rewrite Hsum.
      vm_compute in E. inversion E; subst.
      vm_compute in Ho'. inversion Ho'. reflexivity.
Defined.

(** ** Creation without a hash (C10) *)

Lemma find_none_filter {A : Type} (f : A -> bool) (l : list A) :
  List.find f l = None -> List.filter f l = [].
Proof.
  induction l as [|a l IH]; simpl; [reflexivity|].
  destruct (f a); [discriminate | exact IH].
Qed.

Lemma build_lines_shift (n n' : ObjectId) (ps : list ProcessedItem)
  (ls : list OrderLine) :
  build_lines n ps = Some ls ->
  exists ls',
    build_lines n' ps = Some ls' /\
    List.map line_contents ls' = List.map line_contents ls.
Proof.
  revert n n' ls. induction ps as [|p ps IH]; intros n n' ls; simpl.
  - intros H; inversion H. now exists [].
  - destruct (p_item p) as [it|]; [|discriminate].
    destruct (build_lines (N.succ n) ps) as [ls0|] eqn:E; [|discriminate].
    intros H; inversion H; subst.
    destruct (IH _ (N.succ n') _ E) as (ls' & -> & Hc).
    eexists. split; [reflexivity|]. simpl.
    unfold line_contents at 1 3. simpl. now rewrite Hc.
Qed.

(** Validation does not depend on the [_id]s the driver hands out. *)
Lemma new_Order_shift n n' userId amount tws l hash ps delivery fee o :
  new_Order n userId amount tws l hash ps delivery fee = Some o ->
  exists o',
    new_Order n' userId amount tws l hash ps delivery fee = Some o' /\
    contents o' = contents o.
Proof.
  unfold new_Order.
  destruct (build_lines (N.succ n) ps) as [ls|] eqn:E; [|discriminate].
  destruct (build_lines_shift _ (N.succ n') _ _ E) as (ls' & -> & Hc).
  destruct (init_balance l) as [b|]; [|discriminate].
  cbv zeta. unfold validate. cbn [deliveryOption paymentStatus status].
  destruct (in_enum delivery deliveryOption_enum
            && in_enum (init_paymentStatus l) paymentStatus_enum
            && in_enum (init_status l) status_enum); [|discriminate].
  intros H; inversion H; subst. eexists. split; [reflexivity|].
  unfold contents. simpl. now rewrite Hc.
Qed.

(** C10.  A creation request whose [transactionHash] is absent or empty
    is never answered as a duplicate; if it creates an order on a store,
    it creates the same order whatever orders the store holds already;
    and submitted again it creates a second order with the same contents
    next to the first. *)
Theorem no_hash_no_guard (db : Db) (caller : Caller) (r : OrderRequest) :
  truthy_string (body_transactionHash r) = false ->
  (forall id db', create_order db caller r <> (Duplicate id, db')) /\
  (forall o db1 os,
     create_order db caller r = (Created o, db1) ->
     exists db2,
       create_order (set_orders os db) caller r = (Created o, db2) /\
       orders db2 = (os ++ [o])%list) /\
  (forall o db1,
     create_order db caller r = (Created o, db1) ->
     exists o' db2,
       create_order db1 caller r = (Created o', db2) /\
       orders db2 = (orders db ++ [o; o'])%list /\
       contents o' = contents o).
Proof.
  intros Hfalsy.
  assert (Hskip : forall os : list Order,
             match body_transactionHash r with
             | Some h => if truthy_string (body_transactionHash r)
                         then findOne_by_hash os h else None
             | None => None
             end = None).
  { intros os. rewrite Hfalsy. now destruct (body_transactionHash r). }
  split; [|split].
  - intros id db' H. unfold create_order in H. rewrite Hskip in H.
    destruct (users db !! caller_id caller); [|discriminate].
    destruct (orderPhone_throws r); [discriminate|].
    match type of H with
    | match ?n with _ => _ end = _ => destruct n
    end; discriminate.
  - intros o db1 os H.
    apply create_order_Created in H as (_ & [u Hu] & Hnew & _ & _ & _ & _
                                        & Hphone & Hcasts).
    unfold create_order. rewrite Hskip. simpl users. rewrite Hu.
    simpl catalog. simpl next_oid. rewrite Hphone, Hcasts, Hnew.
    eexists. split; reflexivity.
  - intros o db1 H.
    apply create_order_Created in H as (_ & [u Hu] & Hnew & Hos & Hus
                                        & Hcat & _ & Hphone & Hcasts).
    destruct (new_Order_shift _ (next_oid db1) _ _ _ _ _ _ _ _ _ Hnew)
      as (o' & Hnew' & Hc).
    unfold create_order.
    rewrite Hskip, Hus, Hu, Hcat, Hphone, Hcasts, Hnew'.
    eexists. eexists. split; [reflexivity|]. simpl. rewrite Hos.
    split; [|exact Hc]. now rewrite <- List.app_assoc.
Qed.

(** Scenario A submitted twice without a hash: two orders. *)
Lemma no_hash_no_guard_witness :
  let r := mkOrderRequest (body_items Scenario.requestA) 2000%Q
             (Some 3500%Q) None "shipping" (Some 1500%Q) None None
             (body_shippingInfo Scenario.requestA)
             (body_scheduledDate Scenario.requestA) in
  exists o o' db1 db2,
    create_order Scenario.db0 Scenario.alice r = (Created o, db1) /\
    create_order db1 Scenario.alice r = (Created o', db2) /\
    orders db2 = [o; o'] /\ contents o' = contents o.
Proof.
  cbv zeta.
  destruct (no_hash_no_guard Scenario.db0 Scenario.alice
              (mkOrderRequest (body_items Scenario.requestA) 2000%Q
                 (Some 3500%Q) None "shipping" (Some 1500%Q) None None
                 (body_shippingInfo Scenario.requestA)
                 (body_scheduledDate Scenario.requestA))
              eq_refl) as (_ & _ & Htwice).
  edestruct Htwice as (o' & db2 & H2 & Hos & Hc).
  - vm_compute. reflexivity.
  - eexists. exists o'. eexists. exists db2.
    split; [vm_compute; reflexivity|].
    split; [exact H2|]. split; [exact Hos | exact Hc].
Defined.

(** ** Refund requests (C7) *)

Lemma hasCustomizedItems_spec (db : Db) (o : Order) :
  existsb (line_is_customized (catalog db)) (items o) = true <->
  order_has_customized db o.
Proof.
  unfold order_has_customized, line_is_customized.
  rewrite existsb_exists. split.
  - intros (l & Hl & Hc).
    destruct (catalog db !! line_item l) as [it|] eqn:E; [|discriminate].
    now exists l, it.
  - intros (l & it & Hl & Hit & Hc). exists l. now rewrite Hit.
Qed.

(** C7, as stated, fails.  The order of scenario B holds a custom table
    and is Alice's: Bob's refund request is turned away as unauthorized,
    not as an invalid state; and an admin status update does bring the
    order to "Requesting for Refund". *)
Lemma refund_of_customized_not_always_InvalidState :
  (exists o, findById (orders Scenario.dbB) 100%N = Some o /\
             order_has_customized Scenario.dbB o /\
             user o = caller_id Scenario.alice) /\
  error_kind (fst (request_refund Scenario.dbB Scenario.bob 100%N))
  = Some Unauthorized /\
  error_kind (fst (request_refund Scenario.dbB Scenario.bob 100%N))
  <> Some InvalidState /\
  option_map status
    (findById
       (orders (snd (admin_set_status Scenario.dbB Scenario.admin 100%N
                       (Some "Requesting for Refund")))) 100%N)
  = Some "Requesting for Refund".
Proof.
  split; [|split; [|split]].
  - eexists. split; [vm_compute; reflexivity|]. split; [|reflexivity].
    apply hasCustomizedItems_spec. vm_compute. reflexivity.
  - vm_compute. reflexivity.
  - vm_compute. discriminate.
  - vm_compute. reflexivity.
Qed.

(** C7, amended.  A refund request on an order that holds a customizable
    line fails whatever the status of the order and leaves the store as
    it was, so the request never brings the order to "Requesting for
    Refund"; the error is [Unauthorized] when the caller is not the owner
    and [InvalidState] when it is. *)
Theorem refund_of_customized (db : Db) (caller : Caller) (id : ObjectId)
  (o : Order) (r : Response) (db' : Db) :
  findById (orders db) id = Some o ->
  order_has_customized db o ->
  request_refund db caller id = (r, db') ->
  is_failure r = true /\ db' = db /\
  (user o <> caller_id caller -> error_kind r = Some Unauthorized) /\
  (user o = caller_id caller -> error_kind r = Some InvalidState).
Proof.
  intros Ho Hcust H. apply hasCustomizedItems_spec in Hcust.
  unfold request_refund in H. rewrite Ho in H.
  destruct (N.eqb (user o) (caller_id caller)) eqn:Eu; simpl in H.
  - apply N.eqb_eq in Eu.
    destruct (String.eqb (status o) "On Process"); simpl in H.
    + rewrite Hcust in H. inversion H; subst.
      repeat split; try reflexivity. intros Hne. contradiction.
    + inversion H; subst. repeat split; try reflexivity.
      intros Hne. contradiction.
  - apply N.eqb_neq in Eu. inversion H; subst.
    repeat split; try reflexivity. intros He. contradiction.
Qed.

(** Alice may not ask a refund for her custom table. *)
Lemma refund_of_customized_witness :
  error_kind (fst (request_refund Scenario.dbB Scenario.alice 100%N))
  = Some InvalidState /\
  snd (request_refund Scenario.dbB Scenario.alice 100%N) = Scenario.dbB.
Proof.
  destruct (request_refund Scenario.dbB Scenario.alice 100%N)
    as [r db'] eqn:E.
  edestruct (refund_of_customized Scenario.dbB Scenario.alice 100%N)
    as (_ & Hdb & _ & Hkind).
  - vm_compute. reflexivity.
  - apply hasCustomizedItems_spec. vm_compute. reflexivity.
  - exact E.
  - split; [apply Hkind; reflexivity | exact Hdb].
Defined.

(** A refund request that goes through: the owner's, on an order on
    process without customizable line. *)
Lemma request_refund_granted (db : Db) (caller : Caller) (id : ObjectId)
  (o : Order) :
  findById (orders db) id = Some o ->
  user o = caller_id caller ->
  status o = "On Process" ->
  existsb (line_is_customized (catalog db)) (items o) = false ->
  in_enum (deliveryOption o) deliveryOption_enum = true ->
  exists o',
    fst (request_refund db caller id) = RefundRequested o' /\
    status o' = "Requesting for Refund" /\
    paymentStatus o' = "Refund Requested" /\
    findById (orders (snd (request_refund db caller id))) id = Some o'.
Proof.
  intros Ho Hu Hst Hnc Hdel. unfold request_refund.
  rewrite Ho, Hu, N.eqb_refl, Hst, Hnc. simpl.
  unfold save, validate.
  cbn [deliveryOption paymentStatus status set_paymentStatus set_status].
  rewrite Hdel.
  change (in_enum "Refund Requested" paymentStatus_enum) with true.
  change (in_enum "Requesting for Refund" status_enum) with true.
  cbn [andb fst snd].
  eexists. split; [reflexivity|]. split; [reflexivity|].
  split; [reflexivity|]. cbn [orders set_orders].
  rewrite findById_update by reflexivity. rewrite Ho. simpl.
  now rewrite (findById_id _ _ _ Ho), N.eqb_refl.
Qed.

(** ** Cancellation (C8) *)

(** Whoever asks, the order is stored as "cancelled" before its owner is
    looked at. *)
Lemma cancel_writes_first (db : Db) (caller : Caller) (id : ObjectId)
  (o : Order) :
  findById (orders db) id = Some o ->
  findById (orders (snd (cancel db caller id))) id
  = Some (set_status "cancelled" o) /\
  (user o <> caller_id caller ->
   fst (cancel db caller id) = Failure 403 "Unauthorized") /\
  (user o = caller_id caller ->
   fst (cancel db caller id) = OkOrder (set_status "cancelled" o)).
Proof.
  intros Ho. unfold cancel, findByIdAndUpdate_status. rewrite Ho.
  assert (Hread : findById (update_by_id id (set_status "cancelled")
                              (orders db)) id
                  = Some (set_status "cancelled" o)).
  { rewrite findById_update by reflexivity. rewrite Ho. simpl.
    now rewrite (findById_id _ _ _ Ho), N.eqb_refl. }
  simpl user. destruct (N.eqb (user o) (caller_id caller)) eqn:Eu; simpl.
  - apply N.eqb_eq in Eu. repeat split; try assumption.
    intros Hne. contradiction.
  - apply N.eqb_neq in Eu. repeat split; try assumption.
    intros He. contradiction.
Qed.

(** C8 on the code.  Bob asks to cancel Alice's order of scenario B: he
    is answered 403, and the order, on process before, is stored as
    "cancelled"; when Alice asks, the status written is "cancelled" too,
    which is not the "Cancelled" of the schema. *)
Theorem cancel_by_stranger_mutates :
  fst (cancel Scenario.dbB Scenario.bob 100%N) = Failure 403 "Unauthorized" /\
  option_map status (findById (orders Scenario.dbB) 100%N)
  = Some "On Process" /\
  option_map status
    (findById (orders (snd (cancel Scenario.dbB Scenario.bob 100%N))) 100%N)
  = Some "cancelled" /\
  option_map status
    (findById (orders (snd (cancel Scenario.dbB Scenario.alice 100%N)))
       100%N)
  = Some "cancelled" /\
  "cancelled" <> "Cancelled" /\
  in_enum "cancelled" status_enum = false.
Proof.
  repeat split; try (vm_compute; reflexivity). discriminate.
Qed.

(** ** What every route keeps *)

Lemma Forall_update_by_id (P : Order -> Prop) (id : ObjectId)
  (modify : Order -> Order) (os : list Order) :
  (forall o, P o -> P (modify o)) ->
  Forall P os -> Forall P (update_by_id id modify os).
Proof.
  intros Hf H. unfold update_by_id. induction H as [|o os Ho _ IH]; simpl.
  - constructor.
  - constructor; [|exact IH].
    destruct (N.eqb (order_id o) id); [now apply Hf | exact Ho].
Qed.

Lemma validate_enums_kept (o : Order) : validate o = true -> enums_kept o.
Proof.
  unfold validate, enums_kept. intros H.
  apply andb_true_iff in H as [H _]. apply andb_true_iff in H as [H1 H2].
  now split.
Qed.

(** How a route can change the collection of orders: not at all, by one
    validated insertion, or by an update that keeps the enums. *)
Lemma handle_orders (env : Env) (db : Db) (q : Request) :
  orders (snd (handle env db q)) = orders db \/
  (exists o, orders (snd (handle env db q)) = (orders db ++ [o])%list /\
             validate o = true) \/
  (exists id modify,
     orders (snd (handle env db q)) = update_by_id id modify (orders db) /\
     forall o, enums_kept o -> enums_kept (modify o)).
Proof.
  destruct q as [c b | c id | payload | c id | c id | c id st]; simpl.
  - destruct (create_order db c b) as [r db'] eqn:E.
    destruct r as [o| | | | | |];
      try (left; unfold create_order in E;
           repeat match type of E with
                  | (match ?x with _ => _ end) = _ => destruct x
                  | (if ?x then _ else _) = _ => destruct x
                  end; now inversion E).
    apply create_order_Created in E as (_ & _ & Hnew & Hos & _).
    apply new_Order_fields in Hnew.
    right; left. exists o. split; [exact Hos | apply Hnew].
  - destruct (complete_payment env db c id) as [r db'] eqn:E.
    destruct (is_failure r) eqn:Hf.
    + left. simpl. now rewrite (complete_payment_failure _ _ _ _ _ _ E Hf).
    + destruct (complete_payment_success _ _ _ _ _ _ E Hf)
        as (o & s & os' & _ & _ & _ & _ & Hs & _ & ->).
      right; right. exists (order_id o), (settle s). simpl. unfold save in Hs.
      destruct (validate (settle s o)); [|discriminate].
      inversion Hs. split; [reflexivity|].
      intros o0 [_ Hd]. now split.
  - destruct (webhook db payload) as [r db'] eqn:E. simpl.
    destruct (webhook_orders _ _ _ _ E) as [-> | [id ->]]; [now left|].
    right; right. exists id, (set_status "On Process").
    split; [reflexivity|]. intros o H. exact H.
  - unfold cancel, findByIdAndUpdate_status.
    destruct (findById (orders db) id) as [o|]; [|now left].
    right; right. exists id, (set_status "cancelled").
    split; [|intros o0 H; exact H].
    simpl. now destruct (negb (N.eqb (user o) (caller_id c))).
  - unfold request_refund.
    destruct (findById (orders db) id) as [o|]; [|now left].
    destruct (negb (N.eqb (user o) (caller_id c))); [now left|].
    destruct (negb (String.eqb (status o) "On Process")); [now left|].
    destruct (existsb _ _); [now left|].
    unfold save. destruct (validate _); [|now left].
    right; right. eexists. eexists. split; [reflexivity|].
    intros o0 [_ Hd]. now split.
  - unfold admin_set_status, findByIdAndUpdate_status.
    destruct (negb (authorizeRoles "admin" c)); [now left|].
    destruct st as [s|]; [|now left].
    destruct (truthy_string (Some s)); [|now left].
    destruct (findById (orders db) id) as [o|]; [|now left].
    right; right. exists id, (set_status s).
    split; [reflexivity|]. intros o0 H. exact H.
Qed.

(** Every route keeps the [paymentStatus] and the [deliveryOption] of the
    stored orders within the enums of the schema. *)
Lemma handle_keeps_enums (env : Env) (db : Db) (q : Request) :
  Forall enums_kept (orders db) ->
  Forall enums_kept (orders (snd (handle env db q))).
Proof.
  intros H.
  destruct (handle_orders env db q)
    as [-> | [(o & -> & Hv) | (id & f & -> & Hf)]].
  - exact H.
  - apply Forall_app. split; [exact H|].
    constructor; [now apply validate_enums_kept | constructor].
  - now apply Forall_update_by_id.
Qed.

(** So do the stores reached from one without orders. *)
Lemma run_keeps_enums (env : Env) (db : Db) (qs : list Request) :
  Forall enums_kept (orders db) ->
  Forall enums_kept (orders (run env db qs)).
Proof.
  unfold run. revert db. induction qs as [|q qs IH]; intros db H; simpl.
  - exact H.
  - apply IH. now apply handle_keeps_enums.
Qed.

(** ** The shape of every write to the orders *)

Lemma findById_app (os : list Order) (o o0 : Order) (id : ObjectId) :
  findById os id = Some o0 -> findById (os ++ [o]) id = Some o0.
Proof.
  unfold findById. induction os as [|a os IH]; simpl; [discriminate|].
  destruct (N.eqb (order_id a) id); [trivial | exact IH].
Qed.

(** The modification a refund request saves. *)
Lemma request_refund_orders (db : Db) (caller : Caller) (id : ObjectId) :
  orders (snd (request_refund db caller id)) = orders db \/
  exists o,
    findById (orders db) id = Some o /\
    orders (snd (request_refund db caller id))
    = update_by_id (order_id o)
        (fun o => set_paymentStatus "Refund Requested"
                    (set_status "Requesting for Refund" o))
        (orders db).
Proof.
  unfold request_refund.
  destruct (findById (orders db) id) as [o|] eqn:Ho; [|now left].
  destruct (negb (N.eqb (user o) (caller_id caller))); [now left|].
  destruct (negb (String.eqb (status o) "On Process")); [now left|].
  destruct (existsb _ _); [now left|].
  unfold save. destruct (validate _); [|now left].
  right. now exists o.
Qed.

(** A route leaves the orders alone, appends the order a creation
    answers with, or updates the documents with one [_id] by a
    settlement, a status or a refund-request modification. *)
Lemma handle_orders_shape (env : Env) (db : Db) (q : Request) :
  orders (snd (handle env db q)) = orders db \/
  (exists c r o db',
     create_order db c r = (Created o, db') /\
     orders (snd (handle env db q)) = (orders db ++ [o])%list) \/
  (exists id modify,
     orders (snd (handle env db q)) = update_by_id id modify (orders db) /\
     ((exists s, modify = settle s) \/
      (exists st, modify = set_status st) \/
      modify = (fun o => set_paymentStatus "Refund Requested"
                           (set_status "Requesting for Refund" o)))).
Proof.
  destruct q as [c b | c id | payload | c id | c id | c id st]; simpl.
  - destruct (create_order db c b) as [r db'] eqn:E.
    destruct r as [o| | | | | |];
      try (left; unfold create_order in E;
           repeat match type of E with
                  | (match ?x with _ => _ end) = _ => destruct x
                  | (if ?x then _ else _) = _ => destruct x
                  end; now inversion E).
    right; left. exists c, b, o, db'. split; [exact E|].
    now apply create_order_Created in E as (_ & _ & _ & Hos & _).
  - destruct (complete_payment env db c id) as [r db'] eqn:E.
    destruct (is_failure r) eqn:Hf.
    + left. simpl. now rewrite (complete_payment_failure _ _ _ _ _ _ E Hf).
    + destruct (complete_payment_success _ _ _ _ _ _ E Hf)
        as (o & s & os' & _ & _ & _ & _ & Hs & _ & ->).
      right; right. exists (order_id o), (settle s). simpl. unfold save in Hs.
      destruct (validate (settle s o)); [|discriminate].
      inversion Hs. split; [reflexivity|]. left. now exists s.
  - destruct (webhook db payload) as [r db'] eqn:E. simpl.
    destruct (webhook_orders _ _ _ _ E) as [-> | [id ->]]; [now left|].
    right; right. exists id, (set_status "On Process").
    split; [reflexivity|]. right; left. now eexists.
  - unfold cancel, findByIdAndUpdate_status.
    destruct (findById (orders db) id) as [o|]; [|now left].
    right; right. exists id, (set_status "cancelled").
    split; [|right; left; now eexists].
    simpl. now destruct (negb (N.eqb (user o) (caller_id c))).
  - destruct (request_refund_orders db c id) as [H | (o & _ & H)];
      [now left|].
    right; right. eexists. eexists. split; [exact H|]. now right; right.
  - unfold admin_set_status, findByIdAndUpdate_status.
    destruct (negb (authorizeRoles "admin" c)); [now left|].
    destruct st as [s|]; [|now left].
    destruct (truthy_string (Some s)); [|now left].
    destruct (findById (orders db) id) as [o|]; [|now left].
    right; right. exists id, (set_status s).
    split; [reflexivity|]. right; left. now eexists.
Qed.

(** An invariant of the stored orders: it is enough that creation
    establishes it and the three kinds of modification keep it. *)
Lemma handle_invariant (P : Order -> Prop) :
  (forall db c r o db', create_order db c r = (Created o, db') -> P o) ->
  (forall s o, P o -> P (settle s o)) ->
  (forall st o, P o -> P (set_status st o)) ->
  (forall o, P o ->
             P (set_paymentStatus "Refund Requested"
                  (set_status "Requesting for Refund" o))) ->
  forall env db q,
    Forall P (orders db) -> Forall P (orders (snd (handle env db q))).
Proof.
  intros Hc Hs Hst Hr env db q H.
  destruct (handle_orders_shape env db q)
    as [-> | [(c & r & o & db' & E & ->) | (id & f & -> & Hf)]].
  - exact H.
  - apply Forall_app. split; [exact H|].
    constructor; [exact (Hc _ _ _ _ _ E) | constructor].
  - apply Forall_update_by_id; [|exact H].
    destruct Hf as [[s ->] | [[st ->] | ->]]; auto.
Qed.

Lemma run_invariant (P : Order -> Prop) :
  (forall db c r o db', create_order db c r = (Created o, db') -> P o) ->
  (forall s o, P o -> P (settle s o)) ->
  (forall st o, P o -> P (set_status st o)) ->
  (forall o, P o ->
             P (set_paymentStatus "Refund Requested"
                  (set_status "Requesting for Refund" o))) ->
  forall env qs db,
    Forall P (orders db) -> Forall P (orders (run env db qs)).
Proof.
  intros Hc Hs Hst Hr env qs. unfold run.
  induction qs as [|q qs IH]; intros db H; simpl; [exact H|].
  apply IH. now apply handle_invariant.
Qed.

(** ** Creation: what it writes and what it leaves *)

Lemma payment_branch_cases (has : bool) (paymentType : string)
  (paidAmount : option Q) (amount : Q) (delivery : string) :
  payment_branch has paymentType paidAmount amount delivery
  = full_payment_ledger amount delivery \/
  (has = true /\ String.eqb paymentType "full_payment" = false /\
   payment_branch has paymentType paidAmount amount delivery
   = mkInitialLedger paidAmount
       (match paidAmount with
        | Some d => Some (amount - d)%Q
        | None => None
        end)
       "Downpayment Received" "On Process").
Proof.
  unfold payment_branch. destruct has; [|now left].
  destruct (String.eqb paymentType "full_payment"); [now left | now right].
Qed.

(** An order is never created pending: it is created on process or, paid
    in full for pickup, ready for pickup; it is created fully paid with no
    balance, or with a down payment received and on process; and it is
    created for the caller, with the hash of the request and no
    [transactionId]. *)
Theorem created_order_states (db : Db) (caller : Caller) (r : OrderRequest)
  (o : Order) (db' : Db) :
  create_order db caller r = (Created o, db') ->
  (status o = "On Process" \/ status o = "Ready for Pickup") /\
  (paymentStatus o = "Fully Paid" /\ balance o = 0%Q /\
   downPayment o = body_amount r \/
   paymentStatus o = "Downpayment Received" /\ status o = "On Process") /\
  (status o = "Ready for Pickup" <->
   body_deliveryOption r = "pickup" /\ paymentStatus o = "Fully Paid") /\
  user o = caller_id caller /\
  transactionHash o = body_transactionHash r /\
  transactionId o = None.
Proof.
  intros H. apply create_order_Created in H as (_ & _ & Hnew & _).
  apply new_Order_fields in Hnew
    as (_ & Hu & _ & _ & Hdp & Hbal & Hps & Hst & _ & _ & Htx & Hh & _).
  match type of Hps with
  | _ = init_paymentStatus (payment_branch ?h ?t ?p ?a ?d) =>
      destruct (payment_branch_cases h t p a d) as [E | (_ & _ & E)];
        rewrite E in *; clear E
  end; simpl in *.
  - inversion Hbal as [Hb]. symmetry in Hb.
    assert (Hfull : paymentStatus o = "Fully Paid" /\ balance o = 0%Q /\
                    downPayment o = body_amount r) by now repeat split.
    destruct (String.eqb (body_deliveryOption r) "pickup") eqn:Ed.
    + apply String.eqb_eq in Ed.
      split; [now right|]. split; [now left|].
      split; [|now repeat split]. split; [now intros _ | now intros _].
    + apply String.eqb_neq in Ed.
      split; [now left|]. split; [now left|].
      split; [|now repeat split]. split.
      * intros E. rewrite Hst in E. discriminate.
      * intros [E _]. contradiction.
  - split; [now left|]. split; [now right|].
    split; [|now repeat split]. split.
    + intros E. rewrite Hst in E. discriminate.
    + intros [_ E]. rewrite Hps in E. discriminate.
Qed.

(** Scenario A is created on process and fully paid. *)
Lemma created_order_states_witness :
  exists o db',
    create_order Scenario.db0 Scenario.alice Scenario.requestA
    = (Created o, db') /\
    status o = "On Process" /\ paymentStatus o = "Fully Paid".
Proof.
  edestruct (created_order_states Scenario.db0 Scenario.alice
               Scenario.requestA) as ([Hst | Hst] & _).
  - vm_compute. reflexivity.
  - eexists. eexists. split; [vm_compute; reflexivity|].
    split; [exact Hst | reflexivity].
  - discriminate Hst.
Defined.

Lemma create_order_not_Created (db : Db) (caller : Caller)
  (r : OrderRequest) (resp : Response) (db' : Db) :
  create_order db caller r = (resp, db') ->
  (forall o, resp <> Created o) -> db' = db.
Proof.
  intros H Hn. unfold create_order in H.
  repeat match type of H with
         | (match ?x with _ => _ end) = _ => destruct x
         | (if ?x then _ else _) = _ => destruct x
         end; inversion H; subst; try reflexivity.
  exfalso. eapply Hn. reflexivity.
Qed.

(** Creation writes one thing only, the new order: users, catalog (the
    sales counters with it) and carts stay as they were, every stored
    order is read back unchanged, and a request that is not answered 201
    leaves the whole store as it was. *)
Theorem create_order_frame (db : Db) (caller : Caller) (r : OrderRequest)
  (resp : Response) (db' : Db) :
  create_order db caller r = (resp, db') ->
  users db' = users db /\ catalog db' = catalog db /\
  carts db' = carts db /\
  (forall id o, findById (orders db) id = Some o ->
                findById (orders db') id = Some o) /\
  ((forall o, resp <> Created o) -> db' = db).
Proof.
  intros H.
  assert (Hn := create_order_not_Created _ _ _ _ _ H).
  destruct resp as [o| | | | | |];
    try (rewrite Hn by discriminate; repeat split; auto; fail).
  apply create_order_Created in H as (_ & _ & _ & Hos & Hu & Hc & Hca & _).
  split; [exact Hu|]. split; [exact Hc|]. split; [exact Hca|]. split.
  - intros id o0 Ho0. rewrite Hos. now apply findById_app.
  - intros Hno. exfalso. eapply Hno. reflexivity.
Qed.

(** Alice's cart is still full after the checkout of scenario B, and a
    creation by an unknown user changes nothing. *)
Lemma create_order_frame_witness :
  carts Scenario.dbB = carts Scenario.db0 /\
  snd (create_order Scenario.db0 (mkCaller 9%N "user") Scenario.requestB)
  = Scenario.db0.
Proof.
  split.
  - edestruct (create_order_frame Scenario.db0 Scenario.alice
                 Scenario.requestB) as (_ & _ & Hc & _).
    + unfold Scenario.dbB.
      apply surjective_pairing.
    + exact Hc.
  - edestruct (create_order_frame Scenario.db0 (mkCaller 9%N "user")
                 Scenario.requestB) as (_ & _ & _ & _ & Hsame).
    + apply surjective_pairing.
    + apply Hsame. intros o. vm_compute. discriminate.
Defined.

(** ** Settlement and refund requests, asked twice *)

Lemma customizedTotal_of_same_items (cat : gmap ObjectId Item)
  (s : Session) (o : Order) :
  customizedTotal_of cat (items (settle s o))
  = customizedTotal_of cat (items o).
Proof. reflexivity. Qed.

(** A settlement that went through cannot be asked again: the same
    caller's next request for the order is answered 400, no remaining
    balance, whatever the gateway would say, and writes nothing. *)
Theorem settlement_is_final (env env2 : Env) (db : Db) (caller : Caller)
  (id : ObjectId) (r : Response) (db' : Db) :
  complete_payment env db caller id = (r, db') ->
  is_failure r = false ->
  complete_payment env2 db' caller id
  = (Failure 400 "No remaining balance to be paid.", db').
Proof.
  intros H Hf.
  assert (Hstored := complete_payment_stored _ _ _ _ _ _ H Hf).
  destruct Hstored as (o & s & Ho & _ & _ & Ho').
  destruct (complete_payment_success _ _ _ _ _ _ H Hf)
    as (o1 & s1 & os' & Ho1 & Hu & _ & _ & _ & _ & Hdb).
  rewrite Ho in Ho1. inversion Ho1; subst o1. clear Ho1.
  assert (Hitems : is_Some (customizedTotal_of (catalog db) (items o))).
  { unfold complete_payment in H. rewrite Ho, Hu, N.eqb_refl in H.
    simpl in H.
    destruct (customizedTotal_of (catalog db) (items o)); [eauto|].
    inversion H; subst. discriminate. }
  destruct Hitems as [c Hc].
  unfold complete_payment. rewrite Ho'.
  change (user (settle s o)) with (user o). rewrite Hu, N.eqb_refl.
  simpl negb. cbv iota.
  replace (catalog db') with (catalog db) by (subst db'; reflexivity).
  rewrite customizedTotal_of_same_items, Hc. reflexivity.
Qed.

(** Alice settles the order of scenario B; asking again is refused. *)
Lemma settlement_is_final_witness :
  error_kind
    (fst (complete_payment Scenario.gateway_up
            (snd (complete_payment Scenario.gateway_up Scenario.dbB
                    Scenario.alice 100%N))
            Scenario.alice 100%N))
  = Some InvalidState.
Proof.
  destruct (complete_payment Scenario.gateway_up Scenario.dbB
              Scenario.alice 100%N) as [r db'] eqn:E.
  cbn [snd].
  rewrite (settlement_is_final Scenario.gateway_up Scenario.gateway_up
             Scenario.dbB Scenario.alice 100%N r db' E).
  - reflexivity.
  - vm_compute in E. inversion E. reflexivity.
Defined.

(** A refund request is granted once: the owner's request on an order on
    process without customizable line stores the order as "Requesting
    for Refund" with payment status "Refund Requested" and the amounts
    as they were; the same request again is answered 400 and writes
    nothing. *)
Theorem refund_request_once (db : Db) (caller : Caller) (id : ObjectId)
  (o : Order) :
  findById (orders db) id = Some o ->
  user o = caller_id caller ->
  status o = "On Process" ->
  existsb (line_is_customized (catalog db)) (items o) = false ->
  in_enum (deliveryOption o) deliveryOption_enum = true ->
  exists o' db1,
    request_refund db caller id = (RefundRequested o', db1) /\
    findById (orders db1) id = Some o' /\
    status o' = "Requesting for Refund" /\
    paymentStatus o' = "Refund Requested" /\
    ledger o' = (downPayment o, balance o, "Refund Requested") /\
    error_kind (fst (request_refund db1 caller id)) = Some InvalidState /\
    snd (request_refund db1 caller id) = db1.
Proof.
  intros Ho Hu Hst Hnc Hdel.
  destruct (request_refund_granted db caller id o Ho Hu Hst Hnc Hdel)
    as (o' & Hr & Hs' & Hp' & Ho').
  exists o', (snd (request_refund db caller id)).
  split; [rewrite <- Hr; apply surjective_pairing|].
  split; [exact Ho'|]. split; [exact Hs'|]. split; [exact Hp'|].
  assert (Heq : o' = set_paymentStatus "Refund Requested"
                       (set_status "Requesting for Refund" o)).
  { unfold request_refund in Hr.
    rewrite Ho, Hu, N.eqb_refl, Hst, Hnc in Hr. simpl in Hr.
    destruct (save o _ (orders db)); simpl in Hr;
      [now inversion Hr | discriminate]. }
  split; [now rewrite Heq|].
  unfold request_refund at 1 3. rewrite Ho'.
  replace (user o') with (caller_id caller) by (rewrite Heq; now simpl).
  rewrite N.eqb_refl, Hs'. simpl. split; reflexivity.
Qed.

(** Bob buys two chairs and asks twice for a refund. *)
Lemma refund_request_once_witness :
  let db := snd (create_order Scenario.db0 Scenario.bob Scenario.requestA) in
  exists o',
    fst (request_refund db Scenario.bob 100%N) = RefundRequested o' /\
    status o' = "Requesting for Refund" /\
    error_kind
      (fst (request_refund (snd (request_refund db Scenario.bob 100%N))
              Scenario.bob 100%N))
    = Some InvalidState.
Proof.
  cbv zeta.
  edestruct (refund_request_once
               (snd (create_order Scenario.db0 Scenario.bob
                       Scenario.requestA))
               Scenario.bob 100%N)
    as (o' & db1 & Hr & _ & Hs & _ & _ & Hk & _).
  - vm_compute. reflexivity.
  - reflexivity.
  - reflexivity.
  - vm_compute. reflexivity.
  - vm_compute. reflexivity.
  - exists o'. rewrite Hr. simpl. split; [reflexivity|].
    split; [exact Hs | exact Hk].
Defined.

(** ** The webhook: what it never does *)

Lemma update_by_id_twice (id : ObjectId) (st : string) (os : list Order) :
  update_by_id id (set_status st) (update_by_id id (set_status st) os)
  = update_by_id id (set_status st) os.
Proof.
  unfold update_by_id. rewrite List.map_map. apply List.map_ext.
  intros o. destruct (N.eqb (order_id o) id) eqn:E; simpl; rewrite E;
    reflexivity.
Qed.

Lemma update_by_id_ids (id : ObjectId) (modify : Order -> Order)
  (os : list Order) :
  (forall o, order_id (modify o) = order_id o) ->
  List.map order_id (update_by_id id modify os) = List.map order_id os.
Proof.
  intros Hid. unfold update_by_id. rewrite List.map_map.
  apply List.map_ext. intros o.
  destruct (N.eqb (order_id o) id); [apply Hid | reflexivity].
Qed.

Lemma Cart_pull_users (u : ObjectId) (ids : list ObjectId)
  (cs : list Cart) :
  List.map cart_user (Cart_pull u ids cs) = List.map cart_user cs.
Proof.
  induction cs as [|c cs IH]; simpl; [reflexivity|].
  destruct (N.eqb (cart_user c) u); simpl; [reflexivity | now rewrite IH].
Qed.

Lemma Cart_pull_lines (u v : ObjectId) (ids : list ObjectId)
  (cs : list Cart) (c' : Cart) :
  Cart_findOne (Cart_pull u ids cs) v = Some c' ->
  exists c, Cart_findOne cs v = Some c /\
            incl (cart_items c') (cart_items c).
Proof.
  destruct (N.eq_dec v u) as [->|Hne].
  - rewrite Cart_pull_findOne.
    destruct (Cart_findOne cs u) as [c|]; [|discriminate].
    simpl. intros H; inversion H; subst. exists c. split; [reflexivity|].
    simpl. intros l Hl. now apply filter_In in Hl.
  - rewrite Cart_pull_other by exact Hne.
    intros H. exists c'. split; [exact H | apply incl_refl].
Qed.

(** What the webhook never does: it creates and deletes no user, order,
    cart or catalog item, adds no line to a cart, and changes no name,
    price or customizable flag in the catalog. *)
Theorem webhook_frame (db : Db) (payload : option WebhookEvent)
  (r : Response) (db' : Db) :
  webhook db payload = (r, db') ->
  users db' = users db /\
  next_oid db' = next_oid db /\
  List.map order_id (orders db') = List.map order_id (orders db) /\
  List.map cart_user (carts db') = List.map cart_user (carts db) /\
  (forall u c', Cart_findOne (carts db') u = Some c' ->
     exists c, Cart_findOne (carts db) u = Some c /\
               incl (cart_items c') (cart_items c)) /\
  (forall i, catalog db' !! i = None <-> catalog db !! i = None) /\
  (forall i it it',
     catalog db !! i = Some it -> catalog db' !! i = Some it' ->
     item_name it' = item_name it /\ item_price it' = item_price it /\
     is_customizable it' = is_customizable it).
Proof.
  intros H.
  assert (Hsame : db' = db ->
            users db' = users db /\
            next_oid db' = next_oid db /\
            List.map order_id (orders db') = List.map order_id (orders db) /\
            List.map cart_user (carts db') = List.map cart_user (carts db) /\
            (forall u c', Cart_findOne (carts db') u = Some c' ->
               exists c, Cart_findOne (carts db) u = Some c /\
                         incl (cart_items c') (cart_items c)) /\
            (forall i, catalog db' !! i = None <-> catalog db !! i = None) /\
            (forall i it it',
               catalog db !! i = Some it -> catalog db' !! i = Some it' ->
               item_name it' = item_name it /\
               item_price it' = item_price it /\
               is_customizable it' = is_customizable it)).
  { intros ->. do 4 (split; [reflexivity|]). split; [|split].
    - intros u c' Hc. exists c'. split; [exact Hc | apply incl_refl].
    - reflexivity.
    - intros i it it' H1 H2. rewrite H1 in H2. inversion H2. auto. }
  unfold webhook in H.
  destruct payload as [ev|]; [|inversion H; subst; now apply Hsame].
  destruct (String.eqb (event_type ev) "checkout_session.completed");
    [|inversion H; subst; now apply Hsame].
  destruct (event_sessionId ev) as [sessionId|];
    [|inversion H; subst; now apply Hsame].
  destruct (findOne_by_transactionId (orders db) sessionId)
    as [order|]; [|inversion H; subst; now apply Hsame].
  unfold save in H.
  destruct (validate (set_status "On Process" order));
    [|inversion H; subst; now apply Hsame].
  inversion H; subst; clear H Hsame. simpl.
  split; [reflexivity|]. split; [reflexivity|].
  split; [now apply update_by_id_ids|]. split; [|split; [|split]].
  - destruct (users db !! user order); [apply Cart_pull_users | reflexivity].
  - intros u c' Hc. destruct (users db !! user order).
    + eapply Cart_pull_lines. exact Hc.
    + exists c'. split; [exact Hc | apply incl_refl].
  - intros i. split; intros Hn.
    + destruct (catalog db !! i) as [it|] eqn:E; [|reflexivity].
      destruct (inc_sales_all (items order) _ i it E) as (it' & Hit' & _).
      rewrite Hit' in Hn. discriminate.
    + now apply inc_sales_missing.
  - intros i it it' Hit Hit'.
    destruct (inc_sales_all (items order) _ i it Hit)
      as (it1 & Hit1 & _ & Hn & Hp & Hc).
    rewrite Hit1 in Hit'. inversion Hit'; subst. auto.
Qed.

(** After session "cs_9" is confirmed Bob has no cart still, Alice's
    has lost a line and gained none, and the chair still costs 1000. *)
Lemma webhook_frame_witness :
  let db' := snd (webhook Scenario.dbP
                    (Some (mkWebhookEvent "checkout_session.completed"
                             (session_ref "cs_9")))) in
  List.map cart_user (carts db') = [1%N] /\
  List.map order_id (orders db') = [7%N] /\
  forall it', catalog db' !! 10%N = Some it' -> item_price it' = 1000%Q.
Proof.
  cbv zeta.
  destruct (webhook Scenario.dbP
              (Some (mkWebhookEvent "checkout_session.completed"
                       (session_ref "cs_9"))))
    as [r db'] eqn:E.
  destruct (webhook_frame _ _ _ _ E) as (_ & _ & Ho & Hc & _ & _ & Hcat).
  cbn [snd]. split; [exact Hc|]. split; [exact Ho|].
  intros it' Hit'. now destruct (Hcat 10%N Scenario.chair it' eq_refl Hit').
Defined.

(** ** The admin status update *)

(** An admin sets any non-empty status on any existing order, whatever
    its current status and whether or not the value is one of the
    schema: the order is stored with that status and nothing else of it
    changes.  Any other role is turned away and a missing or empty status
    is answered 400, the store unchanged. *)
Theorem admin_status_unconditional (db : Db) (caller : Caller)
  (id : ObjectId) (st : option string) :
  (caller_role caller <> "admin" ->
   error_kind (fst (admin_set_status db caller id st)) = Some Unauthorized /\
   snd (admin_set_status db caller id st) = db) /\
  (caller_role caller = "admin" ->
   truthy_string st = false ->
   error_kind (fst (admin_set_status db caller id st)) = Some InvalidState /\
   snd (admin_set_status db caller id st) = db) /\
  (caller_role caller = "admin" ->
   forall s o, st = Some s -> s <> "" ->
     findById (orders db) id = Some o ->
     fst (admin_set_status db caller id st) = OkOrder (set_status s o) /\
     findById (orders (snd (admin_set_status db caller id st))) id
     = Some (set_status s o)).
Proof.
  unfold admin_set_status, authorizeRoles. split; [|split].
  - intros Hne. apply String.eqb_neq in Hne. rewrite Hne. now split.
  - intros -> Hf. simpl. destruct st as [s|]; [|now split].
    rewrite Hf. now split.
  - intros -> s o -> Hne Ho. simpl. apply String.eqb_neq in Hne.
    rewrite Hne. simpl. unfold findByIdAndUpdate_status. rewrite Ho.
    split; [reflexivity|]. simpl.
    rewrite findById_update by reflexivity. rewrite Ho. simpl.
    now rewrite (findById_id _ _ _ Ho), N.eqb_refl.
Qed.

(** The admin marks Alice's order of scenario B "Lost", which is no
    status of the schema; Bob may not. *)
Lemma admin_status_unconditional_witness :
  option_map status
    (findById (orders (snd (admin_set_status Scenario.dbB Scenario.admin
                              100%N (Some "Lost")))) 100%N)
  = Some "Lost" /\
  in_enum "Lost" status_enum = false /\
  snd (admin_set_status Scenario.dbB Scenario.bob 100%N (Some "Lost"))
  = Scenario.dbB.
Proof.
  destruct (admin_status_unconditional Scenario.dbB Scenario.admin 100%N
              (Some "Lost")) as (_ & _ & Hadmin).
  destruct (admin_status_unconditional Scenario.dbB Scenario.bob 100%N
              (Some "Lost")) as (Hbob & _).
  split; [|split].
  - edestruct (Hadmin eq_refl "Lost") as [_ Hs].
    + reflexivity.
    + discriminate.
    + vm_compute. reflexivity.
    + rewrite Hs. reflexivity.
  - reflexivity.
  - apply Hbob. discriminate.
Defined.

(** ** The checkout page: amounts charged and orders created *)

Section CheckoutAmounts.
Import Checkout.
Local Open Scope Q_scope.

Lemma total_from (sel : list Entry) (a : Q) :
  fold_left (fun sum e => sum + itemTotal e) sel a
  == a + subtotal true sel + subtotal false sel.
Proof.
  revert a. induction sel as [|e sel IH]; intros a.
  - unfold subtotal; simpl. ring.
  - simpl fold_left. rewrite IH. unfold subtotal. simpl List.filter.
    destruct (entry_customizable e); simpl; ring.
Qed.

Lemma actual_from (sel : list Entry) (a : Q) :
  fold_left
    (fun actualAmount e =>
       if entry_customizable e
       then actualAmount + itemTotal e * (3 # 10)
       else actualAmount + itemTotal e)
    sel a
  == a + subtotal true sel * (3 # 10) + subtotal false sel.
Proof.
  revert a. induction sel as [|e sel IH]; intros a.
  - unfold subtotal; simpl. ring.
  - simpl fold_left. rewrite IH. unfold subtotal. simpl List.filter.
    destruct (entry_customizable e); simpl; ring.
Qed.

Lemma actual_full_payment (sel : list Entry) (paymentType : string) :
  hasCustomizedItems sel = false \/ paymentType <> "down_payment" ->
  getActualPaymentAmount sel paymentType = total sel.
Proof.
  intros H. unfold getActualPaymentAmount.
  destruct H as [-> | Hne]; [reflexivity|].
  apply String.eqb_neq in Hne. rewrite Hne. now rewrite andb_false_r.
Qed.

Lemma subtotal_nonneg (b : bool) (sel : list Entry) :
  cart_nonnegative sel -> 0 <= subtotal b sel.
Proof.
  unfold cart_nonnegative, subtotal.
  induction 1 as [|e sel [Hp Hq] _ IH]; simpl; [apply Qle_refl|].
  destruct (Bool.eqb (entry_customizable e) b); simpl; [|exact IH].
  assert (0 <= itemTotal e) by (unfold itemTotal; now apply Qmult_le_0_compat).
  lra.
Qed.

(** What the checkout page charges for a cart with no negative price or
    quantity, whatever the payment type: nothing negative and no more
    than the cart total for the items, and with the shipping fee no less
    than the fee and no more than the cart total plus the fee. *)
Theorem charged_within_total (sel : list Entry) (paymentType : string)
  (shippingFee : Q) :
  cart_nonnegative sel ->
  0 <= getActualPaymentAmount sel paymentType /\
  getActualPaymentAmount sel paymentType <= total sel /\
  shippingFee <= grandTotal sel paymentType shippingFee /\
  grandTotal sel paymentType shippingFee <= total sel + shippingFee.
Proof.
  intros H.
  pose proof (subtotal_nonneg true sel H) as Hc.
  pose proof (subtotal_nonneg false sel H) as Hn.
  assert (Ht : total sel == subtotal true sel + subtotal false sel).
  { unfold total. rewrite total_from. ring. }
  assert (Ha : 0 <= getActualPaymentAmount sel paymentType /\
               getActualPaymentAmount sel paymentType <= total sel).
  { unfold getActualPaymentAmount.
    destruct (hasCustomizedItems sel && String.eqb paymentType "down_payment").
    - rewrite actual_from, Ht. split; lra.
    - rewrite Ht. split; lra. }
  destruct Ha as [Ha1 Ha2]. unfold grandTotal.
  split; [exact Ha1|]. split; [exact Ha2|]. split; lra.
Qed.

(** Scenario B shipped to Rizal on a down payment: between 1000 and
    11500 is charged. *)
Lemma charged_within_total_witness :
  1000 <= grandTotal Scenario.cartB "down_payment" 1000 /\
  grandTotal Scenario.cartB "down_payment" 1000
  <= total Scenario.cartB + 1000.
Proof.
  destruct (charged_within_total Scenario.cartB "down_payment" 1000)
    as (_ & _ & Hlo & Hhi).
  - repeat constructor; discriminate.
  - split; assumption.
Defined.

(** When no price and no quantity of the cart is negative, the plan asks
    for no negative amount, the down payment is at most the full amount,
    and what remains is at most the customized subtotal. *)
Theorem payment_plan_bounds (sel : list Entry) :
  cart_nonnegative sel ->
  let p := calculatePaymentAmounts sel in
  0 <= downPaymentAmount p /\ downPaymentAmount p <= fullAmount p /\
  0 <= remainingBalance p /\ remainingBalance p <= customizedTotal p /\
  remainingBalance p <= fullAmount p.
Proof.
  intros H. cbv zeta. simpl.
  destruct (totals_partition sel) as [Hc Hn].
  pose proof (subtotal_nonneg true sel H).
  pose proof (subtotal_nonneg false sel H).
  rewrite Hc, Hn. repeat split; lra.
Qed.

Lemma payment_plan_bounds_witness :
  let p := calculatePaymentAmounts Scenario.cartB in
  downPaymentAmount p <= fullAmount p /\ 0 <= remainingBalance p.
Proof.
  cbv zeta.
  destruct (payment_plan_bounds Scenario.cartB) as (_ & H1 & H2 & _).
  - repeat constructor; discriminate.
  - split; assumption.
Defined.

End CheckoutAmounts.

Lemma checkout_hasCustomizableItems (db : Db) (sel : list Checkout.Entry)
  (paymentType delivery hash : string) (fee : Q) (info : ShippingInfoBody)
  (date : ScheduledDate) :
  cart_of_catalog db sel ->
  existsb is_customizable
    (Item_find_in (catalog db)
       (List.map p_item
          (List.map processItem
             (body_items
                (handleCheckout_orderData sel paymentType delivery fee
                   hash info date)))))
  = Checkout.hasCustomizedItems sel.
Proof.
  unfold cart_of_catalog, Checkout.hasCustomizedItems. simpl.
  induction 1 as [|e sel (it & Hit & Hc) _ IH]; simpl; [reflexivity|].
  rewrite Hit. simpl. now rewrite Hc, IH.
Qed.

(** An order created from the checkout page's data for a down payment on
    a cart with customized items: what is recorded as down payment is
    the grand total charged, the shipping fee included, and the balance
    recorded is the cart total minus that, so that a shipping fee is
    taken off the balance and the balance is at most the cart total
    minus the amount charged for the items. *)
Theorem checkout_down_payment_order (db : Db) (caller : Caller)
  (sel : list Checkout.Entry) (delivery hash : string) (fee : Q)
  (info : ShippingInfoBody) (date : ScheduledDate) (o : Order) (db' : Db) :
  cart_of_catalog db sel ->
  Checkout.hasCustomizedItems sel = true ->
  create_order db caller
    (handleCheckout_orderData sel "down_payment" delivery fee hash info
       date)
  = (Created o, db') ->
  downPayment o = Checkout.grandTotal sel "down_payment" fee /\
  balance o
  = (Checkout.total sel - Checkout.grandTotal sel "down_payment" fee)%Q /\
  ((0 <= fee)%Q ->
   (balance o
    <= Checkout.total sel
       - Checkout.getActualPaymentAmount sel "down_payment")%Q) /\
  amount o = Checkout.total sel /\
  totalWithShipping o = (fee + Checkout.total sel)%Q /\
  paymentStatus o = "Downpayment Received" /\
  status o = "On Process".
Proof.
  intros Hcat Hh H.
  apply create_order_Created in H as (_ & _ & Hnew & _).
  rewrite checkout_hasCustomizableItems in Hnew by exact Hcat.
  rewrite Hh in Hnew.
  apply new_Order_fields in Hnew
    as (_ & _ & Ham & Htws & Hdp & Hbal & Hps & Hst & _).
  simpl in *. rewrite Hh in *. simpl in *.
  inversion Hbal as [Hb]. clear Hbal.
  split; [exact Hdp|]. split; [reflexivity|].
  split; [|split; [exact Ham|split; [exact Htws|split; assumption]]].
  intros Hfee. unfold Checkout.grandTotal. lra.
Qed.

(** Scenario B shipped to Rizal for 1000: 4500 recorded as down payment
    and 6000, not 7000, as balance. *)
Lemma checkout_down_payment_order_witness :
  exists o db',
    create_order Scenario.db0 Scenario.alice
      (handleCheckout_orderData Scenario.cartB "down_payment" "shipping"
         1000%Q "1-5" Scenario.address Scenario.delivery_day)
    = (Created o, db') /\
    (downPayment o == 4500)%Q /\ (balance o == 6000)%Q.
Proof.
  edestruct (checkout_down_payment_order Scenario.db0 Scenario.alice
               Scenario.cartB "shipping" "1-5" 1000%Q Scenario.address
               Scenario.delivery_day)
    as (Hd & Hb & _).
  - repeat constructor; eexists; (split; [vm_compute; reflexivity|]);
      reflexivity.
  - reflexivity.
  - vm_compute. reflexivity.
  - eexists. eexists. split; [vm_compute; reflexivity|].
    split; [rewrite Hd | rewrite Hb]; reflexivity.
Defined.

(** An order created from the checkout page's data for a full payment,
    or for a cart without customized items: the customer is charged the
    cart total plus the shipping fee, and the order records the cart
    total as paid, no balance, "Fully Paid", and is ready for pickup or
    on process by the delivery option. *)
Theorem checkout_full_payment_order (db : Db) (caller : Caller)
  (sel : list Checkout.Entry) (paymentType delivery hash : string)
  (fee : Q) (info : ShippingInfoBody) (date : ScheduledDate) (o : Order)
  (db' : Db) :
  cart_of_catalog db sel ->
  Checkout.hasCustomizedItems sel = false \/ paymentType = "full_payment" ->
  create_order db caller
    (handleCheckout_orderData sel paymentType delivery fee hash info date)
  = (Created o, db') ->
  Checkout.grandTotal sel paymentType fee
  = (Checkout.total sel + fee)%Q /\
  downPayment o = Checkout.total sel /\
  balance o = 0%Q /\
  amount o = Checkout.total sel /\
  totalWithShipping o = (fee + Checkout.total sel)%Q /\
  paymentStatus o = "Fully Paid" /\
  status o = (if String.eqb delivery "pickup"
              then "Ready for Pickup" else "On Process").
Proof.
  intros Hcat Hfull H.
  split.
  { unfold Checkout.grandTotal.
    rewrite actual_full_payment; [reflexivity|].
    destruct Hfull as [Hn | ->]; [now left | right; discriminate]. }
  apply create_order_Created in H as (_ & _ & Hnew & _).
  rewrite checkout_hasCustomizableItems in Hnew by exact Hcat.
  apply new_Order_fields in Hnew
    as (_ & _ & Ham & Htws & Hdp & Hbal & Hps & Hst & _).
  assert (Hbranch :
    payment_branch (Checkout.hasCustomizedItems sel)
      (default "full_payment"
         (body_paymentType
            (handleCheckout_orderData sel paymentType delivery fee hash
               info date)))
      (body_paidAmount
         (handleCheckout_orderData sel paymentType delivery fee hash
            info date))
      (body_amount
         (handleCheckout_orderData sel paymentType delivery fee hash
            info date))
      (body_deliveryOption
         (handleCheckout_orderData sel paymentType delivery fee hash
            info date))
    = full_payment_ledger (Checkout.total sel) delivery).
  { unfold payment_branch. simpl.
    destruct Hfull as [-> | ->]; [reflexivity|].
    now destruct (Checkout.hasCustomizedItems sel). }
  rewrite Hbranch in *. simpl in *. inversion Hbal as [Hb].
  split; [exact Hdp|]. split; [reflexivity|]. split; [exact Ham|].
  split; [exact Htws|]. split; assumption.
Qed.

(** Scenario A: 3500 charged, 2000 recorded as paid. *)
Lemma checkout_full_payment_order_witness :
  exists o db',
    create_order Scenario.db0 Scenario.alice Scenario.requestA
    = (Created o, db') /\
    (Checkout.grandTotal Scenario.cartA "full_payment" 1500 == 3500)%Q /\
    (downPayment o == 2000)%Q /\ balance o = 0%Q.
Proof.
  edestruct (checkout_full_payment_order Scenario.db0 Scenario.alice
               Scenario.cartA "full_payment" "shipping" "1-1" 1500%Q
               Scenario.address Scenario.delivery_day)
    as (Hg & Hd & Hb & _).
  - repeat constructor; eexists; (split; [vm_compute; reflexivity|]);
      reflexivity.
  - now right.
  - vm_compute. reflexivity.
  - eexists. eexists. split; [vm_compute; reflexivity|].
    split; [rewrite Hg; reflexivity|].
    split; [rewrite Hd; reflexivity | exact Hb].
Defined.

(** ** Every route that writes an order *)

Lemma confirm_orders (db : Db) (id : ObjectId) :
  orders (snd (confirm db id)) = orders db \/
  exists o,
    findById (orders db) id = Some o /\
    validate (set_status "On Process" o) = true /\
    orders (snd (confirm db id))
    = update_by_id (order_id o) (set_status "On Process") (orders db).
Proof.
  unfold confirm.
  destruct (findById (orders db) id) as [o|] eqn:Ho; [|now left].
  unfold save. destruct (validate (set_status "On Process" o)) eqn:Ev;
    [|now left].
  right. now exists o.
Qed.

Lemma delivery_proof_orders (cloudinary : option string) (now : N)
  (st : Store) (caller : Caller) (id : ObjectId) (up : Upload) :
  snd (delivery_proof cloudinary now st caller id up) = st \/
  exists o url,
    findById (orders (store_db st)) id = Some o /\
    cloudinary = Some url /\
    snd (delivery_proof cloudinary now st caller id up)
    = mkStore
        (set_orders
           (update_by_id id
              (set_status (if String.eqb (deliveryOption o) "pickup"
                           then "Picked Up" else "Delivered"))
              (orders (store_db st)))
           (store_db st))
        (<[id := (url, now)]> (deliveryProofs st)).
Proof.
  unfold delivery_proof, findByIdAndUpdate_status.
  destruct (negb (authorizeRoles "admin" caller)); [now left|].
  destruct (file up), (fileValidationError up); try now left.
  destruct cloudinary as [url|]; [|now left].
  destruct (findById (orders (store_db st)) id) as [o|] eqn:Ho; [|now left].
  right. now exists o, url.
Qed.

(** The shape of the writes of all eight routes. *)
Lemma serve_orders_shape (env : Env) (st : Store) (c : Call) :
  orders (store_db (serve env st c)) = orders (store_db st) \/
  (exists db0 cl r o db',
     create_order db0 cl r = (Created o, db') /\
     orders (store_db (serve env st c))
     = (orders (store_db st) ++ [o])%list) \/
  (exists id modify,
     orders (store_db (serve env st c))
     = update_by_id id modify (orders (store_db st)) /\
     ((exists s, modify = settle s) \/
      (exists status, modify = set_status status) \/
      modify = (fun o => set_paymentStatus "Refund Requested"
                           (set_status "Requesting for Refund" o)))).
Proof.
  destruct c as [q | id | cloudinary now caller id up]; simpl.
  - destruct (handle_orders_shape env (store_db st) q)
      as [H | [(cl & r & o & db' & E & H) | H]].
    + now left.
    + right; left. now exists (store_db st), cl, r, o, db'.
    + now right; right.
  - destruct (confirm_orders (store_db st) id) as [H | (o & _ & _ & H)];
      [now left|].
    right; right. eexists. eexists. split; [exact H|]. right; left.
    now eexists.
  - destruct (delivery_proof_orders cloudinary now st caller id up)
      as [-> | (o & url & _ & _ & ->)]; [now left|].
    right; right. eexists. eexists. split; [reflexivity|]. right; left.
    now eexists.
Qed.

Lemma serve_invariant (P : Order -> Prop) :
  (forall db c r o db', create_order db c r = (Created o, db') -> P o) ->
  (forall s o, P o -> P (settle s o)) ->
  (forall st o, P o -> P (set_status st o)) ->
  (forall o, P o ->
             P (set_paymentStatus "Refund Requested"
                  (set_status "Requesting for Refund" o))) ->
  forall env cs st,
    Forall P (orders (store_db st)) ->
    Forall P (orders (store_db (serve_all env st cs))).
Proof.
  intros Hc Hs Hst Hr env cs. unfold serve_all.
  induction cs as [|c cs IH]; intros st H; simpl; [exact H|].
  apply IH.
  destruct (serve_orders_shape env st c)
    as [-> | [(db0 & cl & r & o & db' & E & ->) | (id & f & -> & Hf)]].
  - exact H.
  - apply Forall_app. split; [exact H|].
    constructor; [exact (Hc _ _ _ _ _ E) | constructor].
  - apply Forall_update_by_id; [|exact H].
    destruct Hf as [[s ->] | [[status ->] | ->]]; auto.
Qed.

Lemma findById_serve_step (env : Env) (st : Store) (c : Call)
  (id : ObjectId) (o : Order) :
  findById (orders (store_db st)) id = Some o ->
  findById (orders (store_db (serve env st c))) id = Some o \/
  (exists s, findById (orders (store_db (serve env st c))) id
             = Some (settle s o)) \/
  (exists status, findById (orders (store_db (serve env st c))) id
                  = Some (set_status status o)) \/
  findById (orders (store_db (serve env st c))) id
  = Some (set_paymentStatus "Refund Requested"
            (set_status "Requesting for Refund" o)).
Proof.
  intros Ho.
  destruct (serve_orders_shape env st c)
    as [-> | [(db0 & cl & r & o1 & db' & E & ->) | (id1 & f & -> & Hf)]].
  - now left.
  - left. now apply findById_app.
  - assert (Hid : forall o0, order_id (f o0) = order_id o0)
      by (destruct Hf as [[s ->] | [[status ->] | ->]]; reflexivity).
    rewrite findById_update by exact Hid. rewrite Ho. simpl.
    destruct (N.eqb (order_id o) id1); [|now left].
    destruct Hf as [[s ->] | [[status ->] | ->]]; eauto 6.
Qed.

(** Whatever requests the eight order routes serve, a stored order is
    never deleted and keeps its [_id], owner, lines, [amount],
    [totalWithShipping], [shippingFee], [deliveryOption] and
    [transactionId]. *)
Theorem orders_keep_their_terms (env : Env) (cs : list Call) (st : Store)
  (id : ObjectId) (o : Order) :
  findById (orders (store_db st)) id = Some o ->
  exists o',
    findById (orders (store_db (serve_all env st cs))) id = Some o' /\
    order_id o' = order_id o /\ user o' = user o /\ items o' = items o /\
    amount o' = amount o /\ totalWithShipping o' = totalWithShipping o /\
    shippingFee o' = shippingFee o /\
    deliveryOption o' = deliveryOption o /\
    transactionId o' = transactionId o.
Proof.
  unfold serve_all. revert st o.
  induction cs as [|c cs IH]; intros st o Ho.
  - exists o. simpl. repeat split. exact Ho.
  - simpl.
    destruct (findById_serve_step env st c id o Ho)
      as [H | [[s H] | [[status H] | H]]];
      destruct (IH _ _ H)
        as (o' & Ho' & H1 & H2 & H3 & H4 & H5 & H6 & H7 & H8);
      exists o'; (split; [exact Ho'|]); simpl in *; repeat split; assumption.
Qed.

(** Alice's order of scenario B after Bob's cancel, a confirmation, her
    settlement, a delivery proof and an admin status update: still 10500
    for the same two lines. *)
Lemma orders_keep_their_terms_witness :
  exists o',
    findById
      (orders
         (store_db
            (serve_all Scenario.gateway_up (mkStore Scenario.dbB ∅)
               [Route (PutCancel Scenario.bob 100%N);
                PutConfirm 100%N;
                Route (PostCompletePayment Scenario.alice 100%N);
                PostDeliveryProof (Some "https://img.example.org/p.jpg")
                  1700000000000%N Scenario.admin 100%N
                  (mkUpload None (accepted_file 2048%N));
                Route (PutStatus Scenario.admin 100%N (Some "Refunded"))])))
      100%N = Some o' /\
    (amount o' == 10500)%Q /\ length (items o') = 2%nat.
Proof.
  edestruct (orders_keep_their_terms Scenario.gateway_up
               [Route (PutCancel Scenario.bob 100%N);
                PutConfirm 100%N;
                Route (PostCompletePayment Scenario.alice 100%N);
                PostDeliveryProof (Some "https://img.example.org/p.jpg")
                  1700000000000%N Scenario.admin 100%N
                  (mkUpload None (accepted_file 2048%N));
                Route (PutStatus Scenario.admin 100%N (Some "Refunded"))]
               (mkStore Scenario.dbB ∅) 100%N)
    as (o' & Ho' & _ & _ & Hi & Ha & _).
  - vm_compute. reflexivity.
  - exists o'. split; [exact Ho'|]. rewrite Ha, Hi. split; reflexivity.
Defined.

(** ** Invariants of the stored orders *)

(** Whatever requests are served, an order stored as "Fully Paid" owes
    nothing: if this holds of the stored orders it holds of them ever
    after. *)
Theorem fully_paid_has_no_balance (env : Env) (cs : list Call)
  (st : Store) :
  Forall (fun o => paymentStatus o = "Fully Paid" -> (balance o == 0)%Q)
    (orders (store_db st)) ->
  Forall (fun o => paymentStatus o = "Fully Paid" -> (balance o == 0)%Q)
    (orders (store_db (serve_all env st cs))).
Proof.
  apply (serve_invariant
           (fun o => paymentStatus o = "Fully Paid" -> (balance o == 0)%Q)).
  - intros db0 c r o db' H Hfp.
    apply create_order_Created in H as (_ & _ & Hnew & _).
    apply new_Order_fields in Hnew
      as (_ & _ & _ & _ & _ & Hbal & Hps & _).
    match type of Hps with
    | _ = init_paymentStatus (payment_branch ?h ?t ?p ?a ?d) =>
        destruct (payment_branch_cases h t p a d) as [E | (_ & _ & E)];
          rewrite E in *; clear E
    end; simpl in *.
    + inversion Hbal. reflexivity.
    + rewrite Hps in Hfp. discriminate.
  - intros s o _ _. reflexivity.
  - intros status o H. exact H.
  - intros o _ Hfp. discriminate.
Qed.

(** From the empty store, through a down-payment checkout and its
    settlement. *)
Lemma fully_paid_has_no_balance_witness :
  Forall (fun o => paymentStatus o = "Fully Paid" -> (balance o == 0)%Q)
    (orders
       (store_db
          (serve_all Scenario.gateway_up (mkStore Scenario.db0 ∅)
             [Route (PostOrder Scenario.alice Scenario.requestB);
              Route (PostCompletePayment Scenario.alice 100%N)]))).
Proof.
  apply fully_paid_has_no_balance. constructor.
Defined.

Lemma findOne_by_transactionId_none (os : list Order) (s : string) :
  Forall (fun o => transactionId o = None) os ->
  findOne_by_transactionId os (Some s) = None.
Proof.
  unfold findOne_by_transactionId, txid_is.
  induction 1 as [|o os Ho _ IH]; simpl; [reflexivity|].
  now rewrite Ho.
Qed.

(** No route writes [transactionId]: on a store whose orders have none,
    such as a store without orders, the orders have none after any
    requests.  The webhook handler, whatever event it is given that
    names a session id (or whose id cannot be read), then matches no
    order and changes nothing; an event that holds no session id is
    looked up as [null], and matches the first order of the store. *)
Theorem webhook_never_matches (env : Env) (cs : list Call) (st : Store)
  (payload : option WebhookEvent) :
  Forall (fun o => transactionId o = None) (orders (store_db st)) ->
  let db := store_db (serve_all env st cs) in
  Forall (fun o => transactionId o = None) (orders db) /\
  ((forall ev, payload = Some ev ->
      event_session ev <> undefined_session) ->
   snd (webhook db payload) = db) /\
  (forall o os, orders db = o :: os ->
     findOne_by_transactionId (orders db) None = Some o).
Proof.
  intros H db.
  assert (Hrun : Forall (fun o => transactionId o = None) (orders db)).
  { revert H. apply (serve_invariant (fun o => transactionId o = None)).
    - intros db0 c r o db' Hc.
      apply create_order_Created in Hc as (_ & _ & Hnew & _).
      now apply new_Order_fields in Hnew
        as (_ & _ & _ & _ & _ & _ & _ & _ & _ & _ & Htx & _).
    - intros s o Ho. exact Ho.
    - intros status o Ho. exact Ho.
    - intros o Ho. exact Ho. }
  split; [exact Hrun|]. split.
  - intros Hid. unfold webhook.
    destruct payload as [ev|]; [|reflexivity].
    destruct (String.eqb (event_type ev) "checkout_session.completed");
      [|reflexivity].
    specialize (Hid ev eq_refl). unfold event_sessionId.
    destruct (event_session ev) as [| |id]; [reflexivity | congruence |].
    now rewrite (findOne_by_transactionId_none _ _ Hrun).
  - intros o os Hos. rewrite Hos in *. inversion Hrun as [|? ? Ho _]; subst.
    unfold findOne_by_transactionId, txid_is. simpl. now rewrite Ho.
Qed.

(** Alice checks out scenario B and settles it; the gateway then
    confirms the session of her settlement: nothing happens. *)
Lemma webhook_never_matches_witness :
  let st := serve_all Scenario.gateway_up (mkStore Scenario.db0 ∅)
              [Route (PostOrder Scenario.alice Scenario.requestB);
               Route (PostCompletePayment Scenario.alice 100%N)] in
  snd (webhook (store_db st)
         (Some (mkWebhookEvent "checkout_session.completed"
                  (session_ref "cs_123"))))
  = store_db st.
Proof.
  cbv zeta.
  destruct (webhook_never_matches Scenario.gateway_up
              [Route (PostOrder Scenario.alice Scenario.requestB);
               Route (PostCompletePayment Scenario.alice 100%N)]
              (mkStore Scenario.db0 ∅)
              (Some (mkWebhookEvent "checkout_session.completed"
                       (session_ref "cs_123"))))
    as (_ & Hsame & _); [constructor|].
  apply Hsame. intros ev [= <-]. discriminate.
Defined.

(** Whatever requests are served, the [paymentStatus] and the
    [deliveryOption] of every stored order stay within the enums of the
    schema, so that [save] never rejects an order for them. *)
Theorem stored_enums_kept (env : Env) (cs : list Call) (st : Store) :
  Forall enums_kept (orders (store_db st)) ->
  Forall enums_kept (orders (store_db (serve_all env st cs))).
Proof.
  apply (serve_invariant enums_kept).
  - intros db0 c r o db' H.
    apply create_order_Created in H as (_ & _ & Hnew & _).
    apply new_Order_fields in Hnew.
    apply validate_enums_kept. apply Hnew.
  - intros s o [_ Hd]. now split.
  - intros status o H. exact H.
  - intros o [_ Hd]. now split.
Qed.

Lemma stored_enums_kept_witness :
  Forall enums_kept
    (orders
       (store_db
          (serve_all Scenario.gateway_up (mkStore Scenario.db0 ∅)
             [Route (PostOrder Scenario.alice Scenario.requestB);
              Route (PutCancel Scenario.bob 100%N);
              PutConfirm 100%N]))).
Proof.
  apply stored_enums_kept. constructor.
Defined.

(** ** Confirmation and delivery proof *)

(** Confirmation asks for no token and reads no status: whoever calls
    it, an existing order the schema accepts is answered and stored with
    [status = "On Process"], whatever its status was, and with
    everything else as it was; confirming again changes nothing more. *)
Theorem confirm_sets_on_process (db : Db) (id : ObjectId) (o : Order) :
  findById (orders db) id = Some o ->
  in_enum (paymentStatus o) paymentStatus_enum = true ->
  in_enum (deliveryOption o) deliveryOption_enum = true ->
  fst (confirm db id) = Some (OkOrder (set_status "On Process" o)) /\
  findById (orders (snd (confirm db id))) id
  = Some (set_status "On Process" o) /\
  confirm (snd (confirm db id)) id
  = (Some (OkOrder (set_status "On Process" o)), snd (confirm db id)).
Proof.
  intros Ho Hps Hdel.
  assert (Hv : validate (set_status "On Process" o) = true)
    by now rewrite validate_set_status_On_Process, Hdel, Hps.
  assert (Hc : confirm db id
               = (Some (OkOrder (set_status "On Process" o)),
                  set_orders
                    (update_by_id (order_id o) (set_status "On Process")
                       (orders db)) db)).
  { unfold confirm, save. now rewrite Ho, Hv. }
  assert (Hread : findById
                    (update_by_id (order_id o) (set_status "On Process")
                       (orders db)) id
                  = Some (set_status "On Process" o)).
  { rewrite findById_update by reflexivity. rewrite Ho. simpl.
    now rewrite N.eqb_refl. }
  rewrite Hc. simpl. split; [reflexivity|]. split; [exact Hread|].
  unfold confirm, save. simpl. rewrite Hread.
  change (set_status "On Process" (set_status "On Process" o))
    with (set_status "On Process" o).
  rewrite Hv. simpl. now rewrite update_by_id_twice.
Qed.

(** Bob, a customer, asks and is granted a refund; a confirmation
    without any token puts the order back on process, its payment status
    still "Refund Requested". *)
Lemma confirm_sets_on_process_witness :
  let db := snd (request_refund
                   (snd (create_order Scenario.db0 Scenario.bob
                           Scenario.requestA))
                   Scenario.bob 100%N) in
  option_map status (findById (orders db) 100%N)
  = Some "Requesting for Refund" /\
  option_map (fun o => (status o, paymentStatus o))
    (findById (orders (snd (confirm db 100%N))) 100%N)
  = Some ("On Process", "Refund Requested").
Proof.
  cbv zeta. split; [vm_compute; reflexivity|].
  edestruct (confirm_sets_on_process
               (snd (request_refund
                       (snd (create_order Scenario.db0 Scenario.bob
                               Scenario.requestA))
                       Scenario.bob 100%N)) 100%N) as (_ & Hread & _).
  - vm_compute. reflexivity.
  - reflexivity.
  - reflexivity.
  - rewrite Hread. reflexivity.
Defined.

(** A delivery proof that fails, at any step, writes nothing; one sent
    by an admin with a file the image host takes completes any existing
    order, whatever its status: the order is stored "Picked Up" when its
    delivery option is pickup and "Delivered" otherwise, with the URL of
    the image and the date, and its amounts and payment status as they
    were. *)
Theorem delivery_proof_completes (cloudinary : option string) (now : N)
  (st : Store) (caller : Caller) (id : ObjectId) (up : Upload) :
  (is_failure (fst (delivery_proof cloudinary now st caller id up)) = true ->
   snd (delivery_proof cloudinary now st caller id up) = st) /\
  (forall o url size,
     caller_role caller = "admin" ->
     fileValidationError up = None -> file up = accepted_file size ->
     cloudinary = Some url ->
     findById (orders (store_db st)) id = Some o ->
     let final := if String.eqb (deliveryOption o) "pickup"
                  then "Picked Up" else "Delivered" in
     let st' := snd (delivery_proof cloudinary now st caller id up) in
     fst (delivery_proof cloudinary now st caller id up)
     = OkOrder (set_status final o) /\
     findById (orders (store_db st')) id = Some (set_status final o) /\
     deliveryProofs st' !! id = Some (url, now) /\
     in_enum final status_enum = true).
Proof.
  split.
  - unfold delivery_proof, findByIdAndUpdate_status.
    destruct (negb (authorizeRoles "admin" caller)); [reflexivity|].
    destruct (file up), (fileValidationError up); try reflexivity.
    destruct cloudinary; [|reflexivity].
    destruct (findById (orders (store_db st)) id); [|reflexivity].
    simpl. discriminate.
  - intros o url size Hrole Hv Hf -> Ho. cbv zeta.
    unfold delivery_proof, findByIdAndUpdate_status, authorizeRoles.
    rewrite Hrole, Hv, Hf, Ho. simpl.
    split; [reflexivity|]. split; [|split].
    + rewrite findById_update by reflexivity. rewrite Ho. simpl.
      now rewrite (findById_id _ _ _ Ho), N.eqb_refl.
    + apply lookup_insert_eq.
    + now destruct (String.eqb (deliveryOption o) "pickup").
Qed.

(** Alice's order of scenario B, cancelled by Bob, is picked up all the
    same. *)
Lemma delivery_proof_completes_witness :
  let st := mkStore (snd (cancel Scenario.dbB Scenario.bob 100%N)) ∅ in
  let st' := snd (delivery_proof (Some "https://img.example.org/p.jpg")
                    1700000000000%N st Scenario.admin 100%N
                    (mkUpload None (accepted_file 2048%N))) in
  option_map status (findById (orders (store_db st')) 100%N)
  = Some "Picked Up" /\
  deliveryProofs st' !! 100%N
  = Some ("https://img.example.org/p.jpg", 1700000000000%N) /\
  snd (delivery_proof None 1700000000000%N st Scenario.admin 100%N
         (mkUpload None (accepted_file 2048%N))) = st.
Proof.
  cbv zeta.
  destruct (delivery_proof_completes
              (Some "https://img.example.org/p.jpg") 1700000000000%N
              (mkStore (snd (cancel Scenario.dbB Scenario.bob 100%N)) ∅)
              Scenario.admin 100%N (mkUpload None (accepted_file 2048%N)))
    as [_ Hok].
  destruct (delivery_proof_completes None 1700000000000%N
              (mkStore (snd (cancel Scenario.dbB Scenario.bob 100%N)) ∅)
              Scenario.admin 100%N (mkUpload None (accepted_file 2048%N)))
    as [Hfail _].
  edestruct Hok as (_ & Hread & Hproof & _); try reflexivity.
  cbv zeta in Hread. rewrite Hread. split; [reflexivity|].
  split; [exact Hproof|]. apply Hfail. reflexivity.
Defined.

(** ** The cart routes *)

Lemma Cart_findOne_user (cs : list Cart) (u : ObjectId) (c : Cart) :
  Cart_findOne cs u = Some c -> cart_user c = u.
Proof.
  unfold Cart_findOne. intros H. apply List.find_some in H.
  now apply N.eqb_eq.
Qed.

Lemma Cart_save_findOne (cs : list Cart) (u : ObjectId) (c c' : Cart) :
  Cart_findOne cs u = Some c -> cart_user c' = u ->
  Cart_findOne (Cart_save u c' cs) u = Some c'.
Proof.
  unfold Cart_findOne. intros H Hu.
  induction cs as [|d cs IH]; simpl in *; [discriminate|].
  destruct (N.eqb (cart_user d) u) eqn:E; simpl.
  - now rewrite Hu, N.eqb_refl.
  - rewrite E. now apply IH.
Qed.

Lemma Cart_save_other (cs : list Cart) (u v : ObjectId) (c' : Cart) :
  v <> u -> cart_user c' = u ->
  Cart_findOne (Cart_save u c' cs) v = Cart_findOne cs v.
Proof.
  unfold Cart_findOne. intros Hne Hu.
  induction cs as [|d cs IH]; simpl; [reflexivity|].
  destruct (N.eqb (cart_user d) u) eqn:E; simpl.
  - apply N.eqb_eq in E.
    replace (N.eqb (cart_user c') v) with false
      by (symmetry; apply N.eqb_neq; congruence).
    replace (N.eqb (cart_user d) v) with false
      by (symmetry; apply N.eqb_neq; congruence).
    (* the saved cart and the one it replaces are both of [u] *)
    reflexivity.
  - destruct (N.eqb (cart_user d) v); [reflexivity | exact IH].
Qed.

Lemma filter_shorter {A : Type} (p : A -> bool) (l : list A) :
  length (List.filter p l) <> length l ->
  exists x, In x l /\ p x = false.
Proof.
  induction l as [|a l IH]; simpl; [congruence|].
  destruct (p a) eqn:E; simpl; intros H.
  - destruct IH as (x & Hin & Hx); [congruence|].
    exists x. now split; [right|].
  - exists a. now split; [left|].
Qed.

Lemma filter_change_first (i : ObjectId) (f : Q -> Q) (ls : list CartLine) :
  List.filter (fun l => negb (is_item i l)) (change_first i f ls)
  = List.filter (fun l => negb (is_item i l)) ls.
Proof.
  induction ls as [|l ls IH]; simpl; [reflexivity|].
  destruct (is_item i l) eqn:E; simpl.
  - unfold is_item in *. simpl. now rewrite E.
  - now rewrite E, IH.
Qed.



(** Deleting an item from a cart: a failure writes nothing; a caller who
    is neither an admin nor the cart's user is refused with 403; and a
    success answers and stores the user's cart without any line of the
    item, the other lines kept in their order, after at least one line
    of the item was there, the carts of the other users being as they
    were. *)
Theorem cart_delete_item_removes (accepts : Cart -> bool) (db : Db)
  (caller : Caller) (u i : ObjectId) :
  let r := cart_delete_item accepts db caller (Some u) (Some i) in
  (forall code m, fst r = CartFailure code m -> snd r = db) /\
  (caller_role caller <> "admin" -> caller_id caller <> u ->
   fst r = CartFailure 403 "Access denied") /\
  (forall m c',
     fst r = CartData m c' ->
     exists c,
       Cart_findOne (carts db) u = Some c /\
       Cart_findOne (carts (snd r)) u = Some c' /\
       cart_user c' = u /\
       cart_items c'
       = List.filter (fun l => negb (is_item i l)) (cart_items c) /\
       (exists l, In l (cart_items c) /\ cart_line_item l = i) /\
       (forall l, In l (cart_items c') -> cart_line_item l <> i) /\
       (forall v, v <> u ->
          Cart_findOne (carts (snd r)) v = Cart_findOne (carts db) v)).
Proof.
  cbv zeta. unfold cart_delete_item. split; [|split].
  - intros code m.
    destruct (negb (String.eqb (caller_role caller) "admin")
              && negb (N.eqb (caller_id caller) u)); [reflexivity|].
    destruct (Cart_findOne (carts db) u) as [c|]; [|reflexivity].
    destruct (Nat.eqb _ _); [reflexivity|].
    destruct (accepts _); [discriminate | reflexivity].
  - intros Hrole Hid.
    apply String.eqb_neq in Hrole. apply N.eqb_neq in Hid.
    now rewrite Hrole, Hid.
  - intros m c'.
    destruct (negb (String.eqb (caller_role caller) "admin")
              && negb (N.eqb (caller_id caller) u)); [discriminate|].
    destruct (Cart_findOne (carts db) u) as [c|] eqn:Hc; [|discriminate].
    destruct (Nat.eqb _ _) eqn:Hlen; [discriminate|].
    destruct (accepts _); [|discriminate].
    simpl. intros [= <- <-]. apply Nat.eqb_neq in Hlen.
    pose proof (Cart_findOne_user _ _ _ Hc) as Hu.
    exists c. split; [reflexivity|]. split; [|split; [|split; [|split; [|split]]]].
    + now apply (Cart_save_findOne _ _ c).
    + exact Hu.
    + reflexivity.
    + destruct (filter_shorter _ _ Hlen) as (l & Hin & Hl).
      exists l. split; [exact Hin|].
      apply negb_false_iff in Hl. now apply N.eqb_eq.
    + simpl. intros l Hin. apply List.filter_In in Hin as [_ Hl].
      apply negb_true_iff in Hl. now apply N.eqb_neq.
    + intros v Hv. now apply Cart_save_other.
Qed.

(** Alice deletes the chair from her cart: the stool stays; Bob asking
    the same of Alice's cart is refused. *)
Lemma cart_delete_item_removes_witness :
  let r := cart_delete_item (fun _ => true) Scenario.db0 Scenario.alice
             (Some 1%N) (Some 10%N) in
  option_map (fun c => List.map cart_line_item (cart_items c))
    (Cart_findOne (carts (snd r)) 1%N) = Some [12%N] /\
  fst (cart_delete_item (fun _ => true) Scenario.db0 Scenario.bob
         (Some 1%N) (Some 10%N))
  = CartFailure 403 "Access denied".
Proof.
  cbv zeta.
  destruct (cart_delete_item_removes (fun _ => true) Scenario.db0
              Scenario.alice 1%N 10%N) as (_ & _ & Hok).
  destruct (cart_delete_item_removes (fun _ => true) Scenario.db0
              Scenario.bob 1%N 10%N) as (_ & Hdenied & _).
  cbv zeta in Hok, Hdenied.
  edestruct Hok as (c & Hc & Hc' & _ & Hitems & _); [reflexivity|].
  split.
  - exact (f_equal
             (option_map
                (fun c => List.map cart_line_item (cart_items c))) Hc').
  - apply Hdenied; vm_compute; discriminate.
Defined.

(** Decreasing an item whose first line in the cart is left with no
    quantity removes every line of that item from the stored cart, the
    further lines of the item (custom pieces are added as lines of their
    own) along with the first, whatever quantity they hold; the lines of
    other items stay in their order. *)
Theorem cart_decrease_removes_item (accepts : Cart -> bool) (db : Db)
  (u i : ObjectId) (c : Cart) (l : CartLine) :
  Cart_findOne (carts db) u = Some c ->
  List.find (is_item i) (cart_items c) = Some l ->
  (cart_line_quantity l - 1 <= 0)%Q ->
  accepts (mkCart (cart_user c)
             (List.filter (fun x => negb (is_item i x)) (cart_items c)))
  = true ->
  let r := cart_decrease accepts db (Some u) (Some i) in
  exists c',
    fst r = CartData "Item quantity decreased" c' /\
    Cart_findOne (carts (snd r)) u = Some c' /\
    cart_items c'
    = List.filter (fun x => negb (is_item i x)) (cart_items c) /\
    (forall x, In x (cart_items c') -> cart_line_item x <> i).
Proof.
  intros Hc Hl Hq Hacc. cbv zeta. unfold cart_decrease.
  rewrite Hc, Hl. apply Qle_bool_iff in Hq. rewrite Hq.
  rewrite filter_change_first, Hacc. simpl.
  eexists. split; [reflexivity|]. split; [|split].
  - apply (Cart_save_findOne _ _ c); [exact Hc|].
    exact (Cart_findOne_user _ _ _ Hc).
  - reflexivity.
  - simpl. intros x Hin. apply List.filter_In in Hin as [_ Hx].
    apply negb_true_iff in Hx. now apply N.eqb_neq.
Qed.

(** A cart with one chair and, after it, a line of five more chairs:
    decreasing the chair empties the cart. *)
Lemma cart_decrease_removes_item_witness :
  let db := set_carts
              [mkCart 1%N [mkCartLine 50%N 10%N 1%Q;
                           mkCartLine 51%N 10%N 5%Q]] Scenario.db0 in
  option_map cart_items
    (Cart_findOne
       (carts (snd (cart_decrease (fun _ => true) db (Some 1%N)
                      (Some 10%N)))) 1%N)
  = Some [].
Proof.
  cbv zeta.
  edestruct (cart_decrease_removes_item (fun _ => true)
               (set_carts
                  [mkCart 1%N [mkCartLine 50%N 10%N 1%Q;
                               mkCartLine 51%N 10%N 5%Q]] Scenario.db0)
               1%N 10%N) as (c' & _ & Hc' & Hitems & _).
  - reflexivity.
  - reflexivity.
  - vm_compute. discriminate.
  - reflexivity.
  - cbv zeta in Hc'.
    exact (eq_trans (f_equal (option_map cart_items) Hc')
             (f_equal Some Hitems)).
Defined.




(** ** Stock *)







(** ** The checkout page and the checkout session *)

Section CheckoutSession.
Import Checkout CheckoutFlow.
Local Open Scope Q_scope.

(** The page's validation, once the fee effect has run on the address and
    delivery option it validates: a checkout that goes on has a cart that
    is not empty; when shipped, it goes to Rizal for 1000 or to Metro
    Manila for 1500 on a date that is set and confirmed; when not
    shipped, there is no fee. *)
Theorem checkout_validated_fee (sel : list Entry) (delivery : string)
  (info : ShippingInfo) (date : string) (confirmed : bool) :
  handleCheckout_validation sel delivery info
    (fst (shippingFee_effect delivery info)) date confirmed = None ->
  sel <> [] /\
  (delivery = "shipping" ->
   (provinceName info = "Rizal" /\
    fst (shippingFee_effect delivery info) = 1000 \/
    provinceName info = "Metro Manila" /\
    fst (shippingFee_effect delivery info) = 1500) /\
   date <> ""%string /\ confirmed = true) /\
  (delivery <> "shipping" -> fst (shippingFee_effect delivery info) = 0).
Proof.
  unfold handleCheckout_validation, shippingFee_effect.
  destruct sel as [|e sel]; [discriminate|]. simpl length. cbn [Nat.eqb].
  intros H. split; [discriminate|]. split.
  - intros ->. change (String.eqb "shipping" "shipping") with true in *.
    cbv iota in H. simpl existsb in H.
    destruct (String.eqb (fullName info) ""); [discriminate|].
    destruct (String.eqb (addressLine1 info) ""); [discriminate|].
    destruct (String.eqb (city info) ""); [discriminate|].
    destruct (String.eqb (province info) ""); [discriminate|].
    destruct (String.eqb (brgy info) ""); [discriminate|].
    destruct (String.eqb (postalCode info) ""); [discriminate|].
    destruct (String.eqb (phone info) ""); [discriminate|].
    simpl orb in H. cbv iota in H. simpl andb in *.
    destruct (String.eqb (provinceName info) "") eqn:Hempty;
      simpl negb in *; cbv iota in *; [discriminate|].
    destruct (String.eqb (provinceName info) "Rizal") eqn:Hr.
    + apply String.eqb_eq in Hr. simpl in H.
      destruct (String.eqb date "") eqn:Hd; [discriminate|].
      destruct confirmed; [|discriminate].
      apply String.eqb_neq in Hd. split; [left|]; now split.
    + destruct (String.eqb (provinceName info) "Metro Manila") eqn:Hm;
        [|discriminate].
      apply String.eqb_eq in Hm. simpl in H.
      destruct (String.eqb date "") eqn:Hd; [discriminate|].
      destruct confirmed; [|discriminate].
      apply String.eqb_neq in Hd. split; [right|]; now split.
  - intros Hne. apply String.eqb_neq in Hne. now rewrite Hne.
Qed.

(** A full address in Metro Manila with a confirmed date: 1500. *)
Lemma checkout_validated_fee_witness :
  fst (shippingFee_effect "shipping"
         (mkShippingInfo "Alice" "1 Main St" "Pasig" "NCR" "Metro Manila"
            "Kapitolyo" "1603" "09170000000")) = 1500.
Proof.
  destruct (checkout_validated_fee Scenario.cartA "shipping"
              (mkShippingInfo "Alice" "1 Main St" "Pasig" "NCR"
                 "Metro Manila" "Kapitolyo" "1603" "09170000000")
              "2026-01-15" true) as (_ & Hship & _); [reflexivity|].
  destruct (Hship eq_refl) as [[[Hr _] | [_ Hfee]] _];
    [discriminate Hr | exact Hfee].
Defined.

Lemma Math_round_whole (x : Q) (z : Z) :
  x == inject_Z z -> Math_round x = z.
Proof.
  intros Hx. unfold Math_round.
  pose proof (Qfloor_le (x + (1 # 2))) as Hlo.
  pose proof (Qlt_floor (x + (1 # 2))) as Hhi.
  set (k := Qfloor (x + (1 # 2))) in *.
  rewrite inject_Z_plus in Hhi. change (inject_Z 1) with 1 in Hhi.
  assert (H1 : inject_Z k < inject_Z (z + 1)).
  { rewrite inject_Z_plus. change (inject_Z 1) with 1.
    generalize dependent (inject_Z k). generalize dependent (inject_Z z).
    intros; lra. }
  assert (H2 : inject_Z z < inject_Z (k + 1)).
  { rewrite inject_Z_plus. change (inject_Z 1) with 1.
    generalize dependent (inject_Z k). generalize dependent (inject_Z z).
    intros; lra. }
  rewrite <- Zlt_Qlt in H1, H2. lia.
Qed.

Lemma toFixed2_cents (x : Q) (z : Z) :
  x * 100 == inject_Z z -> toFixed2 x * 100 == inject_Z z.
Proof.
  intros Hx. unfold toFixed2. destruct (Qle_bool 0 x).
  - rewrite (Math_round_whole _ _ Hx). field.
  - assert (Hneg : - x * 100 == inject_Z (- z)).
    { rewrite inject_Z_opp, <- Hx. ring. }
    rewrite (Math_round_whole _ _ Hneg), inject_Z_opp. field.
Qed.

Lemma Qsum_app (l1 l2 : list Q) :
  Qsum (l1 ++ l2) == Qsum l1 + Qsum l2.
Proof.
  induction l1 as [|a l1 IH]; simpl; [ring|]. rewrite IH. ring.
Qed.

Lemma subtotal_whole (b : bool) (sel : list Entry) :
  whole_numbers sel -> exists z : Z, subtotal b sel == inject_Z z.
Proof.
  unfold whole_numbers, subtotal.
  induction 1 as [|e sel (p & q & Hp & Hq) _ [z IH]]; simpl.
  - exists 0%Z. reflexivity.
  - destruct (Bool.eqb (entry_customizable e) b); simpl.
    + exists (p * q + z)%Z. unfold itemTotal.
      rewrite IH, Hp, Hq, inject_Z_plus, inject_Z_mult. ring.
    + exists z. exact IH.
Qed.

(** The product lines of a session, in centavos, for payload prices
    discounted ([b]) or not. *)
Lemma product_lines_total (b : bool) (name : ObjectId -> string)
  (sel : list Entry) :
  whole_numbers sel ->
  Qsum
    (List.map (fun l => inject_Z (li_amount l) * li_quantity l)
       (List.map
          (fun item =>
             mkLineItem (Math_round (payload_price item * 100)) "PHP"
               (payload_name item) (payload_quantity item))
          (List.map
             (fun entry =>
                mkPayloadItem (entry_item entry) (name (entry_item entry))
                  (if b && entry_customizable entry
                   then toFixed2 (entry_price entry * (3 # 10))
                   else entry_price entry)
                  (entry_quantity entry))
             sel)))
  == (subtotal true sel * (if b then 3 # 10 else 1) + subtotal false sel)
     * 100.
Proof.
  unfold whole_numbers, subtotal.
  induction 1 as [|e sel (p & q & Hp & Hq) _ IH]; simpl; [ring|].
  rewrite IH. clear IH. unfold itemTotal.
  destruct b, (entry_customizable e); simpl.
  - assert (Hc : entry_price e * (3 # 10) * 100 == inject_Z (30 * p)).
    { rewrite Hp, inject_Z_mult. change (inject_Z 30) with 30. field. }
    rewrite (Math_round_whole _ _ (toFixed2_cents _ _ Hc)).
    rewrite inject_Z_mult, Hp. change (inject_Z 30) with 30. ring.
  - assert (Hc : entry_price e * 100 == inject_Z (p * 100)).
    { now rewrite Hp, inject_Z_mult. }
    rewrite (Math_round_whole _ _ Hc), inject_Z_mult, Hp.
    change (inject_Z 100) with 100. ring.
  - assert (Hc : entry_price e * 100 == inject_Z (p * 100)).
    { now rewrite Hp, inject_Z_mult. }
    rewrite (Math_round_whole _ _ Hc), inject_Z_mult, Hp.
    change (inject_Z 100) with 100. ring.
  - assert (Hc : entry_price e * 100 == inject_Z (p * 100)).
    { now rewrite Hp, inject_Z_mult. }
    rewrite (Math_round_whole _ _ Hc), inject_Z_mult, Hp.
    change (inject_Z 100) with 100. ring.
Qed.

Lemma actual_payment_subtotals (sel : list Entry) (paymentType : string) :
  getActualPaymentAmount sel paymentType
  == subtotal true sel
     * (if hasCustomizedItems sel && String.eqb paymentType "down_payment"
        then 3 # 10 else 1)
     + subtotal false sel.
Proof.
  unfold getActualPaymentAmount.
  destruct (hasCustomizedItems sel && String.eqb paymentType "down_payment").
  - rewrite actual_from. ring.
  - unfold total. rewrite total_from. ring.
Qed.

(** The checkout page and the session route together: for a cart of
    whole prices and quantities, with the fee the page has set, the line
    items the gateway is asked for add up, in centavos, to the amount it
    is asked for, the page's grand total in rounded centavos; this with
    or without the 30% prices of a down payment and with or without the
    line of the shipping fee. *)
Theorem checkout_session_adds_up (env : PaymentEnv)
  (name : ObjectId -> string) (sel : list Entry)
  (paymentType delivery : string) (info : ShippingInfo) :
  whole_numbers sel -> sel <> [] ->
  truthy_string (PAYMONGO_SECRET_KEY env) = true ->
  truthy_string (payment_FRONTEND_URL env) = true ->
  let fee := fst (shippingFee_effect delivery info) in
  0 < grandTotal sel paymentType fee ->
  let line_items :=
    line_items_of (itemsPayload name sel paymentType) (Some delivery)
      (Some fee) in
  let cents := Math_round (grandTotal sel paymentType fee * 100) in
  create_checkout_session env
    (checkout_session_body name sel paymentType delivery fee)
  = match checkout_sessions env line_items cents with
    | Some checkout_url => CheckoutUrl checkout_url
    | None => Failure 500 "Payment failed"
    end /\
  line_items_total line_items == inject_Z cents.
Proof.
  intros Hwhole Hsel Hkey Hurl fee Hpos line_items cents.
  assert (Hfee : exists f : Z,
             fee == inject_Z f /\
             line_items_total line_items
             == line_items_total
                  (line_items_of (itemsPayload name sel paymentType)
                     None None)
                + inject_Z f * 100).
  { subst line_items fee. unfold shippingFee_effect, line_items_of.
    destruct (String.eqb delivery "shipping") eqn:Hd; simpl andb.
    - destruct (negb (String.eqb (provinceName info) ""));
        [|exists 0%Z; simpl; split; [reflexivity | ring]].
      destruct (String.eqb (provinceName info) "Rizal");
        [|destruct (String.eqb (provinceName info) "Metro Manila")].
      + exists 1000%Z. split; [reflexivity|]. simpl fst.
        change (negb (Qle_bool 1000 0)) with true. cbv iota.
        unfold line_items_total. rewrite List.map_app, Qsum_app. simpl.
        change (Math_round (1000 * 100)) with 100000%Z.
        change (inject_Z 100000) with 100000.
        change (inject_Z 1000) with 1000. ring.
      + exists 1500%Z. split; [reflexivity|]. simpl fst.
        change (negb (Qle_bool 1500 0)) with true. cbv iota.
        unfold line_items_total. rewrite List.map_app, Qsum_app. simpl.
        change (Math_round (1500 * 100)) with 150000%Z.
        change (inject_Z 150000) with 150000.
        change (inject_Z 1500) with 1500. ring.
      + exists 0%Z. simpl. split; [reflexivity | ring].
    - exists 0%Z. simpl. split; [reflexivity | ring]. }
  destruct Hfee as (f & Hf & Hlines).
  destruct (subtotal_whole true sel Hwhole) as [zc Hzc].
  destruct (subtotal_whole false sel Hwhole) as [zn Hzn].
  assert (Hproducts :
            line_items_total
              (line_items_of (itemsPayload name sel paymentType) None None)
            == getActualPaymentAmount sel paymentType * 100).
  { unfold line_items_total, line_items_of, itemsPayload.
    rewrite (product_lines_total
               (hasCustomizedItems sel
                && String.eqb paymentType "down_payment") name sel Hwhole).
    now rewrite actual_payment_subtotals. }
  assert (Hcents : exists z : Z,
             grandTotal sel paymentType fee * 100 == inject_Z z).
  { unfold grandTotal.
    destruct (hasCustomizedItems sel
              && String.eqb paymentType "down_payment") eqn:Hb.
    - exists (30 * zc + 100 * zn + 100 * f)%Z.
      rewrite actual_payment_subtotals, Hb, Hzc, Hzn, Hf.
      rewrite !inject_Z_plus, !inject_Z_mult.
      change (inject_Z 30) with 30. change (inject_Z 100) with 100. field.
    - exists (100 * zc + 100 * zn + 100 * f)%Z.
      rewrite actual_payment_subtotals, Hb, Hzc, Hzn, Hf.
      rewrite !inject_Z_plus, !inject_Z_mult.
      change (inject_Z 100) with 100. ring. }
  destruct Hcents as [z Hz].
  assert (Hround : inject_Z cents == grandTotal sel paymentType fee * 100).
  { subst cents. now rewrite (Math_round_whole _ _ Hz). }
  split.
  - unfold create_checkout_session, checkout_session_body.
    rewrite Hkey, Hurl. simpl.
    destruct (itemsPayload name sel paymentType) eqn:Hitems.
    + destruct sel; [congruence | discriminate Hitems].
    + destruct (Qle_bool (grandTotal sel paymentType fee) 0) eqn:Hle.
      * apply Qle_bool_iff in Hle. lra.
      * reflexivity.
  - rewrite Hround, Hlines, Hproducts. unfold grandTotal. rewrite Hf. ring.
Qed.

(** Scenario B shipped to Rizal and paid by down payment: 3000 for the
    table, 500 for the stool and 1000 for the shipping make the 450000
    centavos asked for. *)
Lemma checkout_session_adds_up_witness :
  line_items_total
    (line_items_of
       (itemsPayload (fun _ => "item"%string) Scenario.cartB "down_payment")
       (Some "shipping"%string) (Some 1000))
  == inject_Z 450000.
Proof.
  destruct (checkout_session_adds_up
              (mkPaymentEnv (Some "sk_test"%string)
                 (Some "https://shop.example.org"%string)
                 (fun _ _ => None))
              (fun _ => "item"%string) Scenario.cartB "down_payment"
              "shipping"
              (mkShippingInfo "Alice" "1 Main St" "Antipolo" "Rizal"
                 "Rizal" "San Roque" "1870" "09170000000"))
    as (_ & Hsum).
  - repeat constructor.
    + exists 10000%Z, 1%Z. split; reflexivity.
    + exists 500%Z, 1%Z. split; reflexivity.
  - discriminate.
  - reflexivity.
  - reflexivity.
  - vm_compute. reflexivity.
  - exact Hsum.
Defined.

End CheckoutSession.

(** ** The order page *)

Section OrderPage.
Import OrderDetail.
Local Open Scope Q_scope.

Lemma Math_max_0 (x : Q) :
  0 <= Math_max 0 x /\ (x <= 0 -> Math_max 0 x == 0).
Proof.
  unfold Math_max. destruct (Qle_bool 0 x) eqn:E.
  - apply Qle_bool_iff in E. split; [exact E | intros; lra].
  - split; [apply Qle_refl | reflexivity].
Qed.

(** The remaining balance the order page shows is never negative; it is
    at most 70% of the customized subtotal of the order, or nothing, when
    the order has a customizable line, whatever [balance] the order
    stores; and for an order without customizable line it is zero as soon
    as [totalWithShipping], which the page takes for the amount paid,
    covers [amount]. *)
Theorem remaining_balance_shown (cat : gmap ObjectId Item) (o : Order) :
  0 <= getRemainingBalance cat o /\
  (hasCustomizedItems cat o = true ->
   getRemainingBalance cat o
   <= Math_max 0 (snd (calculatePaymentAmounts cat o))) /\
  (hasCustomizedItems cat o = false ->
   amount o <= totalWithShipping o -> getRemainingBalance cat o == 0).
Proof.
  unfold getRemainingBalance.
  destruct (Qeq_bool (amount o) 0).
  { split; [apply Qle_refl|]. split; [|reflexivity].
    intros _. apply Math_max_0. }
  destruct (hasCustomizedItems cat o).
  - set (rb := snd (calculatePaymentAmounts cat o)).
    split; [apply Math_max_0|]. split; [|discriminate]. intros _.
    destruct (Math_max_0 (totalWithShipping o - (amount o - rb)))
      as [Hpos _].
    set (paid := Math_max 0 (totalWithShipping o - (amount o - rb))) in *.
    unfold Math_max at 1 2.
    destruct (Qle_bool 0 (rb - paid)) eqn:E1, (Qle_bool 0 rb) eqn:E2;
      try apply Qle_bool_iff in E1; try apply Qle_bool_iff in E2;
      try lra.
    + exfalso.
      assert (Hrb : ~ 0 <= rb)
        by (intros Hle; apply Qle_bool_iff in Hle; congruence).
      lra.
  - split; [apply Math_max_0|]. split; [discriminate|].
    intros _ Hle. apply Math_max_0. lra.
Qed.

(** The order of scenario B, paid by down payment: 7000 is still owed,
    which is what the plan lets the page show at most; Alice's order of
    scenario A, without customizable line, shows nothing owed. *)
Lemma remaining_balance_shown_witness :
  (exists o,
     findById (orders Scenario.dbB) 100%N = Some o /\
     balance o == 7000 /\
     getRemainingBalance (catalog Scenario.dbB) o <= 7000) /\
  (exists o,
     findById
       (orders (snd (create_order Scenario.db0 Scenario.alice
                       Scenario.requestA))) 100%N = Some o /\
     getRemainingBalance (catalog Scenario.db0) o == 0).
Proof.
  split.
  - eexists. split; [vm_compute; reflexivity|]. split.
    + vm_compute. reflexivity.
    + eapply Qle_trans.
      * apply remaining_balance_shown. vm_compute. reflexivity.
      * vm_compute. discriminate.
  - eexists. split; [vm_compute; reflexivity|].
    apply remaining_balance_shown.
    + vm_compute. reflexivity.
    + vm_compute. discriminate.
Defined.

(** Page and server on refunds: whenever the server grants the refund
    request for an order, the page of a user who is no admin offers the
    request for that order; and what the page offers does not depend on
    the status of the order, which the server requires to be
    "On Process". *)
Theorem refund_offered_when_granted (db : Db) (caller : Caller)
  (id : ObjectId) (userRole : option string) :
  userRole <> Some "admin"%string ->
  (forall o',
     fst (request_refund db caller id) = RefundRequested o' ->
     canRequestRefund userRole (catalog db) (findById (orders db) id)
     = true) /\
  (forall o s,
     canRequestRefund userRole (catalog db) (Some (set_status s o))
     = canRequestRefund userRole (catalog db) (Some o)).
Proof.
  intros Hrole. split; [|reflexivity].
  intros o'. unfold request_refund, canRequestRefund.
  assert (Hadmin : match userRole with
                   | Some role => String.eqb role "admin"
                   | None => false
                   end = false).
  { destruct userRole as [role|]; [|reflexivity].
    apply String.eqb_neq. congruence. }
  rewrite Hadmin.
  destruct (findById (orders db) id) as [o|]; [|reflexivity].
  destruct (negb (N.eqb (user o) (caller_id caller))); [discriminate|].
  destruct (negb (String.eqb (status o) "On Process")); [discriminate|].
  destruct (existsb (line_is_customized (catalog db)) (items o));
    [discriminate | reflexivity].
Qed.

(** Alice's order of two chairs: the request is granted, and offered;
    it is offered as well once the order is delivered. *)
Lemma refund_offered_when_granted_witness :
  let db := snd (create_order Scenario.db0 Scenario.alice
                   Scenario.requestA) in
  canRequestRefund (Some "user"%string) (catalog db)
    (findById (orders db) 100%N) = true /\
  canRequestRefund (Some "user"%string) (catalog db)
    (option_map (set_status "Delivered") (findById (orders db) 100%N))
  = true.
Proof.
  cbv zeta.
  destruct (refund_offered_when_granted
              (snd (create_order Scenario.db0 Scenario.alice
                      Scenario.requestA))
              Scenario.alice 100%N (Some "user"%string))
    as [Hgranted Hstatus]; [discriminate|].
  split.
  - eapply Hgranted. vm_compute. reflexivity.
  - vm_compute. reflexivity.
Defined.

End OrderPage.

(** ** Analytics *)

Lemma In_update_by_id (id : ObjectId) (f : Order -> Order)
  (os : list Order) (o' : Order) :
  In o' (update_by_id id f os) -> order_id o' = id ->
  (forall o, order_id (f o) = order_id o) ->
  exists o, In o os /\ o' = f o.
Proof.
  unfold update_by_id. intros Hin Hid Hf.
  apply List.in_map_iff in Hin as (o & Ho & Hino).
  exists o. split; [exact Hino|].
  destruct (N.eqb (order_id o) id) eqn:E; [now symmetry|].
  apply N.eqb_neq in E. congruence.
Qed.

(** The analytics routes leave out the orders whose status is
    'Cancelled' or 'Refunded'.  An order cancelled through the cancel
    route is stored with status 'cancelled' and so stays among the
    orders they count, by whoever it was cancelled; an order an admin
    sets to 'Cancelled' is left out. *)
Theorem cancelled_orders_still_counted (db : Db) (caller : Caller)
  (id : ObjectId) (o' : Order) :
  order_id o' = id ->
  (In o' (orders (snd (cancel db caller id))) ->
   In o' (Order_find_active (orders (snd (cancel db caller id))))) /\
  (caller_role caller = "admin" ->
   ~ In o' (Order_find_active
              (orders (snd (admin_set_status db caller id
                              (Some "Cancelled")))))).
Proof.
  intros Hid. unfold Order_find_active. split.
  - intros Hin. apply List.filter_In. split; [exact Hin|].
    unfold cancel, findByIdAndUpdate_status in Hin.
    destruct (findById (orders db) id) as [o|] eqn:Ho.
    + assert (Hin' : In o' (update_by_id id (set_status "cancelled")
                              (orders db))).
      { destruct (negb (N.eqb (user (set_status "cancelled" o))
                          (caller_id caller))); exact Hin. }
      destruct (In_update_by_id _ _ _ _ Hin' Hid) as (x & _ & ->);
        [reflexivity|].
      reflexivity.
    + simpl in Hin. apply List.find_none with (x := o') in Ho;
        [|exact Hin].
      apply N.eqb_neq in Ho. congruence.
  - intros Hrole Hin. apply List.filter_In in Hin as [Hin Hactive].
    unfold admin_set_status, authorizeRoles, findByIdAndUpdate_status in Hin.
    rewrite Hrole in Hin. simpl in Hin.
    destruct (findById (orders db) id) as [o|] eqn:Ho.
    + simpl in Hin.
      destruct (In_update_by_id _ _ _ _ Hin Hid) as (x & _ & ->);
        [reflexivity|].
      discriminate Hactive.
    + simpl in Hin. apply List.find_none with (x := o') in Ho;
        [|exact Hin].
      apply N.eqb_neq in Ho. congruence.
Qed.

(** Alice's order of scenario B is counted after Bob has cancelled it,
    and not after the admin has. *)
Lemma cancelled_orders_still_counted_witness :
  exists o',
    findById (orders (snd (cancel Scenario.dbB Scenario.bob 100%N))) 100%N
    = Some o' /\
    status o' = "cancelled" /\
    In o' (Order_find_active
             (orders (snd (cancel Scenario.dbB Scenario.bob 100%N)))) /\
    Order_find_active
      (orders (snd (admin_set_status Scenario.dbB Scenario.admin 100%N
                      (Some "Cancelled")))) = [].
Proof.
  eexists. split; [vm_compute; reflexivity|]. split; [reflexivity|].
  split; [|vm_compute; reflexivity].
  apply (cancelled_orders_still_counted Scenario.dbB Scenario.bob 100%N).
  - reflexivity.
  - vm_compute. left. reflexivity.
Defined.

(** ** When creation and settlement succeed *)


(** Alice settles the balance of her order of scenario B. *)
Lemma complete_payment_goes_through_witness :
  fst (complete_payment Scenario.gateway_up Scenario.dbB Scenario.alice
         100%N)
  = CheckoutUrl "https://pay.example.org/cs_123".
Proof.
  erewrite complete_payment_goes_through; cycle 1.
  - vm_compute. reflexivity.
  - reflexivity.
  - repeat constructor; eexists; vm_compute; reflexivity.
  - vm_compute. reflexivity.
  - eexists. reflexivity.
  - reflexivity.
  - reflexivity.
  - reflexivity.
  - reflexivity.
Defined.

(** ** The idempotency guard across requests (C6) *)

Lemma find_filter (h : string) (os : list Order) (o : Order) :
  List.filter (hash_is h) os = [o] -> findOne_by_hash os h = Some o.
Proof.
  unfold findOne_by_hash.
  induction os as [|a os IH]; simpl; [discriminate|].
  destruct (hash_is h a); [now intros [= ->] | exact IH].
Qed.

Lemma filter_map_same (h : string) (g : Order -> Order) (os : list Order) :
  (forall x, In x os -> hash_is h (g x) = hash_is h x) ->
  List.filter (hash_is h) (List.map g os)
  = List.map g (List.filter (hash_is h) os).
Proof.
  induction os as [|a os IH]; intros Hg; simpl; [reflexivity|].
  rewrite (Hg a) by now left.
  destruct (hash_is h a); simpl; rewrite IH; auto; intros; apply Hg;
    now right.
Qed.

(** An update that keeps the [_id]s and, on the orders it reaches, the
    answer to "is the hash [h]?" keeps the sole bearer of the hash. *)
Lemma sole_hash_update (h : string) (id id' : ObjectId)
  (f : Order -> Order) (os : list Order) :
  (forall x, order_id (f x) = order_id x) ->
  (forall x, In x os -> order_id x = id' ->
             hash_is h (f x) = hash_is h x) ->
  sole_hash h id os -> sole_hash h id (update_by_id id' f os).
Proof.
  intros Hid Hh (o & Hf & Ho). unfold sole_hash, update_by_id.
  exists (if N.eqb (order_id o) id' then f o else o). split.
  - rewrite filter_map_same, Hf; [reflexivity|].
    intros x Hx. destruct (N.eqb (order_id x) id') eqn:E; [|reflexivity].
    apply N.eqb_eq in E. now apply Hh.
  - destruct (N.eqb (order_id o) id'); [now rewrite Hid | exact Ho].
Qed.

Lemma sole_hash_status (h : string) (id id' : ObjectId) (st : string)
  (os : list Order) :
  sole_hash h id os -> sole_hash h id (update_by_id id' (set_status st) os).
Proof. apply sole_hash_update; reflexivity. Qed.

(** A request other than a settlement of the bearer of the hash keeps
    it the sole bearer, when the gateway names no session by the
    hash. *)
Lemma serve_sole_hash (env : Env) (st : Store) (c : Call) (h : string)
  (id : ObjectId) :
  h <> "" ->
  (forall amountToPay s,
     gateway env amountToPay = Some s -> session_id s <> h) ->
  (forall caller, c <> Route (PostCompletePayment caller id)) ->
  sole_hash h id (orders (store_db st)) ->
  sole_hash h id (orders (store_db (serve env st c))).
Proof.
  intros Hne Hgw Hc H.
  destruct c as [[cl b | cl id' | payload | cl id' | cl id' | cl id' status]
                | id' | cloudinary now caller id' up]; simpl.
  - destruct (create_order (store_db st) cl b) as [r db'] eqn:E.
    destruct r as [o2| | | | | |];
      try (rewrite (create_order_not_Created _ _ _ _ _ E) by discriminate;
           exact H).
    apply create_order_Created in E as (Hguard & _ & Hnew & Hos & _).
    apply new_Order_fields in Hnew
      as (_ & _ & _ & _ & _ & _ & _ & _ & _ & _ & _ & Hhash & _).
    simpl. rewrite Hos. destruct H as (o & Hf & Ho).
    exists o. split; [|exact Ho]. rewrite List.filter_app, Hf. simpl.
    destruct (hash_is h o2) eqn:Eh; [|reflexivity].
    exfalso. unfold hash_is in Eh. rewrite Hhash in Eh.
    destruct (body_transactionHash b) as [h'|] eqn:Eb; [|discriminate].
    apply String.eqb_eq in Eh. subst h'.
    rewrite (find_none_filter _ _ (Hguard h eq_refl Hne)) in Hf.
    discriminate.
  - destruct (complete_payment env (store_db st) cl id') as [r db'] eqn:E.
    destruct (is_failure r) eqn:Hf.
    + simpl. now rewrite (complete_payment_failure _ _ _ _ _ _ E Hf).
    + destruct (complete_payment_success _ _ _ _ _ _ E Hf)
        as (o1 & s & os' & Ho1 & _ & _ & Hg & Hs & _ & ->).
      simpl. unfold save in Hs.
      destruct (validate (settle s o1)); [|discriminate].
      inversion Hs. subst os'. rewrite (findById_id _ _ _ Ho1).
      assert (Hid : id' <> id) by (intros ->; now apply (Hc cl)).
      apply sole_hash_update; [reflexivity| |exact H].
      intros x Hx Hxid.
      assert (Hnew : hash_is h (settle s x) = false).
      { unfold hash_is. simpl. apply String.eqb_neq. eapply Hgw. exact Hg. }
      rewrite Hnew. destruct (hash_is h x) eqn:Ex; [|reflexivity].
      exfalso. destruct H as (o & Hfo & Ho).
      assert (Hin : In x (List.filter (hash_is h) (orders (store_db st))))
        by (apply List.filter_In; now split).
      rewrite Hfo in Hin. destruct Hin as [<- | []]. congruence.
  - destruct (webhook (store_db st) payload) as [r db'] eqn:E. simpl.
    destruct (webhook_orders _ _ _ _ E) as [-> | [id1 ->]]; [exact H|].
    now apply sole_hash_status.
  - unfold cancel, findByIdAndUpdate_status.
    destruct (findById (orders (store_db st)) id') as [o1|]; [|exact H].
    assert (Hc' : sole_hash h id
                    (update_by_id id' (set_status "cancelled")
                       (orders (store_db st))))
      by now apply sole_hash_status.
    now destruct (negb (N.eqb (user (set_status "cancelled" o1))
                          (caller_id cl))).
  - destruct (request_refund_orders (store_db st) cl id')
      as [-> | (o1 & _ & ->)]; [exact H|].
    apply sole_hash_update; [reflexivity | reflexivity | exact H].
  - unfold admin_set_status, findByIdAndUpdate_status.
    destruct (negb (authorizeRoles "admin" cl)); [exact H|].
    destruct status as [s|]; [|exact H].
    destruct (truthy_string (Some s)); [|exact H].
    destruct (findById (orders (store_db st)) id') as [o1|]; [|exact H].
    now apply sole_hash_status.
  - destruct (confirm_orders (store_db st) id')
      as [-> | (o1 & _ & _ & ->)]; [exact H|].
    now apply sole_hash_status.
  - destruct (delivery_proof_orders cloudinary now st caller id' up)
      as [-> | (o1 & url & _ & _ & ->)]; [exact H|].
    simpl. now apply sole_hash_status.
Qed.

(** C6, as stated, fails: Alice checks out scenario B under the hash
    "1-2" and settles the order, which stores the session id of the
    gateway as its [transactionHash]; the same checkout submitted again
    is answered 201 and there are two orders. *)
Lemma duplicate_after_settlement :
  let db1 := snd (create_order Scenario.db0 Scenario.alice
                    Scenario.requestB) in
  let db2 := snd (complete_payment Scenario.gateway_up db1 Scenario.alice
                    100%N) in
  body_transactionHash Scenario.requestB = Some "1-2" /\
  (exists o1, create_order Scenario.db0 Scenario.alice Scenario.requestB
              = (Created o1, db1) /\ order_id o1 = 100%N) /\
  (exists o2 db3,
     create_order db2 Scenario.alice Scenario.requestB
     = (Created o2, db3) /\
     order_id o2 = 103%N /\
     List.map order_id (orders db3) = [100%N; 103%N]).
Proof.
  cbv zeta. split; [reflexivity|]. split.
  - eexists. split; [vm_compute; reflexivity | reflexivity].
  - eexists. eexists. split; [vm_compute; reflexivity|].
    split; reflexivity.
Qed.

(** C6, amended.  Two creation calls that carry the same non-empty
    [transactionHash], the first of which creates an order, with any
    requests to the order routes in between that are no settlement of
    that order, the gateway naming no session by the hash: the second
    call answers with the [_id] of that order and [isDuplicate], whoever
    sends it and whatever else it carries, and writes nothing; after the
    first call the store holds the orders it held before and the one new
    order, and before and after the second call one order only carries
    the hash, the one the first call created. *)
Theorem duplicate_submission (env : Env) (db db1 : Db) (c1 c2 : Caller)
  (r1 r2 : OrderRequest) (h : string) (o : Order)
  (proofs : gmap ObjectId (string * N)) (cs : list Call) :
  body_transactionHash r1 = Some h ->
  h <> "" ->
  body_transactionHash r2 = Some h ->
  create_order db c1 r1 = (Created o, db1) ->
  (forall amountToPay s,
     gateway env amountToPay = Some s -> session_id s <> h) ->
  Forall (fun c => forall caller,
            c <> Route (PostCompletePayment caller (order_id o))) cs ->
  let db2 := store_db (serve_all env (mkStore db1 proofs) cs) in
  orders db1 = (orders db ++ [o])%list /\
  List.filter (hash_is h) (orders db1) = [o] /\
  create_order db2 c2 r2 = (Duplicate (order_id o), db2) /\
  sole_hash h (order_id o) (orders db2).
Proof.
  intros H1 Hne H2 Hc Hgw Hcs db2.
  apply create_order_Created in Hc as (Hguard & _ & Hnew & Hos & _).
  apply new_Order_fields in Hnew as (_ & _ & _ & _ & _ & _ & _ & _ & _ & _
                                     & _ & Hhash & _).
  specialize (Hguard h H1 Hne). rewrite H1 in Hhash.
  assert (Hh : hash_is h o = true)
    by (unfold hash_is; rewrite Hhash; apply String.eqb_refl).
  assert (Hone : List.filter (hash_is h) (orders db1) = [o]).
  { rewrite Hos, List.filter_app. unfold findOne_by_hash in Hguard.
    rewrite (find_none_filter _ _ Hguard). simpl. now rewrite Hh. }
  assert (Hsole : sole_hash h (order_id o) (orders db2)).
  { subst db2. unfold serve_all.
    assert (H0 : sole_hash h (order_id o)
                   (orders (store_db (mkStore db1 proofs))))
      by (now exists o).
    revert H0. generalize (mkStore db1 proofs).
    induction Hcs as [|c cs Hcall _ IH]; intros st H0; simpl; [exact H0|].
    apply IH. now apply serve_sole_hash. }
  split; [exact Hos|]. split; [exact Hone|]. split; [|exact Hsole].
  destruct Hsole as (o' & Hf & Ho').
  unfold create_order. rewrite H2. simpl.
  apply String.eqb_neq in Hne. rewrite Hne. simpl.
  rewrite (find_filter _ _ _ Hf). now rewrite Ho'.
Qed.

(** Alice submits the checkout of scenario B; Bob cancels her order and
    an admin sets it back on process; Alice submits the checkout
    again. *)
Lemma duplicate_submission_witness :
  let db2 := store_db
               (serve_all Scenario.gateway_up (mkStore Scenario.dbB ∅)
                  [Route (PutCancel Scenario.bob 100%N);
                   Route (PutStatus Scenario.admin 100%N
                            (Some "On Process"))]) in
  create_order db2 Scenario.alice Scenario.requestB
  = (Duplicate 100%N, db2) /\
  List.map order_id (orders db2) = [100%N].
Proof.
  cbv zeta.
  edestruct (duplicate_submission Scenario.gateway_up Scenario.db0
               Scenario.dbB Scenario.alice Scenario.alice
               Scenario.requestB Scenario.requestB "1-2")
    as (_ & _ & Hdup & _).
  - reflexivity.
  - discriminate.
  - reflexivity.
  - vm_compute. reflexivity.
  - intros amountToPay s [= <-]. discriminate.
  - repeat constructor; discriminate.
  - split; [exact Hdup | reflexivity].
Defined.
